(* ===== verification/_CoqProject ===== *)
-Q . S2P
Prelude.v
Numeric.v
Conversion.v
ConversionSpec.v
ConversionReal.v
ConversionFloat.v
TimeAxis.v
Numpy.v
Bokeh.v
Respiration.v
Spectrum.v
PyString.v
Acquire.v
Emg.v
Notebook.v
Package.v
PackageLive.v
