(* ===== verification/Prelude.v ===== *)
(** * A verified model of biosignalsnotebooks: unit conversion, time axes and notebook plots

    ** The program

    The repository (src/biosignalsnotebooks) has two parts that matter
    here.  conversion.py holds the numeric kernel: [raw_to_phy(sensor,
    device, raw_signal, resolution, option)] turns raw ADC codes of a
    PLUX or BITalino device into physical units (TEMP in Ohm, K or C; EMG
    and ECG in mV or V; BVP and SpO2 in uA or A), calling itself
    recursively for the derived units, and [generate_time(signal,
    sample_rate)] builds the time axis with [numpy.linspace].
    __notebook_support__.py holds the notebook plotting helpers, which
    receive converted signals and drive Bokeh figures: the style sheet
    loader, the sampling-rate plots, the EMG activation and median
    frequency plots, the spectrum and filter plots and the respiration
    plots are all modelled.  __init__.py only imports: thirteen
    [from .m import *] of the package's modules, [__notebook_support__]
    among them, whose top level itself imports numpy, IPython, Bokeh and
    sibling modules and calls [output_notebook(hide_banner=True)].

    ** Files, in dependency order

    - [Prelude] (this file): the error monad [py_result] of a Python call
      (raise or return) with its bind notation in [py_scope]; untyped
      arguments ([pyval], [isinstance_int]); string membership [str_in];
      numpy helpers on lists ([zip_with], [np_where], [slice], [py_index]
      for [l[k]] with IndexError, [py_foldl] for a [for] loop that may
      raise, [set_last], [push_last]/[update_last] for [rows[-1]],
      [update_nth] for a method call on [l[i]]); Python dicts as
      insertion-ordered association lists ([dict_get], [dict_set],
      [py_getitem] with KeyError) and the tactics [dict_simpl] and
      [not_in_literal] that evaluate them on literal keys; [str(n)] as
      [str_nat]; [parse_label]; the hint databases [py] and [py_rw] and
      the shared list lemmas.
    - [Numeric]: Python's int/float tower over an abstract float class
      [PyFloat] (ints exact, [/] always float, [2 ** r] an int for [r >= 0]),
      numpy arrays as lists with element-wise operations, and the instance
      [R_PyFloat] reading floats as reals.
    - [Conversion] (Module [Conversion]): [raw_to_phy_fuel], the branches
      of [raw_to_phy] line by line (conversion.py lines 28-202), with the
      device lists, calibration constants and error messages; fuel stands
      for Python's recursion limit ([raw_to_phy] uses 1000).
    - [ConversionSpec] (Module [ConversionSpec]): the closed
      sensor/device/unit table of the spec ([spec_transfer], [run_spec])
      and the refinement theorem that [raw_to_phy] computes it.
    - [ConversionReal] (Module [ConversionReal]): the transfer functions as
      real functions: worked example, monotonicity and ranges.
    - [ConversionFloat] (Module [ConversionFloat]): the IEEE binary64
      instance of the float class (primitive floats; [float(int)] and
      literals rounded to nearest even), and the conversion's outputs as
      the doubles numpy computes.
    - [TimeAxis] (Module [TimeAxis]): [linspace] after numpy's algorithm
      and [generate_time] (lines 205-230), with their closed form over R.
    - [Numpy]: numpy on arrays of reals: comparisons, [average], [max]
      and [min] with their ValueError, [diff], fancy-index and slice
      assignment, [a[:s]], [int(x)] and [numpy.interp], with the lemmas
      their clients share (slice assignment is an indicator, interpolation
      stays within the data's range).
    - [Bokeh] (Module [Bokeh]): the figure state the helpers mutate
      (glyphs, annotations, title, labels, ranges) as a record, each Bokeh
      call as a function on it, and the palette of
      [opensignals_color_pallet] as a counter.
    - [Respiration] (Module [Respiration]): [plot_resp_slow],
      [plot_resp_diff] and [_inhal_exhal_segments] (lines 840-1085):
      centring, binarisation by two in-place assignments, edge detection,
      drawing loops with every list index.
    - [Spectrum] (Module [Spectrum]): [plot_informational_band],
      [plot_before_after_filter] and [plot_low_pass_filter_response]
      (lines 492-832): limit checks, the per-order figure loop and the
      filter gains.
    - [PyString] (Module [PyString]): [int(s)] on ASCII strings (strip,
      sign, digits with single underscores; ValueError as [None]) and
      [str(z)].
    - [Acquire] (Module [Acquire]): [plot_sample_rate_compare] and
      [acquire_subsamples_gp1] (lines 119-266): the nested dicts keyed by
      rate strings, the interpolation loop, the figure rows and the grid.
    - [Emg] (Module [Emg]): [plot_compare_act_config] and
      [plot_median_freq_evol] (lines 275-488): three detections with their
      rescaling and activation arrays, the six-figure loop, the boxes per
      activation on both figures.
    - [Notebook] (Module [Notebook]): [css_style_apply] (lines 73-106)
      over a file system given as a function from paths to contents.
    - [Package] (Module [Package]): the top level of the three source
      modules as statements ([init_body]: __init__.py lines 67-79;
      [notebook_body]: __notebook_support__.py lines 53-73;
      [conversion_body]) run by a model of Python's import system:
      [sys.modules] and a trace of top-level calls in [interp],
      [load_one] (importlib's [_find_and_load]: register, run the body,
      set the attribute on the parent), [import_with] (parents first),
      [exec_stmt] ([import], [from m import x as y] with the submodule
      fallback, [from m import *] of the public names, [def], a call).
      The modules that are not under src/ are a parameter [world]; a
      demo world with the names the sources import runs the import by
      [vm_compute].
    - [PackageLive] (Module [PackageLive]): what the sources require of
      the modules outside them, computed from their import statements
      ([world_needs]), and the proof that the package import returns when
      the world provides it.

    A helper that calls a function of another module of the package or of
    a library outside the sources ([visualise.plot], [process.smooth],
    [detect.detect_emg_activations], [max_frequency], [plotfft],
    [bandpass], [opensignals_style]) takes it
    as a section variable, so every theorem holds whatever it does.  A
    helper that mutates a figure it is given is a function returning the
    new figure; one that takes palette colours threads the palette
    position.

    ** What is proved

    - Conversion (C1-C8, C16): [raw_to_phy] implements the spec's
      table (refinement); the unit chains C = K - 273.15 and V = mV / 1000;
      termination within three recursion frames; the combinations that
      return [None]; over R, monotonicity and the +-1.5 mV range of ECG
      and EMG, the thermistor's increasing resistance; every int
      resolution (bools included) accepted.  Also proved, as lemmas: the
      spec's ECG example over R, compatibility with concatenation, the
      BITalino Celsius range, A = uA * 1e-6, the error of each invalid
      input, one output sample per input sample, decreasing Kelvin
      temperature, labels reading back as their enumeration values, bool
      resolutions acting as 0 and 1.
    - Conversion in binary64 (C9-C11): with floats as IEEE doubles, the
      ECG and EMG millivolt outputs of every code of every ADC of 1 to 16
      bits stay in [-1.5, 1.5) and increase strictly from code to code;
      at every resolution from 54 to 63 bits the mid-scale code and the
      next one give the same double, so strictness is lost.  Also proved,
      as lemmas: the spec's example gives exactly the doubles Python
      prints, the BITalino Celsius range in doubles, an infinite
      resistance for the saturated code [2 ** r].
    - Time axis (C12-C15): endpoints 0 and [n / rate]; strictly
      increasing for a positive rate, decreasing for a negative one;
      spacing larger than the sampling period.  Also proved:
      ZeroDivisionError exactly for a zero rate, one point per sample,
      uniform spacing [n / ((n - 1) rate)], the 1000 Hz example.
    - Respiration (C17-C20): binarisation yields exactly two levels;
      [plot_resp_slow] raises IndexError exactly when the
      rectangular signal starts low and ends high; the drawn segments are
      shifted by one sample; a single inhalation loses the initial
      exhalation in [_inhal_exhal_segments] (with two or more it is drawn,
      a lemma).  Also proved: the edges are the rises and falls of the
      level pattern and alternate.
    - Spectrum (C21-C22): the limit check accepts exactly two-element
      lists, so the defaults [x_lim=[]], [y_lim=[]] always raise; a
      negative order makes [plot_before_after_filter] fail.  Also proved:
      the before/after grid has [order + 1] figures in a row or a column;
      the low-pass gains are strictly ordered by filter order away from
      the cut-off and -10 log10 2 at it.
    - Strings (lemmas): [int(str(z)) = z] for every int, which the
      sampling-rate plots rely on.
    - Sampling-rate plots (C23-C28): [acquire_subsamples_gp1] builds the
      dict of the eight rates, each with [n * rate // 4000] samples of time
      and data (type); it raises only on an empty recording and otherwise
      builds three rows of two figures with one second of each rate
      (liveness); every resampled value lies between the recording's min
      and max (bounds); [plot_sample_rate_compare] draws one row per key
      with the [10 * rate] and [rate] first samples, raises ValueError on a
      key that is not an int, and never raises on the dict
      [acquire_subsamples_gp1] builds (safety, their composition).
    - EMG plots (C29-C33): the fill loop of slice assignments equals the
      indicator of the detected activations, with the rescaled smoothing
      and threshold (equivalence); the 3x2 grid of
      [plot_compare_act_config] and its errors (zero rate; [plot] giving
      other than six figures); the boxes of [plot_median_freq_evol], the
      same on both figures in consecutive colours, and its errors.
    - Package import (C34-C35): [import biosignalsnotebooks] calls
      [output_notebook(hide_banner=True)] exactly once (safety, by a
      relation every step preserves); it returns, with fuel 3 or more,
      whenever the modules outside the sources define the names the
      sources import from them and import nothing (liveness, by the
      invariant that every loaded module of definitions has its names
      bound).  Also proved, as lemmas: any import terminates when the fuel
      is at least the number of findable modules not yet loaded, cycles
      included, because a module is registered before its body runs; a
      star import binds exactly the public names of the module over the
      previous bindings; the second [from .synchronisation import *]
      runs no code.  In the demo world the package's [bandpass] is
      novainstrumentation's, not [process]'s.

    ** Bounds, fuel and numbers

    [raw_to_phy] recurses at most twice below its first frame (C = K of
    Ohm), so fuel 3 gives the result of fuel 1000, Python's default
    recursion limit ([raw_to_phy_terminates]).  [str_nat] uses [n + 1]
    steps, enough since each step divides by 10.  Every other loop is a
    [for] over a finite list ([py_foldl]) and needs no fuel.  The import
    interpreter takes fuel for the nesting of imports; one unit per
    module not yet in [sys.modules] is enough ([import_terminates]); the
    package needs 3 (itself, conversion.py or __notebook_support__.py,
    the modules they import), and
    [OutOfFuel] is an outcome of its own, never confused with an
    exception of the program.  Python ints are [Z]
    (unbounded, as in Python); numpy arrays of raw codes are not checked
    for int64 overflow.  Floats are an abstract class with two instances:
    the theorems over R read them as reals, so rounding, [inf] and [nan]
    (numpy's division by a zero maximum in [plot_resp_diff] and
    [plot_compare_act_config]) are outside them; [ConversionFloat] reads
    them as IEEE binary64 doubles and checks the conversion by evaluation
    over all codes up to 16 bits, the widest ADC of the devices listed
    (2 ** 17 - 2 codes per calibration).  libm's [log] and [pow] are
    parameters there, since IEEE 754 does not fix them.  The sampling rates the
    EMG helpers divide by are Python ints, whose division by zero raises
    ZeroDivisionError.  [int(s)] covers ASCII strings only.

    ** Not modelled

    The file names of [_generate_bokeh_file] and the HTML object of
    IPython (I/O); [show] (display); Bokeh rendering; the functions of
    other modules of the package the helpers call (parameters, see
    above), whose import-time bodies are the parameter [world] of
    [Package]; the docstrings of the modules; [__all__] (no source module
    defines one), import locks and threads.  Every function of the
    source files is modelled. *)

From Stdlib Require Import String List ZArith QArith Bool Lia Permutation.
Import ListNotations.

(** ** Python call outcomes *)

(** A Python call either raises an exception or returns a value.  The
    exception type [E] is chosen per component. *)
Inductive py_result (E A : Type) : Type :=
| Raise (e : E)
| Ret (a : A).
Arguments Raise {E A} e.
Arguments Ret {E A} a.

Definition py_bind {E A B : Type} (c : py_result E A) (k : A -> py_result E B)
  : py_result E B :=
  match c with
  | Raise e => Raise e
  | Ret a => k a
  end.

Definition py_fmap {E A B : Type} (f : A -> B) (c : py_result E A) : py_result E B :=
  py_bind c (fun a => Ret (f a)).

Declare Scope py_scope.
Delimit Scope py_scope with py.
Notation "x <- c ;; k" := (py_bind c (fun x => k))
  (at level 61, c at next level, right associativity) : py_scope.
Notation "' p <- c ;; k" := (py_bind c (fun x => match x with p => k end))
  (at level 61, p pattern, c at next level, right associativity) : py_scope.

(** ** Untyped Python arguments *)

(** A value passed to a parameter the code inspects with [isinstance]:
    Python's [bool] is a subclass of [int]; floats are kept as their exact
    decimal value. *)
Inductive pyval : Type :=
| PInt (z : Z)
| PBool (b : bool)
| PFloat (q : Q)
| PStr (s : string)
| PNone.

(** [isinstance(v, int)]. *)
Definition isinstance_int (v : pyval) : bool :=
  match v with
  | PInt _ | PBool _ => true
  | _ => false
  end.

(** The integer an [int] (or [bool]) argument denotes. *)
Definition int_value (v : pyval) : Z :=
  match v with
  | PInt z => z
  | PBool b => Z.b2z b
  | _ => 0%Z
  end.

(** ** Strings *)

(** [s in l] on a list of strings. *)
Definition str_in (s : string) (l : list string) : bool :=
  existsb (fun e => String.eqb e s) l.

(** Membership tests stay folded under [simpl]; they compute under
    [vm_compute] and are rewritten with [str_in_true] and [str_in_false]. *)
Arguments str_in : simpl never.

(** [needle in hay] on two strings (substring test). *)
Fixpoint str_contains (needle hay : string) : bool :=
  match hay with
  | EmptyString => String.eqb needle EmptyString
  | String _ rest => String.prefix needle hay || str_contains needle rest
  end.

(** ** Lists *)

(** Element-wise combination of two sequences of the same length. *)
Fixpoint zip_with {A B C : Type} (f : A -> B -> C) (l1 : list A) (l2 : list B)
  : list C :=
  match l1, l2 with
  | x :: r1, y :: r2 => f x y :: zip_with f r1 r2
  | _, _ => []
  end.

(** ** Generic lemmas *)

Create HintDb py discriminated.
Create Rewrite HintDb py_rw.

Lemma py_bind_ret {E A B} (a : A) (k : A -> py_result E B) :
  py_bind (Ret a) k = k a.
Proof. reflexivity. Qed.

Lemma py_bind_raise {E A B} (e : E) (k : A -> py_result E B) :
  py_bind (Raise e) k = Raise e.
Proof. reflexivity. Qed.

Lemma py_fmap_fmap {E A B C} (f : A -> B) (g : B -> C) (c : py_result E A) :
  py_fmap g (py_fmap f c) = py_fmap (fun a => g (f a)) c.
Proof. destruct c; reflexivity. Qed.

Lemma py_bind_assoc {E A B C} (c : py_result E A) (k1 : A -> py_result E B)
      (k2 : B -> py_result E C) :
  py_bind (py_bind c k1) k2 = py_bind c (fun a => py_bind (k1 a) k2).
Proof. destruct c; reflexivity. Qed.

#[export] Hint Rewrite @py_bind_ret @py_bind_raise @py_fmap_fmap @py_bind_assoc : py_rw.

(** A call that returned: its first part returned too. *)
Lemma py_bind_Ret_inv {E A B} (c : py_result E A) (k : A -> py_result E B) (b : B) :
  py_bind c k = Ret b -> exists a, c = Ret a /\ k a = Ret b.
Proof. destruct c as [e|a]; cbn; [discriminate|eauto]. Qed.

Lemma str_in_true s l : str_in s l = true <-> In s l.
Proof.
  unfold str_in. rewrite existsb_exists. split.
  - intros [e [He Heq]]. apply String.eqb_eq in Heq. now subst.
  - intros H. exists s. split; [exact H | apply String.eqb_refl].
Qed.

Lemma str_in_false s l : str_in s l = false <-> ~ In s l.
Proof.
  rewrite <- str_in_true. destruct (str_in s l); split; congruence.
Qed.

Lemma length_zip_with {A B C} (f : A -> B -> C) l1 l2 :
  length (zip_with f l1 l2) = Nat.min (length l1) (length l2).
Proof.
  revert l2; induction l1 as [|x r IH]; intros [|y r2]; simpl; auto.
Qed.

(** Element-wise combination of two maps of one list is one map. *)
Lemma zip_with_map_map {A B C D} (f : B -> C -> D) (g : A -> B) (h : A -> C) l :
  zip_with f (map g l) (map h l) = map (fun x => f (g x) (h x)) l.
Proof. induction l as [|x r IH]; simpl; f_equal; auto. Qed.

#[export] Hint Rewrite @zip_with_map_map @map_map : py_rw.

(** Rewrites the [String.eqb] and [str_in] tests of a hypothesis into
    propositions. *)
Ltac str_facts :=
  repeat match goal with
  | H : String.eqb _ _ = true |- _ => apply String.eqb_eq in H; subst
  | H : String.eqb _ _ = false |- _ => apply String.eqb_neq in H
  | H : str_in _ _ = true |- _ => apply str_in_true in H
  | H : str_in _ _ = false |- _ => apply str_in_false in H
  end.

(** ** Enumerations named by strings *)

(** The element of [xs] whose label is [s], if any: how a closed
    enumeration is read back from the string the code compares. *)
Definition parse_label {A : Type} (label : A -> string) (xs : list A) (s : string)
  : option A :=
  find (fun x => String.eqb (label x) s) xs.

Section Labels.
Context {A : Type} (label : A -> string) (xs : list A).

Lemma parse_label_some s x : parse_label label xs s = Some x -> label x = s.
Proof.
  unfold parse_label. intros Hf. apply find_some in Hf as [_ Heq].
  now apply String.eqb_eq.
Qed.

Lemma parse_label_none s : parse_label label xs s = None -> forall x, In x xs -> label x <> s.
Proof.
  unfold parse_label. intros Hf x Hx Heq.
  apply (find_none _ _ Hf x) in Hx. apply String.eqb_neq in Hx. contradiction.
Qed.

(** A string that labels no element of a complete enumeration is in no
    list of labels. *)
Lemma parse_label_none_str_in s ys :
  parse_label label xs s = None -> (forall x, In x xs) ->
  str_in s (map label ys) = false.
Proof.
  intros Hn Hall. apply str_in_false. intros Hin.
  apply in_map_iff in Hin as [x [Hx _]].
  exact (parse_label_none s Hn x (Hall x) Hx).
Qed.

End Labels.

(** Splits [In x [a; b; ...]] into one goal per element, with [x]
    replaced by it. *)
Ltac in_cases H :=
  simpl in H; repeat (destruct H as [<-|H]); try contradiction.

(** [y[-1] = x] on a list: the last element replaced, an empty list
    unchanged. *)
Definition set_last {A : Type} (l : list A) (x : A) : list A :=
  match l with
  | [] => []
  | _ :: _ => removelast l ++ [x]
  end.

Lemma set_last_snoc {A : Type} (l : list A) (a x : A) :
  set_last (l ++ [a]) x = l ++ [x].
Proof.
  unfold set_last. rewrite removelast_last. destruct l; reflexivity.
Qed.

Lemma length_set_last {A : Type} (l : list A) (x : A) : length (set_last l x) = length l.
Proof.
  destruct l as [|a r] using rev_ind; [reflexivity|].
  rewrite set_last_snoc, !length_app. reflexivity.
Qed.

Lemma nth_map_seq {A : Type} (f : nat -> A) (n i : nat) (d : A) :
  (i < n)%nat -> nth i (map f (seq 0 n)) d = f i.
Proof.
  intros Hi. rewrite nth_indep with (d' := f 0%nat) by (rewrite length_map, length_seq; exact Hi).
  rewrite map_nth, seq_nth by exact Hi. reflexivity.
Qed.

Lemma last_map_seq {A : Type} (f : nat -> A) (n : nat) (d : A) :
  last (map f (seq 0 (S n))) d = f n.
Proof. rewrite seq_S, map_app. apply last_last. Qed.

(** ** Python sequences *)

(** [l[k]]: the element, or [err] (IndexError) out of range. *)
Definition py_index {E A : Type} (err : E) (l : list A) (k : nat) : py_result E A :=
  match nth_error l k with
  | Some x => Ret x
  | None => Raise err
  end.

(** [l[lo:hi]] and [l[lo:]] with non-negative bounds: clipped to the
    list, empty when [hi <= lo]. *)
Definition slice {A : Type} (l : list A) (lo : nat) (hi : option nat) : list A :=
  match hi with
  | Some h => firstn (h - lo) (skipn lo l)
  | None => skipn lo l
  end.

(** A [for] loop over [l] whose body may raise. *)
Fixpoint py_foldl {E A B : Type} (f : B -> A -> py_result E B) (l : list A) (b : B)
  : py_result E B :=
  match l with
  | [] => Ret b
  | x :: r => py_bind (f b x) (py_foldl f r)
  end.

(** [numpy.where(p(a))[0]]: the indices, in order, of the elements that
    satisfy [p]. *)
Fixpoint where_from {A : Type} (p : A -> bool) (i : nat) (l : list A) : list nat :=
  match l with
  | [] => []
  | x :: r => if p x then i :: where_from p (S i) r else where_from p (S i) r
  end.

Definition np_where {A : Type} (p : A -> bool) (l : list A) : list nat := where_from p 0 l.

Lemma py_index_ok {E A} (err : E) (l : list A) k :
  (k < length l)%nat -> exists x, py_index err l k = Ret x /\ nth_error l k = Some x.
Proof.
  intros Hk. unfold py_index. destruct (nth_error l k) eqn:Hn.
  - eauto.
  - apply nth_error_None in Hn. lia.
Qed.

Lemma py_index_out {E A} (err : E) (l : list A) k :
  (length l <= k)%nat -> py_index err l k = Raise err.
Proof. intros Hk. unfold py_index. now rewrite (proj2 (nth_error_None l k) Hk). Qed.

Lemma nth_error_lt {A : Type} (l : list A) n : (n < length l)%nat -> exists a, nth_error l n = Some a.
Proof. intros H. apply nth_error_Some in H. destruct (nth_error l n); [eauto|congruence]. Qed.

Lemma py_foldl_app {E A B} (f : B -> A -> py_result E B) l1 l2 b :
  py_foldl f (l1 ++ l2) b = py_bind (py_foldl f l1 b) (py_foldl f l2).
Proof.
  revert b; induction l1 as [|x r IH]; intros b; simpl; [reflexivity|].
  destruct (f b x); simpl; auto.
Qed.

(** A property every iteration keeps holds after a loop that returned. *)
Lemma py_foldl_invariant {E A B} (P : B -> Prop) (f : B -> A -> py_result E B) l b :
  P b -> (forall b0 x b1, P b0 -> f b0 x = Ret b1 -> P b1) ->
  forall b', py_foldl f l b = Ret b' -> P b'.
Proof.
  intros Hb Hstep. revert b Hb. induction l as [|x r IH]; intros b Hb b' Hrun; cbn in Hrun.
  - now injection Hrun as <-.
  - apply py_bind_Ret_inv in Hrun as (b1 & H1 & H2). exact (IH b1 (Hstep _ _ _ Hb H1) b' H2).
Qed.

Section Where.
Context {A : Type}.

Lemma where_from_shift (p : A -> bool) i l :
  where_from p (S i) l = map S (where_from p i l).
Proof.
  revert i; induction l as [|x r IH]; intros i; simpl; [reflexivity|].
  destruct (p x); simpl; rewrite IH; reflexivity.
Qed.

Lemma length_where_from (p : A -> bool) i l : length (where_from p i l) = length (filter p l).
Proof.
  revert i; induction l as [|x r IH]; intros i; simpl; [reflexivity|].
  destruct (p x); simpl; rewrite IH; reflexivity.
Qed.

Lemma where_from_map {B : Type} (p : B -> bool) (f : A -> B) i l :
  where_from p i (map f l) = where_from (fun x => p (f x)) i l.
Proof.
  revert i; induction l as [|x r IH]; intros i; simpl; [reflexivity|].
  destruct (p (f x)); rewrite IH; reflexivity.
Qed.

Lemma where_from_ext (p q : A -> bool) i l :
  (forall x, In x l -> p x = q x) -> where_from p i l = where_from q i l.
Proof.
  revert i; induction l as [|x r IH]; intros i Hpq; simpl; [reflexivity|].
  rewrite (Hpq x (or_introl eq_refl)), IH; [reflexivity|].
  intros y Hy. apply Hpq. now right.
Qed.

Lemma where_from_bounds (p : A -> bool) i l k :
  In k (where_from p i l) -> (i <= k < i + length l)%nat.
Proof.
  revert i; induction l as [|x r IH]; intros i Hk; simpl in *; [contradiction|].
  destruct (p x); [destruct Hk as [<-|Hk]; [lia|]|]; apply IH in Hk; lia.
Qed.

End Where.

Lemma zip_with_diag {A C : Type} (f : A -> A -> C) l :
  zip_with f l l = map (fun x => f x x) l.
Proof. induction l as [|x r IH]; simpl; f_equal; auto. Qed.

Lemma zip_with_map_l {A B C D : Type} (f : B -> C -> D) (g : A -> B) l1 l2 :
  zip_with f (map g l1) l2 = zip_with (fun x y => f (g x) y) l1 l2.
Proof. revert l2; induction l1 as [|x r IH]; intros [|y r2]; simpl; f_equal; auto. Qed.

Lemma where_from_In {A : Type} (p : A -> bool) i l k :
  In k (where_from p i l) -> exists x, nth_error l (k - i) = Some x /\ p x = true.
Proof.
  revert i; induction l as [|x r IH]; intros i Hk; simpl in Hk; [contradiction|].
  assert (Hb : forall j, In k (where_from p (S j) r) -> (S j <= k)%nat)
    by (intros j Hj; apply where_from_bounds in Hj; lia).
  destruct (p x) eqn:Hp; [destruct Hk as [<-|Hk]|]; [rewrite Nat.sub_diag; simpl; eauto| |].
  all: specialize (Hb _ Hk); apply IH in Hk as [y [Hy Hpy]];
    replace (k - i)%nat with (S (k - S i)) by lia; eauto.
Qed.

Lemma nth_error_zip_with {A B C : Type} (f : A -> B -> C) l1 l2 k z :
  nth_error (zip_with f l1 l2) k = Some z ->
  exists x y, nth_error l1 k = Some x /\ nth_error l2 k = Some y /\ z = f x y.
Proof.
  revert l2 k; induction l1 as [|x r IH]; intros [|y r2] [|k] Hz; simpl in *; try discriminate.
  - injection Hz as <-. eauto.
  - eauto.
Qed.

Lemma nth_error_tl {A : Type} (l : list A) k : nth_error (tl l) k = nth_error l (S k).
Proof. destruct l; [destruct k|]; reflexivity. Qed.

(** [str(n)] of a non-negative Python int: its decimal digits.  [n / 10 < n]
    for [n >= 10], so [S n] steps are enough. *)
Fixpoint str_nat_fuel (fuel n : nat) (acc : string) : string :=
  match fuel with
  | O => acc
  | S f =>
      let acc := String (Ascii.ascii_of_nat (48 + n mod 10)) acc in
      if Nat.ltb n 10 then acc else str_nat_fuel f (n / 10) acc
  end.

Definition str_nat (n : nat) : string := str_nat_fuel (S n) n EmptyString.

(** ** Python dicts with string keys

    A dict is the list of its items in insertion order, as [dict.keys()]
    iterates them.  [d[k] = v] replaces the value of an existing key in
    place and appends a new key at the end. *)

Section Dict.
Context {V : Type}.

Fixpoint dict_get (d : list (string * V)) (k : string) : option V :=
  match d with
  | [] => None
  | (k', v) :: r => if String.eqb k k' then Some v else dict_get r k
  end.

Fixpoint dict_set (d : list (string * V)) (k : string) (v : V) : list (string * V) :=
  match d with
  | [] => [(k, v)]
  | (k', v') :: r => if String.eqb k k' then (k, v) :: r else (k', v') :: dict_set r k v
  end.

(** [d[k]], raising [err] (KeyError) for a missing key. *)
Definition py_getitem {E : Type} (err : E) (d : list (string * V)) (k : string) : py_result E V :=
  match dict_get d k with
  | Some v => Ret v
  | None => Raise err
  end.

Lemma dict_get_set_same d k v : dict_get (dict_set d k v) k = Some v.
Proof.
  induction d as [|[k' v'] r IH]; cbn; [now rewrite String.eqb_refl|].
  destruct (String.eqb_spec k k'); cbn; [now rewrite String.eqb_refl|].
  apply String.eqb_neq in n. now rewrite n.
Qed.

Lemma dict_get_set_diff d k k' v : k <> k' -> dict_get (dict_set d k v) k' = dict_get d k'.
Proof.
  intros Hne. induction d as [|[k0 v0] r IH]; cbn.
  - apply String.eqb_neq in Hne. now rewrite String.eqb_sym, Hne.
  - destruct (String.eqb_spec k k0) as [->|]; cbn.
    + apply String.eqb_neq in Hne. now rewrite String.eqb_sym, Hne.
    + now rewrite IH.
Qed.

Lemma dict_keys_set_old d k v : In k (map fst d) -> map fst (dict_set d k v) = map fst d.
Proof.
  induction d as [|[k0 v0] r IH]; cbn; [contradiction|]. intros [->|Hk].
  - now rewrite String.eqb_refl.
  - destruct (String.eqb_spec k k0) as [->|]; cbn; [reflexivity|]. now rewrite IH.
Qed.

Lemma dict_keys_set_new d k v : ~ In k (map fst d) -> map fst (dict_set d k v) = map fst d ++ [k].
Proof.
  induction d as [|[k0 v0] r IH]; cbn; [reflexivity|]. intros Hk.
  destruct (String.eqb_spec k k0) as [->|]; [exfalso; auto|]. cbn. f_equal. auto.
Qed.

(** [d[k] = v] keeps the keys of a dict distinct. *)
Lemma dict_set_NoDup d k v : NoDup (map fst d) -> NoDup (map fst (dict_set d k v)).
Proof.
  intros Hnd. destruct (in_dec string_dec k (map fst d)) as [Hin|Hout].
  - now rewrite dict_keys_set_old.
  - rewrite dict_keys_set_new by exact Hout.
    apply (Permutation_NoDup (Permutation_cons_append _ _)). now constructor.
Qed.

Lemma dict_get_In d k v : dict_get d k = Some v -> In (k, v) d.
Proof.
  induction d as [|[k0 v0] r IH]; cbn; [discriminate|].
  destruct (String.eqb_spec k k0) as [->|]; [intros [= ->]; now left|auto].
Qed.

Lemma dict_get_some d k : In k (map fst d) -> exists v, dict_get d k = Some v.
Proof.
  induction d as [|[k0 v0] r IH]; cbn; [contradiction|]. intros Hk.
  destruct (String.eqb_spec k k0); [eauto|]. destruct Hk as [->|Hk]; [congruence|auto].
Qed.

(** In a dict without repeated keys, the value found is the one stored. *)
Lemma dict_get_NoDup d k v : NoDup (map fst d) -> In (k, v) d -> dict_get d k = Some v.
Proof.
  induction d as [|[k0 v0] r IH]; cbn; [contradiction|]. intros Hnd Hin.
  inversion Hnd as [|? ? Hk0 Hr]; subst.
  destruct Hin as [Heq|Hin]; [injection Heq as <- <-; now rewrite String.eqb_refl|].
  destruct (String.eqb_spec k k0) as [->|]; [|auto].
  exfalso. apply Hk0. now apply (in_map fst) in Hin.
Qed.

Lemma dict_set_nil k v : dict_set [] k v = [(k, v)].
Proof. reflexivity. Qed.

Lemma dict_get_single k v : dict_get [(k, v)] k = Some v.
Proof. cbn. now rewrite String.eqb_refl. Qed.

Lemma py_getitem_some {E : Type} (err : E) d k v : dict_get d k = Some v -> py_getitem err d k = Ret v.
Proof. unfold py_getitem. now intros ->. Qed.

Lemma dict_get_cons_eq d k v : dict_get ((k, v) :: d) k = Some v.
Proof. cbn. now rewrite String.eqb_refl. Qed.

Lemma dict_get_cons_neq d k k' v : k <> k' -> dict_get ((k', v) :: d) k = dict_get d k.
Proof. intros Hne. cbn. apply String.eqb_neq in Hne. now rewrite Hne. Qed.

Lemma dict_set_cons_eq d k v v' : dict_set ((k, v) :: d) k v' = (k, v') :: d.
Proof. cbn. now rewrite String.eqb_refl. Qed.

Lemma dict_set_cons_neq d k k' v v' :
  k <> k' -> dict_set ((k', v) :: d) k v' = (k', v) :: dict_set d k v'.
Proof. intros Hne. cbn. apply String.eqb_neq in Hne. now rewrite Hne. Qed.

Lemma dict_set_new d k v : ~ In k (map fst d) -> dict_set d k v = d ++ [(k, v)].
Proof.
  induction d as [|[k0 v0] r IH]; cbn; [reflexivity|]. intros Hk.
  destruct (String.eqb_spec k k0) as [->|]; [exfalso; auto|]. f_equal. auto.
Qed.

Lemma dict_get_app_new d k v : ~ In k (map fst d) -> dict_get (d ++ [(k, v)]) k = Some v.
Proof.
  induction d as [|[k0 v0] r IH]; cbn; [now rewrite String.eqb_refl|]. intros Hk.
  destruct (String.eqb_spec k k0) as [->|]; [exfalso; auto|]. auto.
Qed.

Lemma dict_set_app_new d k v v' :
  ~ In k (map fst d) -> dict_set (d ++ [(k, v)]) k v' = d ++ [(k, v')].
Proof.
  induction d as [|[k0 v0] r IH]; cbn; [now rewrite String.eqb_refl|]. intros Hk.
  destruct (String.eqb_spec k k0) as [->|]; [exfalso; auto|]. f_equal. auto.
Qed.

End Dict.

(** Close [~ In k l] for literal strings. *)
Ltac not_in_literal :=
  vm_compute; let H := fresh in intros H;
  repeat match type of H with _ \/ _ => destruct H as [H|H] end;
  first [exact H | discriminate H].

(** Evaluate dict reads and writes on items with literal keys. *)
Ltac dict_simpl :=
  repeat first
    [ rewrite dict_get_cons_eq
    | rewrite dict_get_cons_neq by discriminate
    | rewrite dict_set_cons_eq
    | rewrite dict_set_cons_neq by discriminate
    | rewrite dict_set_nil ].

(** ** Lists of rows *)

(** [rows[-1].append(x)], raising [err] (IndexError) on an empty list. *)
Definition push_last {E A : Type} (err : E) (rows : list (list A)) (x : A)
  : py_result E (list (list A)) :=
  match rev rows with
  | [] => Raise err
  | r :: rs => Ret (rev rs ++ [r ++ [x]])
  end.

(** [l[-1] = g(l[-1])] on a non-empty list. *)
Definition update_last {A : Type} (l : list A) (g : A -> A) : list A :=
  match rev l with
  | [] => []
  | x :: r => rev r ++ [g x]
  end.

Lemma update_last_snoc {A : Type} (l : list A) (x : A) (g : A -> A) :
  update_last (l ++ [x]) g = l ++ [g x].
Proof. unfold update_last. rewrite rev_app_distr. cbn. now rewrite rev_involutive. Qed.

Lemma push_last_snoc {E A : Type} (err : E) (rows : list (list A)) (r : list A) (x : A) :
  push_last err (rows ++ [r]) x = Ret (rows ++ [r ++ [x]]).
Proof. unfold push_last. rewrite rev_app_distr. cbn. now rewrite rev_involutive. Qed.

(** [l[i].method(...)] on an object of a list: the element at [i] becomes
    [g] of it; nothing changes out of range (the caller has read [l[i]]
    first, which raised there). *)
Fixpoint update_nth {A : Type} (l : list A) (i : nat) (g : A -> A) : list A :=
  match l, i with
  | [], _ => []
  | x :: r, O => g x :: r
  | x :: r, S j => x :: update_nth r j g
  end.

Lemma length_update_nth {A : Type} (l : list A) i g : length (update_nth l i g) = length l.
Proof. revert i; induction l as [|x r IH]; intros [|i]; cbn; auto. Qed.

Lemma nth_error_update_nth {A : Type} (l : list A) i j g :
  nth_error (update_nth l i g) j = if Nat.eqb i j then option_map g (nth_error l j) else nth_error l j.
Proof.
  revert i j; induction l as [|x r IH]; intros [|i] [|j]; cbn; try apply IH;
    try destruct (Nat.eqb _ _); try destruct j; reflexivity.
Qed.
