(* ===== verification/Numeric.v ===== *)
(** * Numeric: Python numbers and numpy arrays

    The conversion code mixes Python [int]s (raw ADC codes, [2 ** resolution],
    integer calibration constants such as [gain = 1]) with floats (literals
    such as [3.0] or [1.019], every result of [/]).  This file models that
    numeric tower: a value is [NInt z] or [NFloat x], arithmetic on two ints
    stays exact, anything else is promoted to float, and [/] is always true
    division.  The float type is abstract, given by the class [PyFloat];
    numpy arrays of numbers are lists, operated on element-wise.

    The instance [R_PyFloat] interprets floats as real numbers (rounding is
    left out; [ConversionFloat] gives the IEEE binary64 instance); the [num_R] rewrite database turns a computation on
    [num R] into a plain real expression. *)

From Stdlib Require Import ZArith QArith Reals Qreals List Lra.
From S2P Require Import Prelude.
Import ListNotations.

(** ** The float interface *)

Class PyFloat (F : Type) := {
  fadd : F -> F -> F;
  fsub : F -> F -> F;
  fmul : F -> F -> F;
  fdiv : F -> F -> F;
  (** [float(z)] for an int [z] *)
  fof_Z : Z -> F;
  (** a float literal, by its exact decimal value *)
  flit : Q -> F;
  (** [x ** e] for a float [x] and an int [e] *)
  fpowZ : F -> Z -> F;
  (** [numpy.log] *)
  flog : F -> F;
  (** [x == 0.0] *)
  fis_zero : F -> bool
}.

Section Tower.
Context {F : Type} `{PyFloat F}.

(** A Python (or numpy scalar) number. *)
Inductive num : Type :=
| NInt (z : Z)
| NFloat (x : F).

Definition to_float (a : num) : F :=
  match a with
  | NInt z => fof_Z z
  | NFloat x => x
  end.

(** [+], [-], [*]: exact on two ints, float otherwise. *)
Definition nadd (a b : num) : num :=
  match a, b with
  | NInt x, NInt y => NInt (x + y)
  | _, _ => NFloat (fadd (to_float a) (to_float b))
  end.

Definition nsub (a b : num) : num :=
  match a, b with
  | NInt x, NInt y => NInt (x - y)
  | _, _ => NFloat (fsub (to_float a) (to_float b))
  end.

Definition nmul (a b : num) : num :=
  match a, b with
  | NInt x, NInt y => NInt (x * y)
  | _, _ => NFloat (fmul (to_float a) (to_float b))
  end.

(** [/] is true division: always a float. *)
Definition ndiv (a b : num) : num := NFloat (fdiv (to_float a) (to_float b)).

(** [a ** e] with an int exponent: an int when both are ints and [e >= 0],
    a float otherwise ([2 ** -1 == 0.5]). *)
Definition npow (a : num) (e : Z) : num :=
  match a with
  | NInt b => if (0 <=? e)%Z then NInt (b ^ e) else NFloat (fpowZ (fof_Z b) e)
  | NFloat x => NFloat (fpowZ x e)
  end.

(** Case analysis on the proofs' side should not open the sign test of the
    exponent. *)
Arguments npow : simpl never.

(** [numpy.log]. *)
Definition nlog (a : num) : num := NFloat (flog (to_float a)).

(** ** numpy arrays *)

Definition array := list num.

(** [numpy.array(l)] of a list of Python ints. *)
Definition np_array (l : list Z) : array := map NInt l.

(** [s op a] and [a op s]: a scalar broadcast over an array. *)
Definition sv (op : num -> num -> num) (s : num) (a : array) : array := map (op s) a.
Definition vs (op : num -> num -> num) (a : array) (s : num) : array :=
  map (fun x => op x s) a.

(** [a op b] on two arrays of one shape. *)
Definition vv (op : num -> num -> num) (a b : array) : array := zip_with op a b.

(** [f(a)] for a numpy ufunc [f]. *)
Definition vmap (f : num -> num) (a : array) : array := map f a.

Lemma length_np_array l : length (np_array l) = length l.
Proof. apply length_map. Qed.

Lemma length_sv op s a : length (sv op s a) = length a.
Proof. apply length_map. Qed.

Lemma length_vs op a s : length (vs op a s) = length a.
Proof. apply length_map. Qed.

Lemma length_vmap f a : length (vmap f a) = length a.
Proof. apply length_map. Qed.

Lemma length_vv op a b : length a = length b -> length (vv op a b) = length a.
Proof. intros E. unfold vv. rewrite length_zip_with, E. apply Nat.min_id. Qed.

End Tower.

Arguments num F : clear implicits.
Arguments array F : clear implicits.

#[export] Hint Rewrite @length_sv @length_vs @length_vmap @length_np_array : py_rw.

(** ** Real-number interpretation *)

Open Scope R_scope.

#[export] Instance R_PyFloat : PyFloat R := {
  fadd := Rplus;
  fsub := Rminus;
  fmul := Rmult;
  fdiv := Rdiv;
  fof_Z := IZR;
  flit := Q2R;
  fpowZ := powerRZ;
  flog := ln;
  fis_zero x := if Req_dec_T x 0 then true else false
}.

Create Rewrite HintDb num_R.

Lemma to_float_nadd (a b : num R) : to_float (nadd a b) = to_float a + to_float b.
Proof. destruct a, b; simpl; rewrite ?plus_IZR; reflexivity. Qed.

Lemma to_float_nsub (a b : num R) : to_float (nsub a b) = to_float a - to_float b.
Proof. destruct a, b; simpl; rewrite ?minus_IZR; reflexivity. Qed.

Lemma to_float_nmul (a b : num R) : to_float (nmul a b) = to_float a * to_float b.
Proof. destruct a, b; simpl; rewrite ?mult_IZR; reflexivity. Qed.

Lemma to_float_ndiv (a b : num R) : to_float (ndiv a b) = to_float a / to_float b.
Proof. reflexivity. Qed.

Lemma to_float_npow (a : num R) (e : Z) :
  to_float (npow a e) = powerRZ (to_float a) e.
Proof.
  destruct a as [b|x]; simpl; [|reflexivity].
  destruct (Z.leb_spec 0 e) as [He|He]; simpl; [|reflexivity].
  rewrite <- (Z2Nat.id e He), <- pow_powerRZ, <- pow_IZR. reflexivity.
Qed.

Lemma to_float_nlog (a : num R) : to_float (nlog a) = ln (to_float a).
Proof. reflexivity. Qed.

Lemma to_float_NInt (z : Z) : to_float (F := R) (NInt z) = IZR z.
Proof. reflexivity. Qed.

Lemma to_float_NFloat (x : R) : to_float (NFloat x) = x.
Proof. reflexivity. Qed.

#[export] Hint Rewrite to_float_nadd to_float_nsub to_float_nmul to_float_ndiv
  to_float_npow to_float_nlog to_float_NInt to_float_NFloat : num_R.

(** [2 ** resolution] is a positive real for every int [resolution]. *)
Lemma pow2_pos (r : Z) : 0 < powerRZ 2 r.
Proof. apply powerRZ_lt. lra. Qed.

#[export] Hint Resolve pow2_pos : py.

(** ** Real-number helper lemmas *)

Lemma Rdiv_lt_mono_r (a b c : R) : 0 < c -> a < b -> a / c < b / c.
Proof.
  intros Hc Hab. unfold Rdiv. apply Rmult_lt_compat_r; [apply Rinv_0_lt_compat|]; auto.
Qed.

(** Dividing by a number at least 1 keeps a value inside a symmetric
    interval. *)
Lemma Rdiv_ge1_bounds (a v g : R) : 1 <= g -> -a <= v < a -> -a <= v / g < a.
Proof.
  intros Hg [Hl Hu]. unfold Rdiv.
  assert (Hi : 0 < / g) by (apply Rinv_0_lt_compat; lra).
  assert (Hi1 : / g <= 1) by (rewrite <- Rinv_1; apply Rinv_le_contravar; lra).
  destruct (Rle_or_lt 0 v); split; nra.
Qed.

(** [x ** 3] is strictly increasing on all reals. *)
Lemma cube_lt (x y : R) : x < y -> x * (x * (x * 1)) < y * (y * (y * 1)).
Proof.
  intros Hxy.
  assert (H1 : 0 < (y - x) * (y - x)) by (apply Rmult_lt_0_compat; lra).
  assert (H2 : 0 <= (x + y) * (x + y)) by apply Rle_0_sqr.
  assert (Hq : 0 < y * y + x * y + x * x) by nra.
  assert (Hd : 0 < (y - x) * (y * y + x * y + x * x)) by (apply Rmult_lt_0_compat; lra).
  nra.
Qed.

(** [2 ** r] for a non-negative int is the exact integer [2 ^ r]. *)
Lemma powerRZ_2_IZR (r : Z) : (0 <= r)%Z -> powerRZ 2 r = IZR (2 ^ r).
Proof.
  intros Hr. rewrite <- (Z2Nat.id r Hr), <- pow_powerRZ, <- pow_IZR. reflexivity.
Qed.
