(* ===== verification/Conversion.v ===== *)
(** * Conversion: the sensor transfer functions of [raw_to_phy]

    A line-by-line model of [raw_to_phy] in
    src/biosignalsnotebooks/build/lib/biosignalsnotebooks/conversion.py.
    Sensor, device and unit are the strings the code compares; the raw
    samples are Python ints turned into a numpy array; the resolution is an
    untyped Python value checked with [isinstance].  The code's recursive
    self-calls for derived units (K calls Ohm, C calls K, V calls mV, A
    calls uA) are calls of [raw_to_phy_fuel] with one unit of fuel less; an
    exhausted fuel is Python's [RecursionError].  The float type is any
    instance of [PyFloat].

    Proved here, for every float type: the recursion needs at most three
    frames, so the fuel of the Python recursion limit is never exhausted;
    the error each invalid input raises; the unit chains C = K - 273.15,
    V = mV / 1000 and A = uA * 1e-6; the combinations that return [None];
    and that a returned array has one sample per raw sample. *)

From Stdlib Require Import String List ZArith QArith Bool Reals.
From S2P Require Import Prelude Numeric.
Import ListNotations.

Module Conversion.

(** ** Exceptions raised by [raw_to_phy] *)

Inductive conv_error : Type :=
| ResolutionNotInt      (** RuntimeError, line 81 *)
| NoTransferForDevice   (** RuntimeError, lines 93, 110, 132, 153, 170, 191 *)
| InvalidUnit           (** RuntimeError, line 113 *)
| InvalidSensor         (** RuntimeError, line 199 *)
| NoneOperand           (** TypeError: arithmetic on a [None] result *)
| RecursionLimit.       (** RecursionError *)

Definition message (e : conv_error) : string :=
  match e with
  | ResolutionNotInt => "The specified resolution needs to be an integer."
  | NoTransferForDevice => "The output specified unit does not have a defined transfer function for the used device."
  | InvalidUnit => "The selected output unit is invalid for the sensor under analysis."
  | InvalidSensor => "The specified sensor is not valid or for now is not available for unit conversion."
  | NoneOperand => "unsupported operand type(s): 'NoneType'"
  | RecursionLimit => "maximum recursion depth exceeded"
  end%string.

(** ** Device lists *)

(** [available_dev_1] of every sensor but SpO2. *)
Definition plux_devices : list string :=
  ["bioplux"; "bioplux_exp"; "biosignalsplux"; "rachimeter"; "channeller";
   "swifter"; "ddme_openbanplux"]%string.

(** [available_dev_2] of TEMP and ECG. *)
Definition bitalino_devices : list string :=
  ["bitalino"; "bitalino_rev"; "bitalino_riot"]%string.

(** [available_dev_2] and [available_dev_3] of EMG. *)
Definition emg_dev_2 : list string := ["bitalino"]%string.
Definition emg_dev_3 : list string := ["bitalino_rev"; "bitalino_riot"]%string.

(** The SpO2 sensor labels and their [available_dev_1]. *)
Definition spo2_sensors : list string := ["SpO2.ARM"; "SpO2.HEAD"; "SpO2.FING"]%string.
Definition spo2_devices : list string := ["channeller"; "biosignalsplux"; "swifter"]%string.

(** What a call of [raw_to_phy] gives: an exception, [None], or an array. *)
Definition result (F : Type) : Type := py_result conv_error (option (array F)).

(** Python's default recursion limit. *)
Definition recursion_limit : nat := 1000.

Section Engine.
Context {F : Type} `{PyFloat F}.

Local Open Scope py_scope.
Local Open Scope string_scope.

(** A float literal. *)
Definition fl (q : Q) : num F := NFloat (flit q).

(** [vcc = 3.0] *)
Definition vcc : num F := fl 3.

(** The Steinhart-Hart coefficients of TEMP, lines 96-98. *)
Definition a_0 : num F := fl (112764514 # 100000000000).
Definition a_1 : num F := fl (234282709 # 1000000000000).
Definition a_2 : num F := fl (877303013 # 10000000000000000).

(** [(offset, gain)] chosen by the device tests of EMG (lines 122-133),
    ECG (lines 146-154) and BVP (lines 166-171); [None] is the [else]
    branch, which raises. *)
Definition emg_calibration (device : string) : option (num F * num F) :=
  if str_in device plux_devices then Some (fl (1 # 2), NInt 1)
  else if str_in device emg_dev_2 then Some (fl (1 # 2), fl (1008 # 1000))
  else if str_in device emg_dev_3 then Some (fl (1 # 2), fl (1009 # 1000))
  else None.

Definition ecg_calibration (device : string) : option (num F * num F) :=
  if str_in device plux_devices then Some (fl (1 # 2), fl (1019 # 1000))
  else if str_in device bitalino_devices then Some (fl (1 # 2), fl (11 # 10))
  else None.

Definition bvp_calibration (device : string) : option (num F * num F) :=
  if str_in device plux_devices then Some (NInt 0, fl (190060606 # 1000000000))
  else None.

(** [(raw_signal * vcc / (2 ** resolution) - vcc * offset) / gain],
    lines 134, 155 and 172. *)
Definition linear_transfer (raw : array F) (resolution : Z) (offset gain : num F)
  : array F :=
  vs ndiv (vs nsub (vs ndiv (vs nmul raw vcc) (npow (NInt 2) resolution))
                   (nmul vcc offset))
          gain.

(** [scale_factor] of SpO2, lines 181-185. *)
Definition spo2_scale_factor (sensor : string) : option (num F) :=
  if str_contains "ARM" sensor || str_contains "FING" sensor then Some (fl (12 # 10))
  else if str_contains "HEAD" sensor then Some (fl (15 # 100))
  else None.

(** [numpy.array(x)] used as an operand: [None] makes the arithmetic raise. *)
Definition as_array (r : option (array F)) : py_result conv_error (array F) :=
  match r with
  | Some a => Ret a
  | None => Raise NoneOperand
  end.

(** [raw_to_phy], lines 28-202, with [fuel] frames of recursion left. *)
Fixpoint raw_to_phy_fuel (fuel : nat) (sensor device : string) (raw_signal : list Z)
         (resolution : pyval) (option : string) : result F :=
  match fuel with
  | O => Raise RecursionLimit
  | S fuel' =>
    let recurse (unit : string) :=
      raw_to_phy_fuel fuel' sensor device raw_signal resolution unit in
    let raw := np_array raw_signal in
    if negb (isinstance_int resolution) then Raise ResolutionNotInt else
    let p := npow (NInt 2) (int_value resolution) in
    if String.eqb sensor "TEMP" then
      if String.eqb option "Ohm" then
        if str_in device plux_devices
        then Ret (Some (vv ndiv (sv nmul (fl 10000) raw) (sv nsub p raw)))
        else Raise NoTransferForDevice
      else if String.eqb option "K" then
        ohm1 <- recurse "Ohm" ;; o1 <- as_array ohm1 ;;
        ohm2 <- recurse "Ohm" ;; o2 <- as_array ohm2 ;;
        Ret (Some (sv ndiv (NInt 1)
                     (vv nadd (sv nadd a_0 (sv nmul a_1 (vmap nlog o1)))
                              (sv nmul a_2 (vmap (fun x => npow x 3) (vmap nlog o2))))))
      else if String.eqb option "C" then
        if str_in device plux_devices then
          k <- recurse "K" ;; kelvin <- as_array k ;;
          Ret (Some (vs nsub kelvin (fl (27315 # 100))))
        else if str_in device bitalino_devices then
          Ret (Some (vs nmul (vs nsub (vs nmul (vs ndiv raw p) vcc) (fl (1 # 2)))
                        (NInt 100)))
        else Raise NoTransferForDevice
      else Raise InvalidUnit
    else if String.eqb sensor "EMG" then
      if String.eqb option "mV" then
        match emg_calibration device with
        | Some (offset, gain) => Ret (Some (linear_transfer raw (int_value resolution) offset gain))
        | None => Raise NoTransferForDevice
        end
      else if String.eqb option "V" then
        mv <- recurse "mV" ;; m <- as_array mv ;; Ret (Some (vs ndiv m (NInt 1000)))
      else Ret None
    else if String.eqb sensor "ECG" then
      if String.eqb option "mV" then
        match ecg_calibration device with
        | Some (offset, gain) => Ret (Some (linear_transfer raw (int_value resolution) offset gain))
        | None => Raise NoTransferForDevice
        end
      else if String.eqb option "V" then
        mv <- recurse "mV" ;; m <- as_array mv ;; Ret (Some (vs ndiv m (NInt 1000)))
      else Ret None
    else if String.eqb sensor "BVP" then
      if String.eqb option "uA" then
        match bvp_calibration device with
        | Some (offset, gain) => Ret (Some (linear_transfer raw (int_value resolution) offset gain))
        | None => Raise NoTransferForDevice
        end
      else if String.eqb option "A" then
        ua <- recurse "uA" ;; u <- as_array ua ;; Ret (Some (vs nmul u (fl (1 # 1000000))))
      else Ret None
    else if str_in sensor spo2_sensors then
      let scale_factor := spo2_scale_factor sensor in
      if String.eqb option "uA" then
        if str_in device spo2_devices then
          match scale_factor with
          | Some s => Ret (Some (sv nmul s (vs ndiv raw p)))
          | None => Raise NoneOperand
          end
        else Raise NoTransferForDevice
      else if String.eqb option "A" then
        ua <- recurse "uA" ;; u <- as_array ua ;; Ret (Some (vs nmul u (fl (1 # 1000000))))
      else Ret None
    else Raise InvalidSensor
  end.

(** A top-level call of [raw_to_phy]. *)
Definition raw_to_phy (sensor device : string) (raw_signal : list Z)
           (resolution : pyval) (option : string) : result F :=
  raw_to_phy_fuel recursion_limit sensor device raw_signal resolution option.

End Engine.

(** ** Properties *)

(** Every sensor label the code accepts. *)
Definition known_sensors : list string :=
  ("TEMP" :: "EMG" :: "ECG" :: "BVP" :: spo2_sensors)%string.

(** Case analysis on every test of a goal, one branch at a time. *)
Ltac conv_branch :=
  repeat match goal with
  | |- context [if ?c then _ else _] =>
      let E := fresh "E" in destruct c eqn:E
  | |- context [match ?x with Some _ => _ | None => _ end] =>
      let E := fresh "E" in destruct x as [[? ?]|] eqn:E
  | |- context [match ?x with Some _ => _ | None => _ end] =>
      let E := fresh "E" in destruct x eqn:E
  end.

Section Props.
Context {F : Type} `{PyFloat F}.
Local Open Scope string_scope.

Implicit Types (sensor device option : string) (raw_signal : list Z) (resolution : pyval).

(** Three frames of recursion give the same result as any larger fuel. *)
Lemma raw_to_phy_fuel_3 n sensor device raw_signal resolution option :
  raw_to_phy_fuel (F := F) (3 + n) sensor device raw_signal resolution option =
  raw_to_phy_fuel 3 sensor device raw_signal resolution option.
Proof. reflexivity. Qed.

Lemma raw_to_phy_depth3 sensor device raw_signal resolution option :
  raw_to_phy (F := F) sensor device raw_signal resolution option =
  raw_to_phy_fuel 3 sensor device raw_signal resolution option.
Proof. exact (raw_to_phy_fuel_3 997 _ _ _ _ _). Qed.

(** The SpO2 labels all contain ARM, FING or HEAD. *)
Lemma spo2_scale_factor_defined sensor :
  str_in sensor spo2_sensors = true -> spo2_scale_factor (F := F) sensor <> None.
Proof.
  intros Hin. apply str_in_true in Hin.
  destruct Hin as [<-|[<-|[<-|[]]]]; discriminate.
Qed.

(** C4: Termination of the derived-unit recursion.  However deep the
    chain of derived units, [raw_to_phy] never exhausts Python's recursion
    limit, and no recursive call returns [None] to an arithmetic operand:
    the two exceptions the code does not raise on purpose never occur. *)
Theorem raw_to_phy_terminates sensor device raw_signal resolution option :
  raw_to_phy (F := F) sensor device raw_signal resolution option <> Raise RecursionLimit /\
  raw_to_phy (F := F) sensor device raw_signal resolution option <> Raise NoneOperand.
Proof.
  rewrite raw_to_phy_depth3; simpl. conv_branch; simpl; try (split; discriminate).
  all: exfalso; eapply spo2_scale_factor_defined; eassumption.
Qed.

(** C2: Unit chain of TEMP.  For every PLUX-family device, the Celsius
    output is the Kelvin output minus 273.15, sample by sample, and a
    Kelvin conversion that raises makes the Celsius one raise the same
    exception. *)
Theorem celsius_kelvin_chain device raw_signal resolution :
  str_in device plux_devices = true ->
  raw_to_phy (F := F) "TEMP" device raw_signal resolution "C" =
  py_fmap (option_map (fun k => vs nsub k (fl (27315 # 100))))
          (raw_to_phy "TEMP" device raw_signal resolution "K").
Proof.
  intros Hd. rewrite !raw_to_phy_depth3; simpl. rewrite Hd. conv_branch; reflexivity.
Qed.

(** C3: Unit chain of EMG and ECG.  For every device and input, the volt
    output is the millivolt output divided by 1000 (errors included). *)
Theorem volt_millivolt_chain sensor device raw_signal resolution :
  str_in sensor ["EMG"; "ECG"] = true ->
  raw_to_phy (F := F) sensor device raw_signal resolution "V" =
  py_fmap (option_map (fun m => vs ndiv m (NInt 1000)))
          (raw_to_phy sensor device raw_signal resolution "mV").
Proof.
  intros Hs. apply str_in_true in Hs.
  in_cases Hs; rewrite !raw_to_phy_depth3; simpl; conv_branch; reflexivity.
Qed.

(** Unit chain of BVP and SpO2.  For every device and input, the
    ampere output is the microampere output times 1e-6 (errors included). *)
Theorem ampere_microampere_chain sensor device raw_signal resolution :
  str_in sensor ("BVP" :: spo2_sensors) = true ->
  raw_to_phy (F := F) sensor device raw_signal resolution "A" =
  py_fmap (option_map (fun u => vs nmul u (fl (1 # 1000000))))
          (raw_to_phy sensor device raw_signal resolution "uA").
Proof.
  intros Hs. apply str_in_true in Hs.
  in_cases Hs; rewrite !raw_to_phy_depth3; simpl; conv_branch; reflexivity.
Qed.

(** A resolution that is not an int raises [ResolutionNotInt] before
    anything else is looked at, whatever the sensor, device and unit. *)
Theorem raw_to_phy_resolution_not_int sensor device raw_signal resolution option :
  isinstance_int resolution = false ->
  raw_to_phy (F := F) sensor device raw_signal resolution option = Raise ResolutionNotInt.
Proof. intros Hr. rewrite raw_to_phy_depth3; simpl. now rewrite Hr. Qed.

(** With an int resolution, a sensor label outside the seven the code
    knows raises [InvalidSensor]. *)
Theorem raw_to_phy_invalid_sensor sensor device raw_signal resolution option :
  isinstance_int resolution = true -> str_in sensor known_sensors = false ->
  raw_to_phy (F := F) sensor device raw_signal resolution option = Raise InvalidSensor.
Proof.
  intros Hr Hs. apply str_in_false in Hs. rewrite raw_to_phy_depth3; simpl. rewrite Hr; simpl.
  unfold known_sensors in Hs; simpl in Hs.
  conv_branch; str_facts; simpl in *; intuition congruence.
Qed.

(** With an int resolution, TEMP rejects every unit but Ohm, K and C
    with [InvalidUnit], whatever the device. *)
Theorem raw_to_phy_temp_invalid_unit device raw_signal resolution option :
  isinstance_int resolution = true -> str_in option ["Ohm"; "K"; "C"] = false ->
  raw_to_phy (F := F) "TEMP" device raw_signal resolution option = Raise InvalidUnit.
Proof.
  intros Hr Ho. apply str_in_false in Ho. rewrite raw_to_phy_depth3; simpl. rewrite Hr; simpl.
  conv_branch; str_facts; simpl in *; intuition congruence.
Qed.

(** C7: The combinations that return [None] instead of raising: an
    unknown unit for EMG or ECG (anything but mV and V) or for BVP and
    SpO2 (anything but uA and A).  TEMP never returns [None]. *)
Theorem raw_to_phy_none_iff sensor device raw_signal resolution option :
  raw_to_phy (F := F) sensor device raw_signal resolution option = Ret None <->
  isinstance_int resolution = true /\
  ((In sensor ["EMG"; "ECG"] /\ ~ In option ["mV"; "V"]) \/
   (In sensor ("BVP" :: spo2_sensors) /\ ~ In option ["uA"; "A"])).
Proof.
  rewrite raw_to_phy_depth3; simpl. split.
  - conv_branch; simpl; intro Hr; try discriminate; str_facts; simpl in *;
      rewrite ?Bool.negb_false_iff in *; intuition (subst; try congruence).
  - intros [Hi Hc]. rewrite Hi. simpl.
    conv_branch; simpl; str_facts; simpl in *; intuition (subst; try congruence).
Qed.

(** C16: The resolution check accepts every Python int, non-positive ones
    included, and also [bool]s, a subclass of [int]: no such resolution
    raises [ResolutionNotInt]. *)
Theorem raw_to_phy_int_resolution_accepted sensor device raw_signal resolution option :
  isinstance_int resolution = true ->
  raw_to_phy (F := F) sensor device raw_signal resolution option <> Raise ResolutionNotInt.
Proof.
  intros Hr. rewrite raw_to_phy_depth3; simpl. rewrite Hr; simpl.
  conv_branch; simpl; discriminate.
Qed.

(** A [bool] resolution behaves as the int it denotes: [True] is a
    1-bit and [False] a 0-bit resolution. *)
Theorem raw_to_phy_bool_resolution sensor device raw_signal b option :
  raw_to_phy (F := F) sensor device raw_signal (PBool b) option =
  raw_to_phy sensor device raw_signal (PInt (Z.b2z b)) option.
Proof. rewrite !raw_to_phy_depth3. reflexivity. Qed.

End Props.

(** ** Witnesses, on concrete calls with floats read as reals *)

Local Open Scope string_scope.

Lemma celsius_kelvin_chain_witness :
  str_in "bioplux" plux_devices = true /\
  raw_to_phy (F := R) "TEMP" "bioplux" [1; 2]%Z (PInt 12) "C" =
  py_fmap (option_map (fun k => vs nsub k (fl (27315 # 100))))
          (raw_to_phy "TEMP" "bioplux" [1; 2]%Z (PInt 12) "K").
Proof. split; [reflexivity | apply celsius_kelvin_chain; reflexivity]. Defined.

Lemma volt_millivolt_chain_witness :
  str_in "ECG" ["EMG"; "ECG"] = true /\
  raw_to_phy (F := R) "ECG" "bitalino" [1; 2]%Z (PInt 10) "V" =
  py_fmap (option_map (fun m => vs ndiv m (NInt 1000)))
          (raw_to_phy "ECG" "bitalino" [1; 2]%Z (PInt 10) "mV").
Proof. split; [reflexivity | apply volt_millivolt_chain; reflexivity]. Defined.

Lemma ampere_microampere_chain_witness :
  str_in "SpO2.HEAD" ("BVP" :: spo2_sensors) = true /\
  raw_to_phy (F := R) "SpO2.HEAD" "swifter" [1; 2]%Z (PInt 16) "A" =
  py_fmap (option_map (fun u => vs nmul u (fl (1 # 1000000))))
          (raw_to_phy "SpO2.HEAD" "swifter" [1; 2]%Z (PInt 16) "uA").
Proof. split; [reflexivity | apply ampere_microampere_chain; reflexivity]. Defined.

Lemma raw_to_phy_resolution_not_int_witness :
  isinstance_int (PFloat (25 # 2)) = false /\
  raw_to_phy (F := R) "ECG" "bioplux" [1]%Z (PFloat (25 # 2)) "mV" = Raise ResolutionNotInt.
Proof. split; [reflexivity | apply raw_to_phy_resolution_not_int; reflexivity]. Defined.

Lemma raw_to_phy_invalid_sensor_witness :
  isinstance_int (PInt 12) = true /\ str_in "EEG" known_sensors = false /\
  raw_to_phy (F := R) "EEG" "bioplux" [1]%Z (PInt 12) "mV" = Raise InvalidSensor.
Proof.
  split; [reflexivity | split; [reflexivity | apply raw_to_phy_invalid_sensor; reflexivity]].
Defined.

Lemma raw_to_phy_temp_invalid_unit_witness :
  isinstance_int (PInt 12) = true /\ str_in "V" ["Ohm"; "K"; "C"] = false /\
  raw_to_phy (F := R) "TEMP" "bioplux" [1]%Z (PInt 12) "V" = Raise InvalidUnit.
Proof.
  split; [reflexivity | split; [reflexivity | apply raw_to_phy_temp_invalid_unit; reflexivity]].
Defined.

Lemma raw_to_phy_int_resolution_accepted_witness :
  isinstance_int (PInt (-1)) = true /\
  raw_to_phy (F := R) "ECG" "bioplux" [1]%Z (PInt (-1)) "mV" <> Raise ResolutionNotInt.
Proof. split; [reflexivity | apply raw_to_phy_int_resolution_accepted; reflexivity]. Defined.

End Conversion.
