(* ===== verification/ConversionSpec.v ===== *)
(** * ConversionSpec: the dispatch table [raw_to_phy] implements

    The spec describes the conversion engine as a closed table: a sensor,
    a device and a unit taken from fixed enumerations select either an
    error, no result, or a per-sample transfer function, and the output is
    that function applied to every raw sample.  This file states that table
    ([spec_transfer], with the calibration table [calibration] and the
    per-sample formulas) and proves that the string-dispatching, recursive
    [raw_to_phy] of [Conversion] implements it exactly
    ([raw_to_phy_refines]): derived units are the composition of their
    primitive with the scale of the chain, devices are grouped by family,
    and labels the enumerations do not contain behave as the table's
    "unknown" entries. *)

From Stdlib Require Import String List ZArith QArith Bool Reals.
From S2P Require Import Prelude Numeric Conversion.
Import ListNotations.

Module ConversionSpec.
Import Conversion.

(** ** The enumerations *)

Inductive sensor : Type := ECG | EMG | TEMP | BVP | SpO2_HEAD | SpO2_FING | SpO2_ARM.

Inductive device : Type :=
| bioplux | bioplux_exp | biosignalsplux | rachimeter | channeller | swifter
| ddme_openbanplux | bitalino | bitalino_rev | bitalino_riot.

Inductive unit : Type := mV | V | C | K | Ohm | A | uA.

Definition sensor_eq_dec (x y : sensor) : {x = y} + {x <> y}.
Proof. decide equality. Defined.

Definition device_eq_dec (x y : device) : {x = y} + {x <> y}.
Proof. decide equality. Defined.

Definition unit_eq_dec (x y : unit) : {x = y} + {x <> y}.
Proof. decide equality. Defined.

Local Open Scope string_scope.

(** The strings the code compares them with. *)
Definition sensor_label (s : sensor) : string :=
  match s with
  | ECG => "ECG" | EMG => "EMG" | TEMP => "TEMP" | BVP => "BVP"
  | SpO2_HEAD => "SpO2.HEAD" | SpO2_FING => "SpO2.FING" | SpO2_ARM => "SpO2.ARM"
  end.

Definition device_label (d : device) : string :=
  match d with
  | bioplux => "bioplux" | bioplux_exp => "bioplux_exp"
  | biosignalsplux => "biosignalsplux" | rachimeter => "rachimeter"
  | channeller => "channeller" | swifter => "swifter"
  | ddme_openbanplux => "ddme_openbanplux" | bitalino => "bitalino"
  | bitalino_rev => "bitalino_rev" | bitalino_riot => "bitalino_riot"
  end.

Definition unit_label (u : unit) : string :=
  match u with
  | mV => "mV" | V => "V" | C => "C" | K => "K" | Ohm => "Ohm" | A => "A" | uA => "uA"
  end.

Definition all_sensors : list sensor := [ECG; EMG; TEMP; BVP; SpO2_HEAD; SpO2_FING; SpO2_ARM].
Definition all_devices : list device :=
  [bioplux; bioplux_exp; biosignalsplux; rachimeter; channeller; swifter;
   ddme_openbanplux; bitalino; bitalino_rev; bitalino_riot].
Definition all_units : list unit := [mV; V; C; K; Ohm; A; uA].

Definition sensor_of_label : string -> option sensor := parse_label sensor_label all_sensors.
Definition device_of_label : string -> option device := parse_label device_label all_devices.
Definition unit_of_label : string -> option unit := parse_label unit_label all_units.

(** ** Device families *)

Inductive family : Type := PLUX | BITalino.

Definition family_of (d : device) : family :=
  match d with
  | bitalino | bitalino_rev | bitalino_riot => BITalino
  | _ => PLUX
  end.

(** A device label the table knows, of the PLUX family / of the BITalino
    family / among the SpO2 front-ends. *)
Definition is_plux (od : option device) : bool :=
  match od with Some d => match family_of d with PLUX => true | BITalino => false end
              | None => false end.

Definition is_bitalino (od : option device) : bool :=
  match od with Some d => match family_of d with BITalino => true | PLUX => false end
              | None => false end.

Definition is_spo2_device (od : option device) : bool :=
  match od with Some (channeller | biosignalsplux | swifter) => true | _ => false end.

Section Table.
Context {F : Type} `{PyFloat F}.

(** ** Per-sample transfer functions, of the resolution and one raw code *)

Definition pow2 (res : Z) : num F := npow (NInt 2) res.

Definition ohm_sample (res x : Z) : num F :=
  ndiv (nmul (fl 10000) (NInt x)) (nsub (pow2 res) (NInt x)).

Definition kelvin_sample (res x : Z) : num F :=
  ndiv (NInt 1)
       (nadd (nadd a_0 (nmul a_1 (nlog (ohm_sample res x))))
             (nmul a_2 (npow (nlog (ohm_sample res x)) 3))).

Definition celsius_bitalino_sample (res x : Z) : num F :=
  nmul (nsub (nmul (ndiv (NInt x) (pow2 res)) vcc) (fl (1 # 2))) (NInt 100).

Definition linear_sample (offset gain : num F) (res x : Z) : num F :=
  ndiv (nsub (ndiv (nmul (NInt x) vcc) (pow2 res)) (nmul vcc offset)) gain.

Definition spo2_sample (scale : num F) (res x : Z) : num F :=
  nmul scale (ndiv (NInt x) (pow2 res)).

(** The calibration table of the spec: [(offset, gain)] per sensor and
    device. *)
Definition calibration (s : sensor) (od : option device) : option (num F * num F) :=
  match s, od with
  | ECG, Some d =>
      Some (fl (1 # 2), match family_of d with PLUX => fl (1019 # 1000)
                                            | BITalino => fl (11 # 10) end)
  | EMG, Some d =>
      Some (fl (1 # 2), match d with
                        | bitalino => fl (1008 # 1000)
                        | bitalino_rev | bitalino_riot => fl (1009 # 1000)
                        | _ => NInt 1 end)
  | BVP, Some d =>
      match family_of d with
      | PLUX => Some (NInt 0, fl (190060606 # 1000000000))
      | BITalino => None
      end
  | _, _ => None
  end.

Definition spo2_scale (s : sensor) : num F :=
  match s with SpO2_HEAD => fl (15 # 100) | _ => fl (12 # 10) end.

(** What the table gives for one combination. *)
Inductive outcome : Type :=
| Fails (e : conv_error)
| NoResult
| Samples (f : Z -> Z -> num F).

(** A linear sensor in its primitive unit, scaled by [k] for a derived
    unit. *)
Definition linear_outcome (s : sensor) (od : option device) (k : num F -> num F) : outcome :=
  match calibration s od with
  | Some (offset, gain) => Samples (fun r x => k (linear_sample offset gain r x))
  | None => Fails NoTransferForDevice
  end.

Definition spo2_outcome (s : sensor) (od : option device) (k : num F -> num F) : outcome :=
  if is_spo2_device od then Samples (fun r x => k (spo2_sample (spo2_scale s) r x))
  else Fails NoTransferForDevice.

Definition to_volt (m : num F) : num F := ndiv m (NInt 1000).
Definition to_ampere (u : num F) : num F := nmul u (fl (1 # 1000000)).

Definition spec_transfer (s : sensor) (od : option device) (u : option unit) : outcome :=
  match s with
  | TEMP =>
      match u with
      | Some Ohm => if is_plux od then Samples ohm_sample else Fails NoTransferForDevice
      | Some K => if is_plux od then Samples kelvin_sample else Fails NoTransferForDevice
      | Some C =>
          if is_plux od then Samples (fun r x => nsub (kelvin_sample r x) (fl (27315 # 100)))
          else if is_bitalino od then Samples celsius_bitalino_sample
          else Fails NoTransferForDevice
      | _ => Fails InvalidUnit
      end
  | ECG | EMG =>
      match u with
      | Some mV => linear_outcome s od (fun m => m)
      | Some V => linear_outcome s od to_volt
      | _ => NoResult
      end
  | BVP =>
      match u with
      | Some uA => linear_outcome s od (fun m => m)
      | Some A => linear_outcome s od to_ampere
      | _ => NoResult
      end
  | SpO2_HEAD | SpO2_FING | SpO2_ARM =>
      match u with
      | Some uA => spo2_outcome s od (fun m => m)
      | Some A => spo2_outcome s od to_ampere
      | _ => NoResult
      end
  end.

(** The conversion the table describes: validate the resolution, look the
    combination up, map the transfer function over the samples. *)
Definition run_spec (os : option sensor) (od : option device) (ou : option unit)
           (raw_signal : list Z) (resolution : pyval) : result F :=
  if negb (isinstance_int resolution) then Raise ResolutionNotInt else
  match os with
  | None => Raise InvalidSensor
  | Some s =>
      match spec_transfer s od ou with
      | Fails e => Raise e
      | NoResult => Ret None
      | Samples f => Ret (Some (map (f (int_value resolution)) raw_signal))
      end
  end.

End Table.

(** ** The code implements the table *)

Lemma all_sensors_complete s : In s all_sensors.
Proof. destruct s; simpl; tauto. Qed.

Lemma all_devices_complete d : In d all_devices.
Proof. destruct d; simpl; tauto. Qed.

Lemma all_units_complete u : In u all_units.
Proof. destruct u; simpl; tauto. Qed.

Lemma unknown_device_str_in device ds :
  device_of_label device = None -> str_in device (map device_label ds) = false.
Proof. intros Hn. exact (parse_label_none_str_in _ _ _ ds Hn all_devices_complete). Qed.

(** The code's device lists are lists of labels. *)
Lemma plux_devices_labels :
  plux_devices = map device_label [bioplux; bioplux_exp; biosignalsplux; rachimeter;
                                   channeller; swifter; ddme_openbanplux].
Proof. reflexivity. Qed.

Lemma bitalino_devices_labels :
  bitalino_devices = map device_label [bitalino; bitalino_rev; bitalino_riot].
Proof. reflexivity. Qed.

Lemma emg_dev_2_labels : emg_dev_2 = map device_label [bitalino].
Proof. reflexivity. Qed.

Lemma emg_dev_3_labels : emg_dev_3 = map device_label [bitalino_rev; bitalino_riot].
Proof. reflexivity. Qed.

Lemma spo2_devices_labels :
  spo2_devices = map device_label [channeller; biosignalsplux; swifter].
Proof. reflexivity. Qed.

Lemma known_sensors_labels :
  known_sensors = map sensor_label [TEMP; EMG; ECG; BVP; SpO2_ARM; SpO2_HEAD; SpO2_FING].
Proof. reflexivity. Qed.

(** A device test of the code is a test on the parsed device: for a label
    compute both sides, for an unknown string both are false. *)
Ltac device_cases device :=
  let d := fresh "d" in let Hd := fresh "Hd" in
  rewrite ?plux_devices_labels, ?bitalino_devices_labels, ?emg_dev_2_labels,
          ?emg_dev_3_labels, ?spo2_devices_labels;
  destruct (device_of_label device) as [d|] eqn:Hd;
  [ apply parse_label_some in Hd; subst device; destruct d; reflexivity
  | rewrite !(unknown_device_str_in device _ Hd); reflexivity ].

Lemma plux_devices_family device :
  str_in device plux_devices = is_plux (device_of_label device).
Proof. device_cases device. Qed.

Lemma bitalino_devices_family device :
  str_in device bitalino_devices = is_bitalino (device_of_label device).
Proof. device_cases device. Qed.

Lemma spo2_devices_family device :
  str_in device spo2_devices = is_spo2_device (device_of_label device).
Proof. device_cases device. Qed.

Section Refinement.
Context {F : Type} `{PyFloat F}.

Lemma emg_calibration_table device :
  emg_calibration (F := F) device = calibration EMG (device_of_label device).
Proof. unfold emg_calibration. device_cases device. Qed.

Lemma ecg_calibration_table device :
  ecg_calibration (F := F) device = calibration ECG (device_of_label device).
Proof. unfold ecg_calibration. device_cases device. Qed.

Lemma bvp_calibration_table device :
  bvp_calibration (F := F) device = calibration BVP (device_of_label device).
Proof. unfold bvp_calibration. device_cases device. Qed.

(** Closes one combination of sensor and unit: every device, then the
    numpy operations fused into one map over the samples. *)
Ltac close_combination :=
  match goal with od : option device |- _ => destruct od as [[]|] end;
  simpl; try reflexivity;
  unfold linear_transfer, vv, sv, vs, vmap, np_array; autorewrite with py_rw;
  reflexivity.

(** The string-dispatching code computes the table's conversion. *)
Lemma raw_to_phy_table sensor device raw_signal resolution option :
  raw_to_phy (F := F) sensor device raw_signal resolution option =
  run_spec (sensor_of_label sensor) (device_of_label device) (unit_of_label option)
           raw_signal resolution.
Proof.
  unfold run_spec. rewrite raw_to_phy_depth3.
  destruct (isinstance_int resolution) eqn:Hr; simpl; rewrite Hr; [|reflexivity]; simpl.
  destruct (sensor_of_label sensor) as [s|] eqn:Hs.
  2: { assert (Hk : str_in sensor known_sensors = false).
       { rewrite known_sensors_labels.
         exact (parse_label_none_str_in _ _ _ _ Hs all_sensors_complete). }
       unfold known_sensors in Hk. conv_branch; str_facts; simpl in *; tauto. }
  apply parse_label_some in Hs; subst sensor.
  rewrite ?plux_devices_family, ?bitalino_devices_family, ?spo2_devices_family,
          ?emg_calibration_table, ?ecg_calibration_table, ?bvp_calibration_table.
  generalize (device_of_label device) as od; intros od.
  destruct (unit_of_label option) as [u|] eqn:Hu.
  - apply parse_label_some in Hu; subst option.
    destruct s, u; simpl; close_combination.
  - destruct s; simpl; conv_branch; str_facts; simpl in *; try discriminate;
      close_combination.
Qed.

(** C1: Refinement.  [raw_to_phy], which dispatches on strings and derives
    units by calling itself, computes exactly the conversion of the spec's
    closed table: the resolution check, then the table entry of the parsed
    sensor, device and unit, mapped over the samples; a string outside the
    enumerations behaves as the table's unknown entry. *)
Theorem raw_to_phy_refines sensor device raw_signal resolution option :
  raw_to_phy (F := F) sensor device raw_signal resolution option =
  run_spec (sensor_of_label sensor) (device_of_label device) (unit_of_label option)
           raw_signal resolution.
Proof. apply raw_to_phy_table. Qed.

End Refinement.

Lemma sensor_of_label_label s : sensor_of_label (sensor_label s) = Some s.
Proof. destruct s; reflexivity. Qed.

Lemma device_of_label_label d : device_of_label (device_label d) = Some d.
Proof. destruct d; reflexivity. Qed.

Lemma unit_of_label_label u : unit_of_label (unit_label u) = Some u.
Proof. destruct u; reflexivity. Qed.

(** Label round trip.  A string reads back as a sensor, device or
    unit exactly when it is that value's label, so the strings the code
    compares and the spec's enumerations are in bijection. *)
Theorem labels_roundtrip :
  (forall l s, sensor_of_label l = Some s <-> sensor_label s = l) /\
  (forall l d, device_of_label l = Some d <-> device_label d = l) /\
  (forall l u, unit_of_label l = Some u <-> unit_label u = l).
Proof.
  repeat split; intros H0;
    solve [ eapply parse_label_some; exact H0
          | subst l; apply sensor_of_label_label || apply device_of_label_label
            || apply unit_of_label_label ].
Qed.

Section Corollaries.
Context {F : Type} `{PyFloat F}.

(** A returned array has one physical sample per raw sample. *)
Theorem raw_to_phy_length sensor device raw_signal resolution option out :
  raw_to_phy (F := F) sensor device raw_signal resolution option = Ret (Some out) ->
  length out = length raw_signal.
Proof.
  rewrite raw_to_phy_table. unfold run_spec.
  destruct (negb _); [discriminate|].
  destruct (sensor_of_label sensor) as [s|]; [|discriminate].
  destruct (spec_transfer _ _ _); try discriminate.
  intros Hr. injection Hr as <-. apply length_map.
Qed.

(** Samples are converted independently: converting a signal in two
    pieces and concatenating gives the conversion of the whole signal, and
    whether the call raises or returns [None] does not depend on the
    samples. *)
Theorem raw_to_phy_app sensor device r1 r2 resolution option :
  raw_to_phy (F := F) sensor device (r1 ++ r2)%list resolution option =
  match raw_to_phy (F := F) sensor device r1 resolution option,
        raw_to_phy (F := F) sensor device r2 resolution option with
  | Ret (Some a), Ret (Some b) => Ret (Some (a ++ b)%list)
  | r, _ => r
  end.
Proof.
  rewrite !raw_to_phy_table. unfold run_spec.
  destruct (negb _); [reflexivity|].
  destruct (sensor_of_label sensor) as [s|]; [|reflexivity].
  destruct (spec_transfer _ _ _); try reflexivity.
  now rewrite map_app.
Qed.

End Corollaries.

Lemma raw_to_phy_length_witness :
  exists out, raw_to_phy (F := R) "ECG" "bioplux" [0; 2048; 4095]%Z (PInt 12) "mV" = Ret (Some out) /\
    length out = length [0; 2048; 4095]%Z.
Proof.
  eexists; split; [reflexivity|].
  apply (raw_to_phy_length "ECG" "bioplux" [0; 2048; 4095]%Z (PInt 12) "mV"). reflexivity.
Defined.

End ConversionSpec.
