(* ===== verification/ConversionReal.v ===== *)
(** * ConversionReal: the transfer functions as real functions

    With floats read as real numbers ([R_PyFloat]), the per-sample formulas
    of [ConversionSpec] become real functions of the raw code.  Through the
    refinement theorem [raw_to_phy_table], the facts proved on them hold
    of [raw_to_phy]: the spec's worked ECG example, that the millivolt
    output of ECG and EMG is a strictly increasing function of the raw code
    and stays within +-1.5 mV for in-range codes, that the thermistor
    resistance grows with the code while the Kelvin temperature falls, and
    the range of the BITalino Celsius transfer.  Rounding of IEEE doubles is
    the subject of [ConversionFloat]. *)

From Stdlib Require Import String List ZArith QArith Reals Qreals Lra Lia.
From S2P Require Import Prelude Numeric Conversion ConversionSpec.
Import ListNotations.

Module ConversionReal.
Import Conversion ConversionSpec.

Local Open Scope R_scope.

(** The Steinhart-Hart law of lines 99-102, as a function of the
    resistance. *)
Definition steinhart (ohm : R) : R :=
  1 / (Q2R (112764514 # 100000000000) + Q2R (234282709 # 1000000000000) * ln ohm +
       Q2R (877303013 # 10000000000000000) * (ln ohm * (ln ohm * (ln ohm * 1)))).

(** The millivolt transfer of ECG and EMG (line 134 with [vcc = 3]) over
    the reals, for an offset and a gain of the calibration table. *)
Definition mV_R (offset gain : R) (resolution x : Z) : R :=
  (IZR x * 3 / powerRZ 2 resolution - 3 * offset) / gain.

(** In-range raw codes, as the code's callers are trusted to pass them. *)
Definition in_range (resolution : Z) (raw_signal : list Z) : bool :=
  forallb (fun x => (0 <=? x) && (x <? 2 ^ resolution))%Z raw_signal.


Lemma to_float_fl (q : Q) : to_float (F := R) (fl q) = Q2R q.
Proof. reflexivity. Qed.

Lemma to_float_vcc : to_float (F := R) vcc = 3.
Proof. unfold vcc, fl, Q2R; simpl. lra. Qed.

#[local] Hint Rewrite to_float_fl to_float_vcc : num_R.

(** ** The per-sample formulas over the reals *)

Lemma linear_sample_R o g r x :
  to_float (linear_sample (F := R) o g r x) =
  (IZR x * 3 / powerRZ 2 r - 3 * to_float o) / to_float g.
Proof. unfold linear_sample, pow2. autorewrite with num_R. reflexivity. Qed.

Lemma linear_sample_mV o g r x :
  linear_sample (F := R) o g r x = NFloat (mV_R (to_float o) (to_float g) r x).
Proof.
  change (linear_sample (F := R) o g r x) with (NFloat (to_float (linear_sample (F := R) o g r x))).
  now rewrite linear_sample_R.
Qed.

Lemma ohm_sample_R r x :
  to_float (ohm_sample (F := R) r x) = 10000 * IZR x / (powerRZ 2 r - IZR x).
Proof.
  unfold ohm_sample, pow2. autorewrite with num_R.
  replace (Q2R 10000) with 10000 by (unfold Q2R; simpl; lra). reflexivity.
Qed.

Lemma kelvin_sample_R r x :
  to_float (kelvin_sample (F := R) r x) = steinhart (to_float (ohm_sample r x)).
Proof.
  unfold kelvin_sample, steinhart, a_0, a_1, a_2. autorewrite with num_R. reflexivity.
Qed.

Lemma celsius_bitalino_sample_R r x :
  to_float (celsius_bitalino_sample (F := R) r x) = (IZR x / powerRZ 2 r * 3 - 1 / 2) * 100.
Proof.
  unfold celsius_bitalino_sample, pow2. autorewrite with num_R.
  replace (Q2R (1 # 2)) with (1 / 2) by (unfold Q2R; simpl; lra). reflexivity.
Qed.

(** ** Monotonicity and ranges of the formulas *)

Lemma linear_sample_increasing o g r x y :
  0 < to_float g -> (x < y)%Z ->
  to_float (linear_sample (F := R) o g r x) < to_float (linear_sample o g r y).
Proof.
  intros Hg Hxy. rewrite !linear_sample_R. apply Rdiv_lt_mono_r; [exact Hg|].
  apply IZR_lt in Hxy. pose proof (pow2_pos r).
  apply Rplus_lt_compat_r. apply Rdiv_lt_mono_r; lra.
Qed.

Lemma linear_sample_range o g r x :
  to_float o = 1 / 2 -> 1 <= to_float g -> 0 <= IZR x < powerRZ 2 r ->
  -3/2 <= to_float (linear_sample (F := R) o g r x) < 3/2.
Proof.
  intros Ho Hg [Hx0 Hx1]. rewrite linear_sample_R, Ho.
  replace (-3/2) with (-(3/2)) by lra. apply Rdiv_ge1_bounds; [exact Hg|].
  pose proof (pow2_pos r) as Hp.
  assert (0 <= IZR x * 3 / powerRZ 2 r < 3).
  { split.
    - unfold Rdiv. apply Rmult_le_pos; [lra | left; apply Rinv_0_lt_compat; exact Hp].
    - apply Rmult_lt_reg_r with (powerRZ 2 r); [exact Hp|].
      unfold Rdiv. rewrite Rmult_assoc, Rinv_l by lra. lra. }
  lra.
Qed.

(** The gains of the ECG and EMG rows of the calibration table are at
    least 1 and their offsets 0.5. *)
Lemma calibration_ecg_emg s od o g :
  (s = ECG \/ s = EMG) -> calibration (F := R) s od = Some (o, g) ->
  to_float o = 1 / 2 /\ 1 <= to_float g.
Proof.
  intros Hs Hc. destruct Hs as [->| ->]; destruct od as [[]|]; simpl in Hc;
    try discriminate; injection Hc as <- <-; simpl; unfold Q2R; simpl; split; lra.
Qed.

Lemma in_range_IZR resolution raw_signal x :
  (0 <= resolution)%Z -> in_range resolution raw_signal = true -> In x raw_signal ->
  0 <= IZR x < powerRZ 2 resolution.
Proof.
  intros Hr Hin Hx. unfold in_range in Hin. rewrite forallb_forall in Hin.
  specialize (Hin x Hx). apply andb_prop in Hin as [H0 H1].
  apply Z.leb_le in H0. apply Z.ltb_lt in H1. rewrite powerRZ_2_IZR by exact Hr.
  split; [apply IZR_le | apply IZR_lt]; lia.
Qed.

Lemma ohm_sample_increasing r x y :
  (0 <= r)%Z -> (0 <= x)%Z -> (x < y)%Z -> (y < 2 ^ r)%Z ->
  0 <= to_float (ohm_sample (F := R) r x) < to_float (ohm_sample r y).
Proof.
  intros Hr Hx Hxy Hy. rewrite !ohm_sample_R, powerRZ_2_IZR by exact Hr.
  apply IZR_le in Hx. apply IZR_lt in Hxy. apply IZR_lt in Hy.
  set (P := IZR (2 ^ r)) in *.
  assert (Hix : 0 < / (P - IZR x)) by (apply Rinv_0_lt_compat; lra).
  assert (Hlt : / (P - IZR x) < / (P - IZR y)) by (apply Rinv_lt_contravar; nra).
  unfold Rdiv. split; nra.
Qed.

(** A code with [2 ^ r <= 10001 * x] reads a resistance of at least 1 Ohm. *)
Lemma ohm_sample_ge1 r x :
  (0 <= r)%Z -> (0 <= x)%Z -> (x < 2 ^ r)%Z -> (2 ^ r <= 10001 * x)%Z ->
  1 <= to_float (ohm_sample (F := R) r x).
Proof.
  intros Hr Hx Hx1 Hge. rewrite ohm_sample_R, powerRZ_2_IZR by exact Hr.
  apply IZR_lt in Hx1. apply IZR_le in Hge. rewrite mult_IZR in Hge.
  apply Rmult_le_reg_r with (IZR (2 ^ r) - IZR x); [lra|].
  unfold Rdiv. rewrite Rmult_assoc, Rinv_l by lra. lra.
Qed.

Lemma ln_nonneg (r : R) : 1 <= r -> 0 <= ln r.
Proof.
  intros Hr. destruct (Req_dec r 1) as [->|Hne]; [rewrite ln_1; lra|].
  rewrite <- ln_1. left. apply ln_increasing; lra.
Qed.

(** The Steinhart-Hart temperature is positive and strictly decreasing in
    the resistance, from 1 Ohm up. *)
Lemma steinhart_decreasing r1 r2 :
  1 <= r1 -> r1 < r2 -> 0 < steinhart r2 < steinhart r1.
Proof.
  intros H1 H12. unfold steinhart.
  pose proof (ln_nonneg r1 H1) as L1.
  assert (L12 : ln r1 < ln r2) by (apply ln_increasing; lra).
  pose proof (cube_lt _ _ L12) as C12.
  assert (C1 : 0 <= ln r1 * (ln r1 * (ln r1 * 1))) by (rewrite Rmult_1_r; nra).
  unfold Q2R; simpl.
  set (d1 := _ + _ * ln r1 + _ * (ln r1 * (ln r1 * (ln r1 * 1)))).
  set (d2 := _ + _ * ln r2 + _ * (ln r2 * (ln r2 * (ln r2 * 1)))).
  assert (D1 : 0 < d1) by (unfold d1; nra).
  assert (D12 : d1 < d2) by (unfold d1, d2; nra).
  unfold Rdiv. rewrite !Rmult_1_l. split.
  - apply Rinv_0_lt_compat. lra.
  - apply Rinv_lt_contravar; nra.
Qed.

Lemma celsius_bitalino_sample_range r x :
  0 <= IZR x < powerRZ 2 r -> -50 <= to_float (celsius_bitalino_sample (F := R) r x) < 250.
Proof.
  intros [Hx0 Hx1]. rewrite celsius_bitalino_sample_R. pose proof (pow2_pos r) as Hp.
  assert (0 <= IZR x / powerRZ 2 r < 1).
  { split.
    - unfold Rdiv. apply Rmult_le_pos; [lra | left; apply Rinv_0_lt_compat; exact Hp].
    - apply Rmult_lt_reg_r with (powerRZ 2 r); [exact Hp|].
      unfold Rdiv. rewrite Rmult_assoc, Rinv_l by lra. lra. }
  lra.
Qed.

(** ** What [raw_to_phy] computes *)

(** The worked example of the spec: ECG on a bioplux at 12 bits maps
    the codes 0, 2048 and 4095 to -1500/1019, 0 and 6141000/4173824 mV
    (about -1.47203, 0 and 1.47131). *)
Theorem ecg_bioplux_example :
  py_fmap (option_map (map to_float))
    (raw_to_phy (F := R) "ECG" "bioplux" [0; 2048; 4095]%Z (PInt 12) "mV") =
  Ret (Some (map (mV_R (1 / 2) (1019 / 1000) 12) [0; 2048; 4095]%Z)) /\
  map (mV_R (1 / 2) (1019 / 1000) 12) [0; 2048; 4095]%Z = [-1500 / 1019; 0; 6141000 / 4173824].
Proof.
  rewrite raw_to_phy_table. cbn -[linear_sample mV_R]. rewrite !linear_sample_mV. cbn [to_float R_PyFloat].
  unfold mV_R. rewrite powerRZ_2_IZR by lia. change (2 ^ 12)%Z with 4096%Z. unfold Q2R; simpl.
  split; [repeat f_equal; field|].
  repeat match goal with |- (_ :: _ = _ :: _)%list => f_equal end; field.
Qed.

(** C5: For ECG and EMG on every calibrated device, the millivolt output
    is a strictly increasing real function of the raw code, applied to
    each sample. *)
Theorem mV_strictly_increasing sensor device resolution raw_signal :
  str_in sensor ["ECG"; "EMG"]%string = true ->
  str_in device (plux_devices ++ bitalino_devices) = true ->
  exists offset gain, 0 < gain /\
    (forall x y, (x < y)%Z -> mV_R offset gain resolution x < mV_R offset gain resolution y) /\
    raw_to_phy (F := R) sensor device raw_signal (PInt resolution) "mV" =
    Ret (Some (map (fun x => NFloat (mV_R offset gain resolution x)) raw_signal)).
Proof.
  intros Hs Hd.
  assert (Hcal : exists o g, 0 < to_float g /\
            raw_to_phy (F := R) sensor device raw_signal (PInt resolution) "mV" =
            Ret (Some (map (linear_sample o g resolution) raw_signal))).
  { apply str_in_true in Hs, Hd. in_cases Hs; in_cases Hd;
      do 2 eexists; (split; [| rewrite raw_to_phy_table; reflexivity]);
      simpl; unfold Q2R; simpl; lra. }
  destruct Hcal as (o & g & Hg & ->).
  exists (to_float o), (to_float g). split; [exact Hg|split].
  - intros x y Hxy. pose proof (linear_sample_increasing o g resolution x y Hg Hxy) as H.
    rewrite !linear_sample_R in H. exact H.
  - do 2 f_equal. apply map_ext. intros x. apply linear_sample_mV.
Qed.

(** C6: For ECG and EMG and in-range raw codes, every millivolt sample lies
    in [-1.5, 1.5). *)
Theorem mV_range sensor device resolution raw_signal out :
  str_in sensor ["ECG"; "EMG"]%string = true -> (0 <= resolution)%Z ->
  in_range resolution raw_signal = true ->
  raw_to_phy (F := R) sensor device raw_signal (PInt resolution) "mV" = Ret (Some out) ->
  Forall (fun v => -3/2 <= to_float v < 3/2) out.
Proof.
  intros Hs Hr Hraw Hout. rewrite raw_to_phy_table in Hout.
  apply str_in_true in Hs.
  assert (Hs' : exists s, (s = ECG \/ s = EMG) /\ sensor = sensor_label s)
    by (in_cases Hs; eauto).
  destruct Hs' as (s & Hs' & ->).
  unfold run_spec in Hout. simpl in Hout. rewrite sensor_of_label_label in Hout.
  destruct Hs' as [->| ->]; simpl in Hout; unfold linear_outcome in Hout;
    destruct (calibration _ (device_of_label device)) as [[o g]|] eqn:Hc; try discriminate;
    injection Hout as <-; apply calibration_ecg_emg in Hc as [Ho Hg]; auto;
    apply Forall_map, Forall_forall; intros x Hx;
    apply linear_sample_range; auto; eapply in_range_IZR; eauto.
Qed.

(** On a PLUX-family device, TEMP in a unit of the chain maps the samples
    with one per-sample function. *)
Lemma temp_plux_samples device raw_signal resolution u :
  str_in device plux_devices = true ->
  raw_to_phy (F := R) "TEMP" device raw_signal (PInt resolution) (unit_label u) =
  run_spec (Some TEMP) (device_of_label device) (Some u) raw_signal (PInt resolution).
Proof.
  intros _. rewrite raw_to_phy_table, unit_of_label_label. reflexivity.
Qed.

(** C8: On a PLUX-family device, the thermistor resistance read from two
    in-range codes is non-negative and strictly increasing in the code. *)
Theorem ohm_increasing device resolution x y ox oy :
  str_in device plux_devices = true -> (0 <= resolution)%Z ->
  in_range resolution [x; y] = true -> (x < y)%Z ->
  raw_to_phy (F := R) "TEMP" device [x; y] (PInt resolution) "Ohm" = Ret (Some [ox; oy]) ->
  0 <= to_float ox < to_float oy.
Proof.
  intros Hd Hr Hin Hxy Hout. cbn [in_range forallb] in Hin.
  rewrite !andb_true_iff, !Z.leb_le, !Z.ltb_lt in Hin.
  rewrite (temp_plux_samples _ _ _ Ohm Hd) in Hout. unfold run_spec in Hout. simpl in Hout.
  rewrite <- plux_devices_family, Hd in Hout. injection Hout as <- <-.
  apply ohm_sample_increasing; tauto.
Qed.

(** On a PLUX-family device, the Kelvin temperature read from two
    in-range codes whose resistance is at least 1 Ohm is positive and
    strictly decreasing in the code (the sensor is an NTC thermistor). *)
Theorem kelvin_decreasing device resolution x y kx ky :
  str_in device plux_devices = true -> (0 <= resolution)%Z ->
  (0 <= x)%Z -> (x < y)%Z -> (y < 2 ^ resolution)%Z ->
  (2 ^ resolution <= 10001 * x)%Z ->
  raw_to_phy (F := R) "TEMP" device [x; y] (PInt resolution) "K" = Ret (Some [kx; ky]) ->
  0 < to_float ky < to_float kx.
Proof.
  intros Hd Hr Hx Hxy Hy Hge Hout.
  rewrite (temp_plux_samples _ _ _ K Hd) in Hout. unfold run_spec in Hout. simpl in Hout.
  rewrite <- plux_devices_family, Hd in Hout. injection Hout as <- <-.
  rewrite !kelvin_sample_R. apply steinhart_decreasing.
  - apply ohm_sample_ge1; lia.
  - apply ohm_sample_increasing; lia.
Qed.

(** On a BITalino device, the Celsius output of in-range codes lies in
    [-50, 250). *)
Theorem bitalino_celsius_range device resolution raw_signal out :
  str_in device bitalino_devices = true -> (0 <= resolution)%Z ->
  in_range resolution raw_signal = true ->
  raw_to_phy (F := R) "TEMP" device raw_signal (PInt resolution) "C" = Ret (Some out) ->
  Forall (fun v => -50 <= to_float v < 250) out.
Proof.
  intros Hd Hr Hraw Hout. rewrite raw_to_phy_table in Hout.
  unfold run_spec in Hout. simpl in Hout.
  rewrite <- plux_devices_family, <- bitalino_devices_family, Hd in Hout.
  assert (Hp : str_in device plux_devices = false).
  { apply str_in_true in Hd. in_cases Hd; reflexivity. }
  rewrite Hp in Hout. injection Hout as <-.
  apply Forall_map, Forall_forall. intros x Hx.
  apply celsius_bitalino_sample_range. eapply in_range_IZR; eauto.
Qed.


(** ** Witnesses *)

Lemma mV_strictly_increasing_witness :
  str_in "ECG" ["ECG"; "EMG"]%string = true /\
  str_in "bioplux" (plux_devices ++ bitalino_devices) = true /\
  exists offset gain, 0 < gain /\
    (forall x y, (x < y)%Z -> mV_R offset gain 12 x < mV_R offset gain 12 y) /\
    raw_to_phy (F := R) "ECG" "bioplux" [0; 2048; 4095]%Z (PInt 12) "mV" =
    Ret (Some (map (fun x => NFloat (mV_R offset gain 12 x)) [0; 2048; 4095]%Z)).
Proof.
  split; [reflexivity | split; [reflexivity | apply mV_strictly_increasing; reflexivity]].
Defined.

Lemma mV_range_witness :
  exists out, raw_to_phy (F := R) "EMG" "bitalino_rev" [0; 512; 1023]%Z (PInt 10) "mV" = Ret (Some out) /\
    Forall (fun v => -3/2 <= to_float v < 3/2) out.
Proof.
  eexists; split; [reflexivity|].
  eapply (mV_range "EMG" "bitalino_rev" 10 [0; 512; 1023]%Z); [reflexivity | lia | reflexivity | reflexivity].
Defined.

Lemma ohm_increasing_witness :
  exists ox oy, raw_to_phy (F := R) "TEMP" "bioplux" [1; 2]%Z (PInt 12) "Ohm" = Ret (Some [ox; oy]) /\
    0 <= to_float ox < to_float oy.
Proof.
  do 2 eexists; split; [reflexivity|].
  eapply (ohm_increasing "bioplux" 12 1 2); [reflexivity | lia | reflexivity | lia | reflexivity].
Defined.

Lemma kelvin_decreasing_witness :
  exists kx ky, raw_to_phy (F := R) "TEMP" "bioplux" [1; 2]%Z (PInt 12) "K" = Ret (Some [kx; ky]) /\
    0 < to_float ky < to_float kx.
Proof.
  do 2 eexists; split; [reflexivity|].
  eapply (kelvin_decreasing "bioplux" 12 1 2);
    [reflexivity | lia | lia | lia | reflexivity | discriminate | reflexivity].
Defined.

Lemma bitalino_celsius_range_witness :
  exists out, raw_to_phy (F := R) "TEMP" "bitalino" [0; 2048; 4095]%Z (PInt 12) "C" = Ret (Some out) /\
    Forall (fun v => -50 <= to_float v < 250) out.
Proof.
  eexists; split; [reflexivity|].
  eapply (bitalino_celsius_range "bitalino" 12 [0; 2048; 4095]%Z); [reflexivity | lia | reflexivity | reflexivity].
Defined.

End ConversionReal.
