(* ===== verification/ConversionFloat.v ===== *)
(** * ConversionFloat: the conversion engine on IEEE 754 doubles

    numpy computes the transfer functions of [raw_to_phy] in binary64:
    [numpy.array(raw_signal)] holds int64 codes, and every operation with a
    float operand ([* vcc], [/ 2 ** resolution], [- vcc * offset],
    [/ gain]) converts the ints to doubles and rounds its result to the
    nearest double, ties to even.  This file instantiates the float class
    [PyFloat] of [Numeric] with Rocq's primitive binary64 floats, so that
    the very definitions the other files prove things of ([raw_to_phy],
    [linear_sample], ...) compute the doubles Python computes.

    - [float(z)] and a decimal literal are rounded to nearest even
      ([f64_of_Z], [f64_of_Q], with [SpecFloat]'s rounding when the
      operands are not exact doubles).
    - [numpy.log] and [float ** int] are libm's [log] and [pow], which IEEE
      754 does not pin down: they are section variables, so every theorem
      holds whatever they compute.  No theorem here depends on them.

    The facts are checked by evaluation over every code of every
    resolution from 1 to 16 bits, the ADCs of the devices the code lists.
    They show:
    - the millivolt outputs of ECG and EMG stay in [-1.5, 1.5);
    - they grow strictly from one code to the next;
    - the spec's example comes out as the three doubles Python prints.
    From 54 bits up to 63 (the widest codes of numpy's int64), the
    mid-scale code and the next one round to the same double
    ([mV_plateau_binary64]), so the spec's strict monotonicity fails
    for wide ADCs.  Python raises OverflowError where a
    double overflows ([2 ** resolution] past 1023 bits); the theorems stay
    below that. *)

From Stdlib Require Import String List ZArith QArith Bool Lia.
From Stdlib Require Import PrimFloat SpecFloat FloatOps Uint63.
From S2P Require Import Prelude Numeric Conversion ConversionSpec ConversionReal.
Import ListNotations.

Module ConversionFloat.
Import Conversion ConversionSpec ConversionReal.

(** Doubles are written as Python prints them, the shortest decimal that
    reads back as the double. *)
Local Set Warnings "-inexact-float".

(** ** Rounding ints and literals to doubles *)

(** [2 ** 53]: every int of at most this magnitude is a double. *)
Definition exact_max : Z := 9007199254740992.

(** [float(z)], and numpy's int64 to float64 cast: nearest double, ties
    to even. *)
Definition f64_of_Z (z : Z) : float :=
  if (Z.abs z <=? exact_max)%Z then
    let f := of_uint63 (Uint63.of_Z (Z.abs z)) in if (z <? 0)%Z then (- f)%float else f
  else SF2Prim (binary_normalize prec emax z 0 false).

(** A decimal literal ([1.019], [273.15], ...) by its exact value [q]:
    Python's parser rounds it to the nearest double.  When numerator and
    denominator are doubles, one IEEE division rounds the quotient once;
    otherwise the quotient is rounded from its exact value. *)
Definition f64_of_Q (q : Q) : float :=
  if (Z.abs (Qnum q) <=? exact_max)%Z && (Zpos (Qden q) <=? exact_max)%Z
  then (f64_of_Z (Qnum q) / f64_of_Z (Zpos (Qden q)))%float
  else
    let round (s : bool) (n : positive) :=
      let '(m, e, l) := SFdiv_core_binary prec emax (Zpos n) 0 (Zpos (Qden q)) 0 in
      SF2Prim (binary_round_aux prec emax s m e l) in
    match Qnum q with
    | Z0 => zero
    | Zpos n => round false n
    | Zneg n => round true n
    end.

(** [a, a + 1, ..., a + n - 1] *)
Fixpoint zrange (a : Z) (n : nat) : list Z :=
  match n with
  | O => []
  | S n => a :: zrange (a + 1)%Z n
  end.

Lemma in_zrange a n x : In x (zrange a n) <-> (a <= x < a + Z.of_nat n)%Z.
Proof.
  revert a. induction n as [|n IH]; intros a; cbn [zrange In]; [lia|].
  rewrite IH. lia.
Qed.

(** A property checked on each element of a range holds on the range. *)
Lemma zrange_Forall (P : Z -> Prop) a n x :
  Forall P (zrange a n) -> (a <= x < a + Z.of_nat n)%Z -> P x.
Proof. intros H Hx. exact (proj1 (Forall_forall _ _) H x (proj2 (in_zrange a n x) Hx)). Qed.

(** Rewriting under [forallb] one resolution at a time keeps conversion
    from evaluating the whole check. *)
Lemma forallb_pointwise {A : Type} (f g : A -> bool) l :
  (forall x, f x = g x) -> forallb f l = forallb g l.
Proof. intros H. induction l as [|a l IH]; cbn; [reflexivity|]. now rewrite H, IH. Qed.

(** Every code of a [r]-bit ADC. *)
Definition codes (r : Z) : list Z := zrange 0 (Z.to_nat (2 ^ r)).

Lemma in_codes r x : (0 <= r)%Z -> In x (codes r) <-> (0 <= x < 2 ^ r)%Z.
Proof.
  intros Hr. unfold codes. rewrite in_zrange, Z2Nat.id by lia. lia.
Qed.

Section Binary64.

(** libm's [log] and [pow], which numpy calls for the TEMP chain. *)
Context (log64 : float -> float) (pow64 : float -> Z -> float).

#[local] Instance binary64 : PyFloat float := {|
  fadd := PrimFloat.add;
  fsub := PrimFloat.sub;
  fmul := PrimFloat.mul;
  fdiv := PrimFloat.div;
  fof_Z := f64_of_Z;
  flit := f64_of_Q;
  fpowZ := pow64;
  flog := log64;
  fis_zero := PrimFloat.is_zero
|}.

(** ** Checking every code *)

(** [-1.5 <= v < 1.5] on doubles. *)
Definition within_mV (v : num float) : bool :=
  ((-1.5 <=? to_float v) && (to_float v <? 1.5))%float.

Definition lt_num (a b : num float) : bool := (to_float a <? to_float b)%float.

(** Each element strictly below the next. *)
Fixpoint increasing (l : list (num float)) : bool :=
  match l with
  | a :: (b :: _) as r => lt_num a b && increasing r
  | _ => true
  end.

Lemma increasing_zrange (f : Z -> num float) a n x :
  increasing (map f (zrange a n)) = true -> (a <= x)%Z -> (x + 1 < a + Z.of_nat n)%Z ->
  lt_num (f x) (f (x + 1)%Z) = true.
Proof.
  revert a. induction n as [|n IH]; intros a Hi Ha Hx; [lia|].
  destruct n as [|n]; [lia|]. cbn [zrange map increasing] in Hi.
  apply andb_prop in Hi as [H1 H2].
  destruct (Z.eq_dec x a) as [->|Hne]; [exact H1|].
  apply (IH (a + 1)%Z); [exact H2|lia|lia].
Qed.

(** A per-sample transfer [f resolution code], over the codes of every
    resolution from 1 to 16 bits: each output satisfies [ok], and the
    outputs increase with the code. *)
Definition codes_ok (f : Z -> Z -> num float) (ok : num float -> bool) : bool :=
  forallb (fun r => let l := map (f r) (codes r) in forallb ok l && increasing l) (zrange 1 16).

Lemma codes_ok_spec f ok r x :
  codes_ok f ok = true -> (1 <= r <= 16)%Z -> (0 <= x < 2 ^ r)%Z ->
  ok (f r x) = true /\ ((x + 1 < 2 ^ r)%Z -> lt_num (f r x) (f r (x + 1)%Z) = true).
Proof.
  intros Hok Hr Hx. unfold codes_ok in Hok. rewrite forallb_forall in Hok.
  assert (Hin : In r (zrange 1 16)) by (apply in_zrange; cbn; lia).
  apply Hok, andb_prop in Hin as [Hb Hi]. split.
  - rewrite forallb_forall in Hb. apply Hb, in_map, in_codes; lia.
  - intros Hx1. unfold codes in Hi. apply (increasing_zrange _ _ _ _ Hi); rewrite ?Z2Nat.id; lia.
Qed.

(** The gains of ECG and EMG in the calibration table; their offset is
    always [0.5]. *)
Definition mV_gains : list (num float) :=
  [fl (1019 # 1000); fl (11 # 10); fl (1008 # 1000); fl (1009 # 1000); NInt 1].

(** The millivolt transfer of one calibration, with the constants of a
    resolution ([vcc], [2 ** r], [vcc * offset], [gain]) computed once per
    resolution rather than once per sample; it unfolds to
    [codes_ok (linear_sample offset gain) within_mV]. *)
Definition linear_ok (offset gain : num float) : bool :=
  forallb (fun r =>
    let c_vcc := to_float vcc in
    let c_pow := to_float (pow2 r) in
    let c_off := to_float (nmul vcc offset) in
    let c_gain := to_float gain in
    let l := map (fun x => NFloat (((f64_of_Z x * c_vcc) / c_pow - c_off) / c_gain)%float) (codes r) in
    forallb within_mV l && increasing l) (zrange 1 16).

Lemma linear_ok_codes_ok offset gain :
  linear_ok offset gain = codes_ok (linear_sample offset gain) within_mV.
Proof. reflexivity. Qed.

Lemma calibration_mV s od offset gain :
  s = ECG \/ s = EMG -> calibration s od = Some (offset, gain) ->
  offset = fl (1 # 2) /\ In gain mV_gains.
Proof.
  intros [-> | ->] Hc; destruct od as [d|]; try discriminate; cbn in Hc;
    [destruct (family_of d)|destruct d]; injection Hc as <- <-; cbn; tauto.
Qed.

Lemma mV_gains_ok : forallb (linear_ok (fl (1 # 2))) mV_gains = true.
Proof. vm_compute. reflexivity. Qed.

(** An ECG or EMG conversion to mV maps one calibration's transfer over
    the samples. *)
Lemma mV_samples sensor device raw_signal r out :
  str_in sensor ["ECG"; "EMG"]%string = true ->
  raw_to_phy (F := float) sensor device raw_signal (PInt r) "mV" = Ret (Some out) ->
  exists gain, linear_ok (fl (1 # 2)) gain = true /\ out = map (linear_sample (fl (1 # 2)) gain r) raw_signal.
Proof.
  intros Hs Hout. rewrite raw_to_phy_table in Hout. apply str_in_true in Hs.
  assert (Hs' : exists s, (s = ECG \/ s = EMG) /\ sensor = sensor_label s)
    by (in_cases Hs; eauto).
  destruct Hs' as (s & Hs' & ->).
  unfold run_spec in Hout. simpl in Hout. rewrite sensor_of_label_label in Hout.
  pose proof mV_gains_ok as Hok. rewrite forallb_forall in Hok.
  pose proof Hs' as Hsd.
  destruct Hs' as [-> | ->]; simpl in Hout; unfold linear_outcome in Hout;
    destruct (calibration _ (device_of_label device)) as [[o g]|] eqn:Hc; try discriminate;
    injection Hout as <-; destruct (calibration_mV _ _ _ _ Hsd Hc) as [-> Hg];
    (exists g; split; [exact (Hok g Hg)|reflexivity]).
Qed.

(** A code of an [in_range] signal is one of the ADC's codes. *)
Lemma in_range_bounds r raw_signal x :
  in_range r raw_signal = true -> In x raw_signal -> (0 <= x < 2 ^ r)%Z.
Proof.
  unfold in_range. rewrite forallb_forall. intros H Hx.
  apply H, andb_prop in Hx as [H1 H2]. apply Z.leb_le in H1. apply Z.ltb_lt in H2. lia.
Qed.

(** C9: Bounds in binary64.  For ECG and EMG, every device and every ADC of
    1 to 16 bits, the doubles numpy returns for in-range codes lie in
    [-1.5, 1.5): rounding never pushes a sample out of the real range. *)
Theorem mV_range_binary64 sensor device r raw_signal out :
  str_in sensor ["ECG"; "EMG"]%string = true -> (1 <= r <= 16)%Z ->
  in_range r raw_signal = true ->
  raw_to_phy (F := float) sensor device raw_signal (PInt r) "mV" = Ret (Some out) ->
  Forall (fun v => within_mV v = true) out.
Proof.
  intros Hs Hr Hraw Hout. destruct (mV_samples _ _ _ _ _ Hs Hout) as (g & Hg & ->).
  rewrite linear_ok_codes_ok in Hg.
  apply Forall_map, Forall_forall. intros x Hx.
  exact (proj1 (codes_ok_spec _ _ _ _ Hg Hr (in_range_bounds _ _ _ Hraw Hx))).
Qed.

(** C10: Monotonicity in binary64.  For ECG and EMG, every device and every
    ADC of 1 to 16 bits, the double of a code is strictly below the
    double of the next code: no two codes collapse after rounding. *)
Theorem mV_increasing_binary64 sensor device r x a b :
  str_in sensor ["ECG"; "EMG"]%string = true -> (1 <= r <= 16)%Z ->
  (0 <= x)%Z -> (x + 1 < 2 ^ r)%Z ->
  raw_to_phy (F := float) sensor device [x; x + 1]%Z (PInt r) "mV" = Ret (Some [a; b]) ->
  lt_num a b = true.
Proof.
  intros Hs Hr Hx Hx1 Hout. destruct (mV_samples _ _ _ _ _ Hs Hout) as (g & Hg & Hab).
  rewrite linear_ok_codes_ok in Hg.
  injection Hab as -> ->. refine (proj2 (codes_ok_spec _ _ _ _ Hg Hr _) Hx1). lia.
Qed.

(** numpy's int64 to float64 cast maps the code [2 ** (r - 1) + 1] to the
    double of [2 ** (r - 1)] for every [r] from 54 to 63: the doubles near
    [2 ** (r - 1)] are at least 2 apart, and the tie rounds to the even
    [2 ** (r - 1)]. *)
Lemma f64_midscale_tie r :
  (54 <= r <= 63)%Z -> f64_of_Z (2 ^ (r - 1) + 1) = f64_of_Z (2 ^ (r - 1)).
Proof.
  intros Hr. apply (zrange_Forall (fun r => f64_of_Z (2 ^ (r - 1) + 1) = f64_of_Z (2 ^ (r - 1))) 54 10);
    [|cbn; lia].
  simpl zrange. repeat (apply Forall_cons; [vm_compute; reflexivity|]). apply Forall_nil.
Qed.

(** A sample's transfer sees the code only through its double. *)
Lemma linear_sample_f64 offset gain r x y :
  f64_of_Z x = f64_of_Z y -> linear_sample offset gain r x = linear_sample offset gain r y.
Proof. intros H. unfold linear_sample, nmul, vcc, fl. cbn [to_float fof_Z binary64]. now rewrite H. Qed.

(** C11: Strict monotonicity fails in binary64 at every resolution from
    54 bits up to 63, the widest whose codes fit numpy's int64.  For ECG
    and EMG on every device, the mid-scale code [2 ** (r - 1)] and the
    next code give the same millivolt double, because numpy casts both
    codes to the same float64 before [* vcc]: the spec's strictly
    increasing raw-to-mV mapping holds only for the reals (C6) and, in
    doubles, for narrower ADCs (C11). *)
Theorem mV_plateau_binary64 sensor device r a b :
  str_in sensor ["ECG"; "EMG"]%string = true -> (54 <= r <= 63)%Z ->
  @raw_to_phy float binary64 sensor device [2 ^ (r - 1); 2 ^ (r - 1) + 1]%Z (PInt r) "mV" =
    Ret (Some [a; b]) ->
  a = b.
Proof.
  intros Hs Hr Hout. destruct (mV_samples _ _ _ _ _ Hs Hout) as (g & _ & Hab).
  injection Hab as -> ->. apply linear_sample_f64. symmetry. now apply f64_midscale_tie.
Qed.

(** The spec's example in binary64.  [raw_to_phy("ECG", "bioplux",
    [0, 2048, 4095], 12, "mV")] returns exactly the doubles
    [-1.4720314033366046], [0.0] and [1.4713126380029442], as Python
    prints them; the spec's approximations 0.0015 and 1.4746 for the last
    two are not what the code computes. *)
Theorem ecg_example_binary64 :
  @raw_to_phy float binary64 "ECG" "bioplux" [0; 2048; 4095]%Z (PInt 12) "mV" =
  Ret (Some [NFloat (-1.4720314033366046)%float; NFloat 0%float; NFloat 1.4713126380029442%float]).
Proof. vm_compute. reflexivity. Qed.

(** The BITalino Celsius transfer (line 108) in binary64: for every ADC of
    1 to 16 bits the temperatures lie in [-50, 250) and increase with the
    code. *)
Definition within_celsius (v : num float) : bool :=
  ((-50 <=? to_float v) && (to_float v <? 250))%float.

(** The same check for the BITalino Celsius transfer. *)
Definition celsius_ok : bool :=
  forallb (fun r =>
    let c_pow := to_float (pow2 r) in
    let c_vcc := to_float vcc in
    let c_half := to_float (fl (1 # 2)) in
    let c_100 := f64_of_Z 100 in
    let l := map (fun x => NFloat ((f64_of_Z x / c_pow * c_vcc - c_half) * c_100)%float) (codes r) in
    forallb within_celsius l && increasing l) (zrange 1 16).

Lemma celsius_ok_codes_ok : celsius_ok = codes_ok celsius_bitalino_sample within_celsius.
Proof. apply forallb_pointwise. intros r. reflexivity. Qed.

Lemma bitalino_celsius_binary64 r x :
  (1 <= r <= 16)%Z -> (0 <= x < 2 ^ r)%Z ->
  within_celsius (celsius_bitalino_sample r x) = true /\
  ((x + 1 < 2 ^ r)%Z -> lt_num (celsius_bitalino_sample r x) (celsius_bitalino_sample r (x + 1)) = true).
Proof.
  apply codes_ok_spec. rewrite <- celsius_ok_codes_ok. vm_compute. reflexivity.
Qed.

(** A saturated TEMP code [2 ** r] (outside the ADC's range, which the
    code does not reject) divides by zero: numpy returns an infinite
    resistance (with a RuntimeWarning) instead of raising. *)
Lemma ohm_saturated_binary64 r :
  (1 <= r <= 62)%Z -> ohm_sample r (2 ^ r) = NFloat infinity.
Proof.
  intros Hr. apply (zrange_Forall (fun r => ohm_sample r (2 ^ r) = NFloat infinity) 1 62); [|cbn; lia].
  simpl zrange. repeat (apply Forall_cons; [vm_compute; reflexivity|]). apply Forall_nil.
Qed.

End Binary64.

(** ** Witnesses

    The ECG and EMG conversions never call [log] or [pow]; any functions
    stand for them. *)

Definition id_log (x : float) : float := x.
Definition id_pow (x : float) (_ : Z) : float := x.

#[local] Instance binary64_witness : PyFloat float := binary64 id_log id_pow.

Lemma mV_range_binary64_witness :
  raw_to_phy (F := float) "EMG" "bitalino" [0; 512; 1023]%Z (PInt 10) "mV" =
    Ret (Some [NFloat (-1.4880952380952381)%float; NFloat 0%float; NFloat 1.4851888020833333%float]) /\
  Forall (fun v => within_mV id_log id_pow v = true)
         [NFloat (-1.4880952380952381)%float; NFloat 0%float; NFloat 1.4851888020833333%float].
Proof.
  assert (H : raw_to_phy (F := float) "EMG" "bitalino" [0; 512; 1023]%Z (PInt 10) "mV" =
              Ret (Some [NFloat (-1.4880952380952381)%float; NFloat 0%float; NFloat 1.4851888020833333%float]))
    by (vm_compute; reflexivity).
  split; [exact H|].
  apply (mV_range_binary64 id_log id_pow "EMG" "bitalino" 10 [0; 512; 1023]%Z); [reflexivity|lia|reflexivity|exact H].
Defined.

Lemma mV_increasing_binary64_witness :
  raw_to_phy (F := float) "ECG" "bitalino" [40000; 40001]%Z (PInt 16) "mV" =
    Ret (Some [NFloat 0.30095880681818177%float; NFloat 0.3010004216974432%float]) /\
  lt_num id_log id_pow (NFloat 0.30095880681818177%float) (NFloat 0.3010004216974432%float) = true.
Proof.
  assert (H : raw_to_phy (F := float) "ECG" "bitalino" [40000; 40000 + 1]%Z (PInt 16) "mV" =
              Ret (Some [NFloat 0.30095880681818177%float; NFloat 0.3010004216974432%float]))
    by (vm_compute; reflexivity).
  split; [exact H|].
  exact (mV_increasing_binary64 id_log id_pow "ECG" "bitalino" 16 40000 _ _ eq_refl
           ltac:(lia) ltac:(lia) ltac:(vm_compute; reflexivity) H).
Defined.

Lemma mV_plateau_binary64_witness :
  raw_to_phy (F := float) "ECG" "bioplux" [2 ^ 59; 2 ^ 59 + 1]%Z (PInt 60) "mV" =
    Ret (Some [NFloat 0%float; NFloat 0%float]) /\
  NFloat 0%float = NFloat 0%float.
Proof.
  assert (H : raw_to_phy (F := float) "ECG" "bioplux" [2 ^ (60 - 1); 2 ^ (60 - 1) + 1]%Z (PInt 60) "mV" =
              Ret (Some [NFloat 0%float; NFloat 0%float]))
    by (vm_compute; reflexivity).
  split; [exact H|].
  exact (mV_plateau_binary64 id_log id_pow "ECG" "bioplux" 60 _ _ eq_refl ltac:(lia) H).
Defined.

End ConversionFloat.
