(* ===== verification/TimeAxis.v ===== *)
(** * TimeAxis: [generate_time] and the [numpy.linspace] it calls

    [generate_time] (conversion.py, lines 205-230) divides the number of
    samples by the sampling rate and asks [numpy.linspace] for that many
    points from 0 to the quotient.  [linspace] follows numpy's algorithm
    for [endpoint=True]: a float [arange], a step [delta / (num - 1)] (or,
    when the step is zero, a division then a multiplication), the start
    added, and the last point overwritten with [stop].  A zero sampling
    rate makes Python's true division raise [ZeroDivisionError].

    Proved: the axis has one point per sample; a zero rate raises; over
    the reals, the axis is [i * (n / rate) / (n - 1)], so it starts at 0,
    ends at [n / rate], is uniformly spaced and, for a positive rate,
    strictly increasing, with a spacing larger than [1 / rate]; a negative
    rate is not rejected and gives a decreasing axis. *)

From Stdlib Require Import List ZArith Reals Lra Lia Sorted.
From S2P Require Import Prelude Numeric.
Import ListNotations.

Module TimeAxis.

Inductive time_error : Type :=
| ZeroDivision.   (** ZeroDivisionError of [nbr_of_samples / sample_rate] *)

Section Axis.
Context {F : Type} `{PyFloat F}.

(** [numpy.linspace(start, stop, num)] with [endpoint=True], on floats. *)
Definition linspace (start stop : F) (num : nat) : list F :=
  let div := Nat.pred num in
  let delta := fsub stop start in
  let y := map (fun i => fof_Z (Z.of_nat i)) (seq 0 num) in
  let y := if (0 <? div)%nat then
             let step := fdiv delta (fof_Z (Z.of_nat div)) in
             if fis_zero step
             then map (fun v => fmul (fdiv v (fof_Z (Z.of_nat div))) delta) y
             else map (fun v => fmul v step) y
           else map (fun v => fmul v delta) y in
  let y := map (fun v => fadd v start) y in
  if (1 <? num)%nat then set_last y stop else y.

(** [x == 0] for the sampling rate, an int or a float. *)
Definition num_is_zero (a : num F) : bool :=
  match a with
  | NInt z => Z.eqb z 0
  | NFloat x => fis_zero x
  end.

(** [generate_time(signal, sample_rate)], lines 205-230. *)
Definition generate_time {A : Type} (signal : list A) (sample_rate : num F)
  : py_result time_error (list F) :=
  let nbr_of_samples := length signal in
  if num_is_zero sample_rate then Raise ZeroDivision else
  let end_of_time := ndiv (NInt (Z.of_nat nbr_of_samples)) sample_rate in
  Ret (linspace (fof_Z 0) (to_float end_of_time) nbr_of_samples).

Lemma length_linspace start stop num : length (linspace start stop num) = num.
Proof.
  unfold linspace.
  destruct (1 <? num)%nat; [rewrite length_set_last|];
    destruct (0 <? Nat.pred num)%nat; try destruct (fis_zero _);
    rewrite !length_map; apply length_seq.
Qed.

(** The time axis has one point per sample of the signal. *)
Theorem generate_time_length {A : Type} (signal : list A) sample_rate t :
  generate_time signal sample_rate = Ret t -> length t = length signal.
Proof.
  unfold generate_time. destruct (num_is_zero sample_rate); [discriminate|].
  intros Ht. injection Ht as <-. apply length_linspace.
Qed.

End Axis.

(** ** Over the reals *)

Local Open Scope R_scope.

Lemma num_is_zero_R (a : num R) : num_is_zero a = false <-> to_float a <> 0.
Proof.
  destruct a as [z|x]; simpl.
  - rewrite Z.eqb_neq. split; intros Hz E; [apply eq_IZR_R0 in E | subst z]; auto.
  - destruct (Req_dec_T x 0); split; congruence.
Qed.

(** A map over [seq] of a function increasing at each step is strictly
    sorted. *)
Lemma sorted_map_seq (f : nat -> R) (rel : R -> R -> Prop) (a n : nat) :
  (forall i, rel (f i) (f (S i))) -> Sorted rel (map f (seq a n)).
Proof.
  intros Hf. revert a. induction n as [|n IH]; intros a; simpl; [constructor|].
  constructor; [apply IH|]. destruct n; simpl; constructor. apply Hf.
Qed.



(** With [n >= 2] points, [linspace 0 stop n] is [i * stop / (n - 1)]: the
    overwritten endpoint is the value the formula gives anyway. *)
Lemma linspace_R (stop : R) (n : nat) :
  (2 <= n)%nat ->
  linspace (fof_Z 0) stop n = map (fun i => INR i * (stop / INR (n - 1))) (seq 0 n).
Proof.
  intros Hn. destruct n as [|[|m]]; [lia|lia|]. clear Hn.
  unfold linspace. simpl Nat.pred. replace (S (S m) - 1)%nat with (S m) by lia.
  replace (0 <? S m)%nat with true by (symmetry; apply Nat.ltb_lt; lia).
  replace (1 <? S (S m))%nat with true by (symmetry; apply Nat.ltb_lt; lia).
  assert (Hm : INR (S m) <> 0) by (apply not_0_INR; lia).
  rewrite seq_S. simpl fof_Z.
  destruct (fis_zero _); rewrite !map_map, !map_app; cbn [map]; rewrite set_last_snoc;
    (apply (f_equal2 (@app R)); [apply map_ext; intros i | f_equal]);
    change (Z.pos (Pos.of_succ_nat m)) with (Z.of_nat (S m)); rewrite <- ?INR_IZR_INZ;
    cbv [fadd fmul fdiv fsub R_PyFloat]; rewrite ?Nat.add_0_l; field; exact Hm.
Qed.

(** The axis of a signal of [n >= 2] samples: [i * (n / rate) / (n - 1)]. *)
Lemma generate_time_R {A : Type} (signal : list A) (sample_rate : num R) :
  (2 <= length signal)%nat -> num_is_zero sample_rate = false ->
  generate_time signal sample_rate =
  Ret (map (fun i => INR i * (INR (length signal) / to_float sample_rate
                              / INR (length signal - 1)))
           (seq 0 (length signal))).
Proof.
  intros Hn Hr. unfold generate_time. rewrite Hr. f_equal.
  rewrite linspace_R by exact Hn. simpl to_float. rewrite <- INR_IZR_INZ. reflexivity.
Qed.

(** The only exception of [generate_time] is the division by a zero
    sampling rate; any other rate, negative ones included, returns an
    axis. *)
Theorem generate_time_raises_iff {A : Type} (signal : list A) (sample_rate : num R) :
  (exists e, generate_time signal sample_rate = Raise e) <-> to_float sample_rate = 0.
Proof.
  unfold generate_time. destruct (num_is_zero sample_rate) eqn:Hz.
  - split; [|eauto]. intros _. destruct (Req_dec (to_float sample_rate) 0); [assumption|].
    apply num_is_zero_R in H. congruence.
  - split; [intros [e He]; discriminate|]. intros E. apply num_is_zero_R in Hz. contradiction.
Qed.

(** C12: Endpoints: for [n >= 2] samples and a non-zero rate, the axis
    starts at 0 and ends at [n / rate] (not [(n - 1) / rate]). *)
Theorem generate_time_endpoints {A : Type} (signal : list A) (sample_rate : num R) :
  (2 <= length signal)%nat -> num_is_zero sample_rate = false ->
  exists t, generate_time signal sample_rate = Ret t /\
    nth 0 t 0 = 0 /\ last t 0 = INR (length signal) / to_float sample_rate.
Proof.
  intros Hn Hr. rewrite (generate_time_R _ _ Hn Hr). eexists; split; [reflexivity|].
  assert (Hm : INR (length signal - 1) <> 0) by (apply not_0_INR; lia).
  destruct (length signal) as [|m] eqn:E; [lia|]. split.
  - rewrite nth_map_seq by lia. simpl. lra.
  - rewrite last_map_seq. replace (S m - 1)%nat with m in * by lia.
    apply num_is_zero_R in Hr. field. split; assumption.
Qed.

(** Uniform spacing: consecutive points of the axis of [n >= 2]
    samples differ by [(n / rate) / (n - 1)]. *)
Theorem generate_time_uniform {A : Type} (signal : list A) (sample_rate : num R) t i :
  (2 <= length signal)%nat -> num_is_zero sample_rate = false ->
  generate_time signal sample_rate = Ret t -> (S i < length signal)%nat ->
  nth (S i) t 0 - nth i t 0 =
  INR (length signal) / to_float sample_rate / INR (length signal - 1).
Proof.
  intros Hn Hr Ht Hi. rewrite (generate_time_R _ _ Hn Hr) in Ht. injection Ht as <-.
  rewrite !nth_map_seq by lia. rewrite S_INR. ring.
Qed.

Lemma sorted_short (rel : R -> R -> Prop) (t : list R) : (length t < 2)%nat -> Sorted rel t.
Proof. intros Hl. destruct t as [|x [|y r]]; simpl in Hl; try lia; repeat constructor. Qed.

(** C13: For a positive sampling rate the axis is strictly increasing. *)
Theorem generate_time_increasing {A : Type} (signal : list A) (sample_rate : num R) t :
  0 < to_float sample_rate ->
  generate_time signal sample_rate = Ret t -> Sorted Rlt t.
Proof.
  intros Hr Ht. assert (Hz : num_is_zero sample_rate = false) by (apply num_is_zero_R; lra).
  destruct (Nat.le_gt_cases 2 (length signal)) as [Hn|Hn].
  - rewrite (generate_time_R _ _ Hn Hz) in Ht. injection Ht as <-.
    apply sorted_map_seq. intros k. rewrite S_INR.
    assert (0 < INR (length signal - 1)) by (apply lt_0_INR; lia).
    assert (0 < INR (length signal)) by (apply lt_0_INR; lia).
    assert (0 < INR (length signal) / to_float sample_rate / INR (length signal - 1))
      by (repeat apply Rdiv_lt_0_compat; lra).
    lra.
  - apply sorted_short. rewrite (generate_time_length _ _ _ Ht). exact Hn.
Qed.

(** C15: A negative sampling rate is not rejected: [generate_time]
    returns an axis, and it is strictly decreasing. *)
Theorem generate_time_negative_rate {A : Type} (signal : list A) (sample_rate : num R) :
  to_float sample_rate < 0 ->
  exists t, generate_time signal sample_rate = Ret t /\ Sorted Rgt t.
Proof.
  intros Hr. assert (Hz : num_is_zero sample_rate = false) by (apply num_is_zero_R; lra).
  destruct (Nat.le_gt_cases 2 (length signal)) as [Hn|Hn].
  - rewrite (generate_time_R _ _ Hn Hz). eexists; split; [reflexivity|].
    apply sorted_map_seq. intros k. rewrite S_INR.
    assert (0 < INR (length signal - 1)) by (apply lt_0_INR; lia).
    assert (0 < INR (length signal)) by (apply lt_0_INR; lia).
    assert (INR (length signal) / to_float sample_rate / INR (length signal - 1) < 0).
    { unfold Rdiv. rewrite Rmult_assoc. apply Rmult_pos_neg; [lra|].
      apply Rmult_neg_pos; [apply Rinv_lt_0_compat | apply Rinv_0_lt_compat]; lra. }
    unfold Rgt. lra.
  - unfold generate_time. rewrite Hz. eexists; split; [reflexivity|].
    apply sorted_short. rewrite length_linspace. exact Hn.
Qed.

(** The example of the spec: 1000 samples at 1000 Hz give 1000 points
    from 0 to 1, 1/999 apart. *)
Theorem generate_time_1000_example :
  exists t, generate_time (repeat tt 1000) (NInt 1000) = Ret t /\
    length t = 1000%nat /\ nth 0 t 0 = 0 /\ last t 0 = 1 /\
    forall i, (S i < 1000)%nat -> nth (S i) t 0 - nth i t 0 = 1 / 999.
Proof.
  rewrite generate_time_R by (rewrite ?repeat_length; reflexivity || lia).
  rewrite repeat_length. eexists; split; [reflexivity|].
  rewrite length_map, length_seq. split; [reflexivity|]. rewrite !INR_IZR_INZ. simpl to_float.
  replace (Z.of_nat (1000 - 1)) with 999%Z by reflexivity.
  replace (Z.of_nat 1000) with 1000%Z by reflexivity. split; [|split].
  - rewrite nth_map_seq by lia. simpl. lra.
  - change 1000%nat with (S 999). rewrite last_map_seq, INR_IZR_INZ.
    replace (Z.of_nat 999) with 999%Z by reflexivity. field.
  - intros i Hi. rewrite !nth_map_seq by lia. rewrite S_INR. field.
Qed.

(** C14: The spacing is larger than one sampling period: with [n >= 2]
    samples at a positive rate, consecutive points differ by more than
    [1 / rate] (by the factor [n / (n - 1)]). *)
Theorem generate_time_spacing_exceeds_period {A : Type} (signal : list A)
        (sample_rate : num R) t i :
  (2 <= length signal)%nat -> 0 < to_float sample_rate ->
  generate_time signal sample_rate = Ret t -> (S i < length signal)%nat ->
  nth (S i) t 0 - nth i t 0 > 1 / to_float sample_rate.
Proof.
  intros Hn Hr Ht Hi. assert (Hz : num_is_zero sample_rate = false) by (apply num_is_zero_R; lra).
  rewrite (generate_time_R _ _ Hn Hz) in Ht. injection Ht as <-.
  rewrite !nth_map_seq by lia. rewrite S_INR.
  replace (INR (length signal)) with (INR (length signal - 1) + 1)
    by (rewrite <- S_INR; f_equal; lia).
  assert (0 < INR (length signal - 1)) by (apply lt_0_INR; lia).
  set (m := INR (length signal - 1)) in *. set (r := to_float sample_rate) in *.
  apply (proj1 (Rlt_0_minus _ _)). replace ((INR i + 1) * ((m + 1) / r / m) - INR i * ((m + 1) / r / m) - 1 / r)
    with (1 / (r * m)) by (field; lra).
  apply Rdiv_lt_0_compat; nra.
Qed.


(** ** Witnesses *)

Lemma generate_time_length_witness :
  exists t, generate_time (F := R) [tt; tt; tt] (NInt 1000) = Ret t /\ length t = length [tt; tt; tt].
Proof. eexists; split; [reflexivity|]. apply (generate_time_length [tt; tt; tt] (NInt 1000)). reflexivity. Defined.

Lemma generate_time_endpoints_witness :
  exists t, generate_time [tt; tt; tt] (NInt 1000) = Ret t /\
    nth 0 t 0 = 0 /\ last t 0 = INR (length [tt; tt; tt]) / to_float (F := R) (NInt 1000).
Proof. apply generate_time_endpoints; [simpl; lia | reflexivity]. Defined.

Lemma generate_time_uniform_witness :
  exists t, generate_time [tt; tt; tt] (NInt 1000) = Ret t /\
    nth 1 t 0 - nth 0 t 0 =
    INR (length [tt; tt; tt]) / to_float (F := R) (NInt 1000) / INR (length [tt; tt; tt] - 1).
Proof.
  eexists; split; [reflexivity|].
  apply (generate_time_uniform [tt; tt; tt] (NInt 1000)); [simpl; lia | reflexivity | reflexivity | simpl; lia].
Defined.

Lemma generate_time_increasing_witness :
  exists t, generate_time [tt; tt; tt] (NInt 1000) = Ret t /\ Sorted Rlt t.
Proof.
  eexists; split; [reflexivity|].
  apply (generate_time_increasing [tt; tt; tt] (NInt 1000)); [simpl; lra | reflexivity].
Defined.

Lemma generate_time_spacing_exceeds_period_witness :
  exists t, generate_time [tt; tt; tt] (NInt 1000) = Ret t /\
    nth 1 t 0 - nth 0 t 0 > 1 / to_float (F := R) (NInt 1000).
Proof.
  eexists; split; [reflexivity|].
  apply (generate_time_spacing_exceeds_period [tt; tt; tt] (NInt 1000));
    [simpl; lia | simpl; lra | reflexivity | simpl; lia].
Defined.

Lemma generate_time_negative_rate_witness :
  exists t, generate_time [tt; tt; tt] (NInt (-1000)) = Ret t /\ Sorted Rgt t.
Proof. apply generate_time_negative_rate. simpl. lra. Defined.

End TimeAxis.
