(* ===== verification/Numpy.v ===== *)
(** * Numpy: the numpy operations the notebook helpers use, on arrays of reals

    Arrays are lists of real numbers.  Comparisons ([a >= 0], [a < 0]) are
    boolean functions; [numpy.average], [numpy.max], [numpy.min] (whose
    ValueError on an empty array is the caller's error value),
    [numpy.diff], fancy-index assignment [a[idx] = v] and slice assignment
    [a[lo:hi] = v], Python's slice [a[:s]] with a possibly negative stop,
    [int(x)] of a float and [numpy.interp] are definitions here, with the
    lemmas their clients share: assignment through [numpy.where] is a
    pointwise threshold, reductions bound every element, slice assignment
    is an indicator, interpolation stays within the data's range. *)

From Stdlib Require Import String List ZArith Reals Lra Lia.
From S2P Require Import Prelude Numeric.
Import ListNotations.

Local Open Scope R_scope.
Local Open Scope py_scope.


Definition Rle_bool (a b : R) : bool := if Rle_dec a b then true else false.
Definition Rlt_bool (a b : R) : bool := if Rlt_dec a b then true else false.

(** [numpy.average(a)] *)
Definition average (a : list R) : R := fold_right Rplus 0 a / INR (length a).

(** [numpy.max(a)] and [numpy.min(a)]; [err] is the ValueError of an
    empty array. *)
Definition np_max {E : Type} (err : E) (a : list R) : py_result E R :=
  match a with
  | [] => Raise err
  | x :: r => Ret (fold_left Rmax r x)
  end.

Definition np_min {E : Type} (err : E) (a : list R) : py_result E R :=
  match a with
  | [] => Raise err
  | x :: r => Ret (fold_left Rmin r x)
  end.

(** [a[i] = v] for an index in range. *)
Fixpoint set_nth (a : list R) (i : nat) (v : R) : list R :=
  match a, i with
  | [], _ => []
  | _ :: r, O => v :: r
  | x :: r, S j => x :: set_nth r j v
  end.

(** [a[idx] = v] for an index array [idx]. *)
Definition assign_at (a : list R) (idx : list nat) (v : R) : list R :=
  fold_left (fun acc i => set_nth acc i v) idx a.

(** [numpy.diff(a)] *)
Definition np_diff (a : list R) : list R := zip_with (fun x y => y - x) a (tl a).

(** [a - numpy.average(a)] *)
Definition centre (a : list R) : list R := map (fun v => v - average a) a.

(** [int(x)] of a float: truncation toward zero. *)
Definition py_int (x : R) : Z :=
  if Rle_dec 0 x then Int_part x else (- Int_part (- x))%Z.

(** [a[:s]] for a Python int [s]: a negative stop counts from the end. *)
Definition py_slice_to {A : Type} (a : list A) (s : Z) : list A :=
  if (0 <=? s)%Z then firstn (Z.to_nat s) a else firstn (length a - Z.to_nat (- s)) a.

(** [a[lo:hi] = v] on a numpy array, for non-negative [lo] and [hi]: the
    elements from [lo] to [min(hi, len(a))] become [v]. *)
Definition np_fill_slice (a : list R) (lo hi : nat) (v : R) : list R :=
  firstn lo a ++ repeat v (Nat.min hi (length a) - lo) ++ skipn (Nat.max lo hi) a.

(** [numpy.interp] at one point [x] between [xp[j] <= x], for sample
    points [xp] and values [fp]: the first segment with [x < xp[j+1]], or
    the last value. *)
Fixpoint interp_seg (x : R) (xp fp : list R) : R :=
  match xp, fp with
  | x0 :: ((x1 :: _) as xr), f0 :: ((f1 :: _) as fr) =>
      if Rlt_bool x x1 then (f1 - f0) / (x1 - x0) * (x - x0) + f0
      else interp_seg x xr fr
  | _, f0 :: _ => f0
  | _, [] => 0
  end.

(** [numpy.interp(x, xp, fp)] at one point: [fp[0]] left of [xp[0]],
    [fp[-1]] from [xp[-1]] on, linear in between. *)
Definition interp_at (x : R) (xp fp : list R) : R :=
  if Rlt_bool x (hd 0 xp) then hd 0 fp
  else if Rle_bool (last xp 0) x then last fp 0
  else interp_seg x xp fp.

(** [numpy.interp(x, xp, fp)]: ValueError [err] for empty sample points or
    sample points and values of different lengths. *)
Definition np_interp {E : Type} (err : E) (x xp fp : list R) : py_result E (list R) :=
  if Nat.eqb (length xp) 0 then Raise err
  else if negb (Nat.eqb (length fp) (length xp)) then Raise err
  else Ret (map (fun v => interp_at v xp fp) x).

(** ** Lemmas *)

Lemma set_nth_app (pre r : list R) (x v : R) :
  set_nth (pre ++ x :: r) (length pre) v = pre ++ v :: r.
Proof. induction pre as [|y pre IH]; simpl; [reflexivity|]. now rewrite IH. Qed.

Lemma assign_where_from (p : R -> bool) v (l' : list R) : forall pre l,
  length l = length l' ->
  fold_left (fun acc i => set_nth acc i v) (where_from p (length pre) l') (pre ++ l) =
  pre ++ zip_with (fun x x' => if p x' then v else x) l l'.
Proof.
  induction l' as [|x' r' IH]; intros pre [|x r] Hl; simpl in *; try discriminate.
  - now rewrite app_nil_r.
  - injection Hl as Hl.
    replace (S (length pre)) with (length (pre ++ [if p x' then v else x]))
      by (rewrite length_app; simpl; lia).
    assert (Hc : forall (y : R) l, pre ++ y :: l = (pre ++ [y]) ++ l)
      by (intros; now rewrite <- app_assoc).
    destruct (p x'); simpl; [rewrite set_nth_app|];
      rewrite (Hc _ r), IH by exact Hl; symmetry; apply Hc.
Qed.

(** [a[numpy.where(p(b))[0]] = v] for arrays of one shape. *)
Lemma assign_at_where (p : R -> bool) v l l' :
  length l = length l' ->
  assign_at l (np_where p l') v = zip_with (fun x x' => if p x' then v else x) l l'.
Proof. intros Hl. exact (assign_where_from p v l' [] l Hl). Qed.

Lemma fold_max_ge (r : list R) (x y : R) : In y (x :: r) -> y <= fold_left Rmax r x.
Proof.
  revert x y; induction r as [|z r IH]; intros x y Hy; simpl in *.
  - destruct Hy as [<-|[]]. lra.
  - assert (Hh := IH (Rmax x z) (Rmax x z) (or_introl eq_refl)).
    destruct Hy as [<-|[<-|Hy]]; [| |apply IH; now right].
    + eapply Rle_trans; [apply Rmax_l|exact Hh].
    + eapply Rle_trans; [apply Rmax_r|exact Hh].
Qed.

Lemma fold_min_le (r : list R) (x y : R) : In y (x :: r) -> fold_left Rmin r x <= y.
Proof.
  revert x y; induction r as [|z r IH]; intros x y Hy; simpl in *.
  - destruct Hy as [<-|[]]. lra.
  - assert (Hh := IH (Rmin x z) (Rmin x z) (or_introl eq_refl)).
    destruct Hy as [<-|[<-|Hy]]; [| |apply IH; now right].
    + eapply Rle_trans; [exact Hh|apply Rmin_l].
    + eapply Rle_trans; [exact Hh|apply Rmin_r].
Qed.

Lemma Rle_bool_spec (a b : R) : Rle_bool a b = true <-> a <= b.
Proof. unfold Rle_bool; destruct (Rle_dec a b); split; intros; auto; congruence. Qed.

Lemma Rlt_bool_spec (a b : R) : Rlt_bool a b = true <-> a < b.
Proof. unfold Rlt_bool; destruct (Rlt_dec a b); split; intros; auto; congruence. Qed.

Lemma Rlt_bool_Rle_bool (a b : R) : Rlt_bool a b = negb (Rle_bool b a).
Proof. unfold Rlt_bool, Rle_bool; destruct (Rlt_dec a b), (Rle_dec b a); auto; lra. Qed.

Lemma length_np_fill_slice a lo hi v : length (np_fill_slice a lo hi v) = length a.
Proof.
  unfold np_fill_slice. rewrite !length_app, repeat_length, length_firstn, length_skipn. lia.
Qed.

(** Slice assignment is an indicator: inside [lo, hi) the value is [v],
    elsewhere the old element. *)
Lemma nth_np_fill_slice a lo hi v i d :
  (i < length a)%nat ->
  nth i (np_fill_slice a lo hi v) d = if ((lo <=? i)%nat && (i <? hi)%nat)%bool then v else nth i a d.
Proof.
  intros Hi. unfold np_fill_slice.
  destruct (Nat.ltb_spec i lo) as [Hlo|Hlo].
  - rewrite app_nth1 by (rewrite length_firstn; lia). rewrite nth_firstn.
    destruct (Nat.leb_spec lo i); [lia|]. destruct (Nat.ltb_spec i lo); [reflexivity|lia].
  - rewrite app_nth2 by (rewrite length_firstn; lia). rewrite length_firstn.
    replace (Nat.min lo (length a)) with lo by lia.
    destruct (Nat.leb_spec lo i) as [_|]; [|lia]. cbn [andb].
    destruct (Nat.ltb_spec i hi) as [Hhi|Hhi].
    + rewrite app_nth1 by (rewrite repeat_length; lia).
      rewrite nth_indep with (d' := v) by (rewrite repeat_length; lia). apply nth_repeat.
    + rewrite app_nth2 by (rewrite repeat_length; lia). rewrite repeat_length, nth_skipn.
      f_equal. lia.
Qed.

Lemma length_py_slice_to {A : Type} (a : list A) (s : Z) :
  length (py_slice_to a s) =
  if (0 <=? s)%Z then Nat.min (Z.to_nat s) (length a) else (length a - Z.to_nat (- s))%nat.
Proof. unfold py_slice_to. destruct (0 <=? s)%Z; rewrite length_firstn; lia. Qed.

(** A point of a segment lies between its end values. *)
Lemma segment_between (x x0 x1 f0 f1 : R) :
  x0 <= x < x1 ->
  Rmin f0 f1 <= (f1 - f0) / (x1 - x0) * (x - x0) + f0 <= Rmax f0 f1.
Proof.
  intros [H0 H1]. set (t := (x - x0) / (x1 - x0)).
  assert (Ht : 0 <= t <= 1).
  { unfold t. split; [apply Rmult_le_pos; [lra|left; apply Rinv_0_lt_compat; lra]|].
    apply (Rmult_le_reg_r (x1 - x0)); [lra|]. unfold Rdiv. rewrite Rmult_assoc, Rinv_l; lra. }
  replace ((f1 - f0) / (x1 - x0) * (x - x0) + f0) with (f0 + t * (f1 - f0))
    by (unfold t; field; lra).
  unfold Rmin, Rmax. destruct (Rle_dec f0 f1); split; nra.
Qed.

Lemma interp_seg_between (x : R) : forall xp fp,
  length xp = length fp -> hd 0 xp <= x -> fp <> [] ->
  exists a b, In a fp /\ In b fp /\ Rmin a b <= interp_seg x xp fp <= Rmax a b.
Proof.
  induction xp as [|x0 xr IH]; intros [|f0 fr] Hl Hx Hf; try discriminate; [contradiction|].
  destruct xr as [|x1 xr'], fr as [|f1 fr']; try discriminate; cbn [interp_seg].
  - exists f0, f0. rewrite Rmin_left, Rmax_left by lra. cbn. auto with real.
  - destruct (Rlt_bool x x1) eqn:Ex.
    + apply Rlt_bool_spec in Ex. exists f0, f1. cbn. split; [auto|split; [auto|]].
      apply segment_between. cbn in Hx. lra.
    + destruct (IH (f1 :: fr')) as (a & b & Ha & Hb & Hab); cbn in *; try lia; try discriminate.
      * destruct (Rlt_dec x x1) as [|Hn]; [apply Rlt_bool_spec in r; congruence|lra].
      * exists a, b. auto.
Qed.

Lemma last_in {A : Type} (l : list A) (d : A) : l <> [] -> In (last l d) l.
Proof.
  intros Hl. rewrite (app_removelast_last d Hl) at 2. apply in_or_app. right. now left.
Qed.

(** Every value [numpy.interp] returns lies between the smallest and the
    largest of the values [fp]. *)
Lemma interp_at_bounds (x : R) (xp : list R) (f0 : R) (fr : list R) :
  length xp = length (f0 :: fr) ->
  fold_left Rmin fr f0 <= interp_at x xp (f0 :: fr) <= fold_left Rmax fr f0.
Proof.
  intros Hl.
  assert (Hin : forall y, In y (f0 :: fr) -> fold_left Rmin fr f0 <= y <= fold_left Rmax fr f0)
    by (intros y Hy; split; [apply fold_min_le|apply fold_max_ge]; exact Hy).
  unfold interp_at. destruct (Rlt_bool x (hd 0 xp)) eqn:E0; [apply Hin; now left|].
  destruct (Rle_bool (last xp 0) x); [apply Hin, last_in; discriminate|].
  destruct (interp_seg_between x xp (f0 :: fr) Hl) as (a & b & Ha & Hb & Hab).
  - destruct (Rlt_dec x (hd 0 xp)) as [H|H]; [apply Rlt_bool_spec in H; congruence|lra].
  - discriminate.
  - apply Hin in Ha, Hb. unfold Rmin, Rmax in Hab. destruct (Rle_dec a b); lra.
Qed.

(** [int(a / b)] of two Python ints, [a >= 0 < b], is [a // b]. *)
Lemma py_int_div (a b : Z) : (0 <= a)%Z -> (0 < b)%Z -> py_int (IZR a / IZR b) = (a / b)%Z.
Proof.
  intros Ha Hb.
  assert (Hb' : 0 < IZR b) by now apply IZR_lt.
  assert (Hdm := Z.div_mod a b ltac:(lia)). assert (Hm := Z.mod_pos_bound a b Hb).
  set (q := (a / b)%Z) in *. set (m := (a mod b)%Z) in *.
  assert (Hx : IZR a / IZR b = IZR q + IZR m / IZR b)
    by (rewrite Hdm, plus_IZR, mult_IZR; field; lra).
  assert (Hm0 : 0 <= IZR m / IZR b < 1).
  { destruct Hm as [Hm1 Hm2]. apply IZR_le in Hm1. apply IZR_lt in Hm2. split.
    - apply Rmult_le_pos; [lra|left; now apply Rinv_0_lt_compat].
    - apply (Rmult_lt_reg_r (IZR b)); [lra|]. field_simplify; lra. }
  assert (Hq : (0 <= q)%Z) by (apply Z.div_pos; lia).
  unfold py_int. destruct (Rle_dec 0 (IZR a / IZR b)) as [_|Hn].
  - unfold Int_part. rewrite Hx. symmetry.
    assert (up (IZR q + IZR m / IZR b) = (q + 1)%Z); [|lia].
    symmetry. apply tech_up; rewrite plus_IZR; lra.
  - exfalso. apply Hn. rewrite Hx. apply IZR_le in Hq. lra.
Qed.

Lemma np_interp_ok {E : Type} (err : E) x xp fp :
  xp <> [] -> length fp = length xp -> np_interp err x xp fp = Ret (map (fun v => interp_at v xp fp) x).
Proof.
  intros Hxp Hl. unfold np_interp. rewrite Hl, Nat.eqb_refl.
  destruct xp; [contradiction|reflexivity].
Qed.

Lemma np_interp_empty {E : Type} (err : E) x fp : np_interp err x [] fp = Raise err.
Proof. reflexivity. Qed.
