(* ===== verification/Bokeh.v ===== *)
(** * Bokeh: the part of the plotting library the notebook helpers drive

    The helpers of __notebook_support__.py build Bokeh figures by mutating
    them: [figure(...)] creates one with axis labels and ranges,
    [fig.line(xs, ys, ...)] and [fig.circle(...)] append a glyph,
    [fig.add_layout(box)] an annotation, [fig.title = t] and
    [fig.yaxis.axis_label = l] set attributes; [gridplot(rows)] arranges
    figures and [show] displays a layout.  A figure is modelled as the
    record of what those calls recorded (glyphs and annotations in call
    order), and each call as a function from figure to
    figure, so that a helper that mutates a figure it was passed is a
    function of that figure.  [opensignals_color_pallet()] hands out the
    next colour of a palette: its state is the number of colours taken.
    Only what the helpers observably pass to Bokeh is recorded; rendering
    is not modelled. *)

From Stdlib Require Import String List Reals.
From S2P Require Import Prelude.
Import ListNotations.

Module Bokeh.

(** Keyword arguments of a [line] call: [**opensignals_kwargs("line")] or
    explicit [line_width], [line_color] and [legend]. *)
Inductive line_style : Type :=
| OpensignalsLine
| OpensignalsLineLegend (legend : string)
| Styled (width : nat) (color : string) (legend : option string).

(** [fig.line(xs, ys, ...)] and [fig.circle(xs, ys, fill_color=.., fill_alpha=.., legend=..)] *)
Inductive glyph : Type :=
| Line (xs ys : list R) (style : line_style)
| Circle (xs ys : list R) (fill_color : string) (fill_alpha : R) (legend : string)
| ConstLine (xs : list R) (y : R) (style : line_style).  (** [fig.line(xs, y)] with a scalar [y] *)

(** [BoxAnnotation(left=.., right=.., top=.., bottom=.., fill_color=.., fill_alpha=..)]
    and [Arrow(...)] *)
Inductive annotation : Type :=
| Box (left right : R) (top bottom : option R) (fill_color : string) (fill_alpha : R)
| Arrow (x_start y_start x_end y_end : R) (color : string).

Record figure : Type := Figure {
  title : option string;
  x_label : option string;
  y_label : option string;
  x_range : option (R * R);
  y_range : option (R * R);
  glyphs : list glyph;
  layouts : list annotation
}.

(** [figure(x_axis_label=.., y_axis_label=.., x_range=.., y_range=..)]: a
    new figure with nothing drawn. *)
Definition new_figure (xl yl : string) (xr yr : R * R) : figure :=
  {| title := None; x_label := Some xl; y_label := Some yl; x_range := Some xr;
     y_range := Some yr; glyphs := []; layouts := [] |}.

(** [figure(x_axis_label=.., y_axis_label=.., title=..)] *)
Definition titled_figure (xl yl t : string) : figure :=
  {| title := Some t; x_label := Some xl; y_label := Some yl; x_range := None;
     y_range := None; glyphs := []; layouts := [] |}.

(** A figure only its glyphs distinguish from [f]. *)
Definition with_glyphs (f : figure) (gs : list glyph) : figure :=
  {| title := title f; x_label := x_label f; y_label := y_label f; x_range := x_range f;
     y_range := y_range f; glyphs := gs; layouts := layouts f |}.

(** [fig.line(xs, ys, **style)] *)
Definition line (f : figure) (x y : list R) (s : line_style) : figure :=
  with_glyphs f (glyphs f ++ [Line x y s]).

(** [fig.line(x, y, ...)] with a scalar [y] *)
Definition const_line (f : figure) (x : list R) (y : R) (s : line_style) : figure :=
  with_glyphs f (glyphs f ++ [ConstLine x y s]).

(** [fig.circle(x, y, fill_color=c, fill_alpha=a, legend=l)] *)
Definition circle (f : figure) (x y : list R) (c : string) (a : R) (l : string) : figure :=
  with_glyphs f (glyphs f ++ [Circle x y c a l]).

(** [fig.add_layout(a)] *)
Definition add_layout (f : figure) (a : annotation) : figure :=
  {| title := title f; x_label := x_label f; y_label := y_label f; x_range := x_range f;
     y_range := y_range f; glyphs := glyphs f; layouts := layouts f ++ [a] |}.

(** [t = Title(); t.text = s; fig.title = t] *)
Definition set_title (f : figure) (s : string) : figure :=
  {| title := Some s; x_label := x_label f; y_label := y_label f; x_range := x_range f;
     y_range := y_range f; glyphs := glyphs f; layouts := layouts f |}.

(** [fig.xaxis.axis_label = s] and [fig.yaxis.axis_label = s] *)
Definition set_x_label (f : figure) (s : string) : figure :=
  {| title := title f; x_label := Some s; y_label := y_label f; x_range := x_range f;
     y_range := y_range f; glyphs := glyphs f; layouts := layouts f |}.

Definition set_y_label (f : figure) (s : string) : figure :=
  {| title := title f; x_label := x_label f; y_label := Some s; x_range := x_range f;
     y_range := y_range f; glyphs := glyphs f; layouts := layouts f |}.

(** A layout passed to [show]: one figure or a grid of rows. *)
Inductive layout : Type :=
| Single (f : figure)
| Grid (rows : list (list figure)).

(** [opensignals_color_pallet()]: the colour at the palette position, and
    the next position. *)
Definition next_color (palette : nat -> string) (pos : nat) : string * nat :=
  (palette pos, S pos).

Lemma glyphs_line f x y s : glyphs (line f x y s) = glyphs f ++ [Line x y s].
Proof. reflexivity. Qed.

Lemma layouts_add_layout f a : layouts (add_layout f a) = layouts f ++ [a].
Proof. reflexivity. Qed.

End Bokeh.
