(* ===== verification/Respiration.v ===== *)
(** * Respiration: the RIP plots of __notebook_support__.py

    [plot_resp_slow] (lines 840-927) and [plot_resp_diff] (lines 929-1031)
    plot a respiration (RIP) signal together with a rectangular signal that
    marks inhalation and exhalation.  Both binarise the rectangular signal
    around its mean (samples at or above the mean become the maximum of the
    centred signal, the others its minimum, by two in-place numpy
    assignments), find its rising and falling edges with [numpy.diff] and
    [numpy.where], and draw one line per inhalation ([inhal_begin[k]] to
    [inhal_end[k]]) and per exhalation ([exhal_begin[k] = inhal_end[k]] to
    [exhal_end[k] = inhal_begin[k+1]], the last one to the end of the
    signal); [plot_resp_diff] delegates the drawing to
    [_inhal_exhal_segments] (lines 1034-1085), which also draws the
    exhalation before the first inhalation.

    The figures are the records of [Bokeh]; the colours come from the
    palette state; the functions the module imports from elsewhere
    ([visualise.plot], [process.smooth]) are parameters.  Errors: Python's
    IndexError when an edge list is indexed past its end, numpy's
    ValueError for the maximum of an empty array, ZeroDivisionError for a
    zero sampling rate.  Values are real numbers.

    Proved: the binarised signal has two levels, high exactly where the
    rectangular signal is at or above its mean; the edge lists are the
    rising and falling transitions of that level pattern, which alternate;
    [plot_resp_slow] raises IndexError exactly when the pattern starts low
    and ends high; every drawn inhalation starts one sample early; with a
    single inhalation [_inhal_exhal_segments] never draws the exhalation
    before it, with two or more it does. *)

From Stdlib Require Import String List ZArith Reals Lra Lia Sorted.
From S2P Require Import Prelude Numeric Numpy TimeAxis Bokeh.
Import ListNotations.

Module Respiration.
Import TimeAxis Bokeh.

Inductive resp_error : Type :=
| ZeroDivision        (** [len(signal) / sample_rate] with a zero rate *)
| EmptyReduction      (** [numpy.max] / [numpy.min] of an empty array *)
| IndexOutOfRange.    (** [inhal_end[k]] past the end of the list *)

Local Open Scope R_scope.
Local Open Scope py_scope.


(** Lines 876-881 (and 958-962): the binarised rectangular signal. *)
Definition binarise (rect_signal : list R) : py_result resp_error (list R) :=
  let rect_signal_rev := centre rect_signal in
  let inhal_segments := np_where (fun v => Rle_bool 0 v) rect_signal_rev in
  let exhal_segments := np_where (fun v => Rlt_bool v 0) rect_signal_rev in
  mx <- np_max EmptyReduction rect_signal_rev ;;
  let rect_signal_rev := assign_at rect_signal_rev inhal_segments mx in
  mn <- np_min EmptyReduction rect_signal_rev ;;
  Ret (assign_at rect_signal_rev exhal_segments mn).

(** Lines 884-890 (and 977-981): the edge index lists. *)
Record edges : Type := Edges {
  inhal_begin : list nat;
  inhal_end : list nat;
  exhal_begin : list nat;
  exhal_end : list nat
}.

Definition find_edges (rect_signal_rev : list R) : edges :=
  let diff_rect_signal := np_diff rect_signal_rev in
  let ib := np_where (fun v => Rlt_bool 0 v) diff_rect_signal in
  let ie := np_where (fun v => Rlt_bool v 0) diff_rect_signal in
  {| inhal_begin := ib; inhal_end := ie; exhal_begin := ie; exhal_end := tl ib |}.

(** [numpy.linspace(0, len(signal) / sample_rate, len(signal))], the
    expression of [generate_time]. *)
Definition time_of (signal : list R) (sample_rate : num R) : py_result resp_error (list R) :=
  match generate_time signal sample_rate with
  | Ret t => Ret t
  | Raise _ => Raise ZeroDivision
  end.

(** ** Drawing the segments *)

Definition idx (l : list nat) (k : nat) : py_result resp_error nat :=
  py_index IndexOutOfRange l k.

(** One iteration of the loop of [plot_resp_slow], lines 903-919. *)
Definition slow_step (time rect : list R) (e : edges) (ic ec : string)
           (fig : figure) (k : nat) : py_result resp_error figure :=
  let legend := if Nat.eqb k 0 then (Some "Inhalation"%string, Some "Exhalation"%string)
                else (None, None) in
  b <- idx (inhal_begin e) k ;; en <- idx (inhal_end e) k ;;
  let fig := line fig (slice time b (Some en)) (slice rect b (Some en))
                  (Styled 2 ic (fst legend)) in
  if negb (Nat.eqb k (length (inhal_begin e) - 1)) then
    eb <- idx (exhal_begin e) k ;; ee <- idx (exhal_end e) k ;;
    Ret (line fig (slice time eb (Some ee)) (slice rect eb (Some ee)) (Styled 2 ec (snd legend)))
  else
    eb <- idx (exhal_begin e) k ;;
    Ret (line fig (slice time eb None) (slice rect eb None) (Styled 2 ec (snd legend))).

(** One iteration of the loop of [_inhal_exhal_segments], lines 1065-1084. *)
Definition segments_step (time signal : list R) (e : edges) (ic ec : string)
           (fig : figure) (k : nat) : py_result resp_error figure :=
  let legend := if Nat.eqb k 0
                then (Some "Respiration Suspension"%string, Some "Normal Breath"%string)
                else (None, None) in
  b <- idx (inhal_begin e) k ;; en <- idx (inhal_end e) k ;;
  let fig := line fig (slice time b (Some en)) (slice signal b (Some en))
                  (Styled 2 ic (fst legend)) in
  if negb (Nat.eqb k (length (inhal_begin e) - 1)) then
    eb <- idx (exhal_begin e) k ;; ee <- idx (exhal_end e) k ;;
    let fig := line fig (slice time eb (Some ee)) (slice signal eb (Some ee))
                    (Styled 2 ec (snd legend)) in
    if Nat.eqb k 0 then
      b0 <- idx (inhal_begin e) k ;;
      Ret (line fig (slice time 0 (Some b0)) (slice signal 0 (Some b0)) (Styled 2 ec (snd legend)))
    else Ret fig
  else
    eb <- idx (exhal_begin e) k ;;
    Ret (line fig (slice time eb None) (slice signal eb None) (Styled 2 ec (snd legend))).

(** [_inhal_exhal_segments(fig, time, signal, ...)], lines 1034-1085: it
    takes two colours from the palette and mutates [fig]. *)
Definition inhal_exhal_segments (palette : nat -> string) (pos : nat) (fig : figure)
           (time signal : list R) (e : edges) : py_result resp_error (figure * nat) :=
  let (inhal_color, pos) := next_color palette pos in
  let (exhal_color, pos) := next_color palette pos in
  fig <- py_foldl (segments_step time signal e inhal_color exhal_color)
                  (seq 0 (length (inhal_begin e))) fig ;;
  Ret (fig, pos).

(** [plot_resp_slow(signal, rect_signal, sample_rate)], lines 840-927;
    [base] is [plot(list([0]), list([0]), showPlot=False)[0]]. *)
Definition plot_resp_slow (palette : nat -> string) (pos : nat) (base : figure)
           (signal rect_signal : list R) (sample_rate : num R)
  : py_result resp_error (layout * nat) :=
  let signal := centre signal in
  time <- time_of signal sample_rate ;;
  rect_signal_rev <- binarise rect_signal ;;
  let e := find_edges rect_signal_rev in
  let plot_aux := set_title base "RIP Signal with slow cycles" in
  let plot_aux := line plot_aux time signal OpensignalsLine in
  let (inhal_color, pos) := next_color palette pos in
  let (exhal_color, pos) := next_color palette pos in
  plot_aux <- py_foldl (slow_step time rect_signal_rev e inhal_color exhal_color)
                       (seq 0 (length (inhal_begin e))) plot_aux ;;
  let plot_aux := set_x_label plot_aux "Time (s)" in
  let plot_aux := set_y_label plot_aux "Raw Data (without DC component)" in
  Ret (Single plot_aux, pos).


(** [plot_resp_diff(signal, rect_signal, sample_rate)], lines 929-1031;
    [smooth] is [process.smooth] and [f0], [f1], [f2] the three figures of
    [plot([...], [...], gridPlot=True, gridLines=3, gridColumns=1, showPlot=False)]. *)
Definition plot_resp_diff (smooth : list R -> Z -> list R) (palette : nat -> string)
           (pos : nat) (f0 f1 f2 : figure)
           (signal rect_signal : list R) (sample_rate : num R)
  : py_result resp_error (layout * nat) :=
  let signal := centre signal in
  time <- time_of signal sample_rate ;;
  let signal_diff := np_diff signal in
  rect_signal_rev <- binarise rect_signal ;;
  ms <- np_max EmptyReduction signal ;;
  let norm_signal := map (fun v => v / ms) signal in
  mr <- np_max EmptyReduction rect_signal_rev ;;
  let norm_rect_signal := map (fun v => v / mr) rect_signal_rev in
  md <- np_max EmptyReduction signal_diff ;;
  let norm_signal_diff := map (fun v => v / md) signal_diff in
  let window := py_int (to_float sample_rate / 10) in
  let smooth_diff := smooth signal_diff window in
  let smooth_norm_diff := smooth norm_signal_diff window in
  msd <- np_max EmptyReduction smooth_diff ;;
  mr' <- np_max EmptyReduction rect_signal_rev ;;
  let scaled_rect_signal := map (fun v => v * msd / mr') rect_signal_rev in
  let e := find_edges rect_signal_rev in
  let f0 := line (set_title f0 "RIP Signal and Respiration Cycles") time signal OpensignalsLine in
  '(f0, pos) <- inhal_exhal_segments palette pos f0 time rect_signal_rev e ;;
  let f0 := set_y_label f0 "Raw Data (without DC component)" in
  let f1 := line (set_title f1 "1st Derivative of RIP Signal and Respiration Cycles")
                 (tl time) smooth_diff OpensignalsLine in
  '(f1, pos) <- inhal_exhal_segments palette pos f1 time scaled_rect_signal e ;;
  let f1 := set_y_label f1 "Raw Differential Data" in
  let f2 := line (set_title f2 "RIP Signal and 1st Derivative (Normalized)") time norm_signal
                 OpensignalsLine in
  let f2 := line f2 (tl time) smooth_norm_diff (OpensignalsLineLegend "RIP 1st Derivative") in
  '(f2, pos) <- inhal_exhal_segments palette pos f2 time norm_rect_signal e ;;
  let f2 := set_x_label (set_y_label f2 "Normalized Data") "Time (s)" in
  Ret (Grid [[f0]; [f1]; [f2]], pos).

(** ** The binarised signal has two levels *)

(** Where the rectangular signal is at or above its mean. *)
Definition levels (rect_signal : list R) : list bool := map (Rle_bool 0) (centre rect_signal).

(** ** Edges of a level pattern

    The consecutive pairs of a boolean pattern, its rising and falling
    transitions (the index [i] of the pair [(bs[i], bs[i+1])]), and all its
    changes. *)
Definition transitions (bs : list bool) : list (bool * bool) := zip_with pair bs (tl bs).

Definition is_rise (p : bool * bool) : bool := negb (fst p) && snd p.
Definition is_fall (p : bool * bool) : bool := fst p && negb (snd p).
Definition is_change (p : bool * bool) : bool := xorb (fst p) (snd p).

Definition rises (bs : list bool) : list nat := np_where is_rise (transitions bs).
Definition falls (bs : list bool) : list nat := np_where is_fall (transitions bs).
Definition changes (bs : list bool) : list nat := np_where is_change (transitions bs).

(** The edges the plots compute from a two-level signal with pattern [bs]. *)
Definition level_edges (bs : list bool) : edges :=
  {| inhal_begin := rises bs; inhal_end := falls bs;
     exhal_begin := falls bs; exhal_end := tl (rises bs) |}.

(** [x0, y0, x1, y1, ...] *)
Fixpoint interleave (xs ys : list nat) : list nat :=
  match xs, ys with
  | [], _ => ys
  | _ :: _, [] => xs
  | x :: r, y :: s => x :: y :: interleave r s
  end.

(** Iteration [k] of the drawing loops reads every list it indexes. *)
Definition step_in_range (e : edges) (k : nat) : Prop :=
  (k < length (inhal_begin e) /\ k < length (inhal_end e) /\ k < length (exhal_begin e) /\
   (k < length (exhal_end e) \/ k = length (inhal_begin e) - 1))%nat.



(** The two assignments of [binarise] on a centred signal [c]: the
    samples at or above zero become [max(c)], the others the minimum of
    the array after the first assignment. *)
Lemma binarise_body (c : list R) :
  c <> [] ->
  exists hi lo, lo < hi /\
    (mx <- np_max EmptyReduction c ;;
     let c1 := assign_at c (np_where (fun v => Rle_bool 0 v) c) mx in
     mn <- np_min EmptyReduction c1 ;;
     Ret (assign_at c1 (np_where (fun v => Rlt_bool v 0) c) mn))
    = Ret (map (fun b : bool => if b then hi else lo) (map (Rle_bool 0) c)).
Proof.
  destruct c as [|x0 cr] eqn:Ec; intros Hc; [contradiction|]. rewrite <- Ec.
  replace (np_max EmptyReduction c) with (Ret (E:=resp_error) (fold_left Rmax cr x0))
    by (now rewrite Ec). rewrite py_bind_ret. cbv zeta.
  set (mx := fold_left Rmax cr x0).
  set (f := fun x => if Rle_bool 0 x then mx else x).
  rewrite assign_at_where, zip_with_diag by reflexivity. fold f.
  replace (np_min EmptyReduction (map f c)) with (Ret (E:=resp_error) (fold_left Rmin (map f cr) (f x0)))
    by (now rewrite Ec). rewrite py_bind_ret.
  set (mn := fold_left Rmin (map f cr) (f x0)).
  rewrite assign_at_where, zip_with_map_l, zip_with_diag by apply length_map.
  assert (Hmx : forall y, In y c -> y <= mx) by (intros y Hy; apply fold_max_ge; now rewrite <- Ec).
  assert (Hmn : forall y, In y c -> mn <= f y)
    by (intros y Hy; apply fold_min_le; change (In (f y) (map f (x0 :: cr)));
        apply in_map; now rewrite <- Ec).
  assert (Hg : forall hi lo, hi = mx \/ (forall y, In y c -> Rle_bool 0 y = false) ->
                             lo = mn \/ (forall y, In y c -> Rle_bool 0 y = true) ->
     map (fun x => if Rlt_bool x 0 then mn else f x) c = map (fun x => if Rle_bool 0 x then hi else lo) c).
  { intros hi lo Hhi Hlo. apply map_ext_in. intros y Hy. unfold f.
    rewrite Rlt_bool_Rle_bool. destruct (Rle_bool 0 y) eqn:Ey; simpl.
    - destruct Hhi as [->|Hhi]; [reflexivity|]. now rewrite Hhi in Ey.
    - destruct Hlo as [->|Hlo]; [reflexivity|]. now rewrite Hlo in Ey. }
  destruct (Exists_dec (fun x => x < 0) c (fun x => Rlt_dec x 0)) as [Hneg|Hneg];
  destruct (Exists_dec (fun x => 0 <= x) c (fun x => Rle_dec 0 x)) as [Hpos|Hpos].
  - apply Exists_exists in Hneg as [y1 [Hy1 Hy1']]. apply Exists_exists in Hpos as [y2 [Hy2 Hy2']].
    exists mx, mn. split; [|rewrite map_map; f_equal; apply Hg; now left].
    specialize (Hmn _ Hy1). unfold f in Hmn. destruct (Rle_bool 0 y1) eqn:E1.
    + apply Rle_bool_spec in E1. lra.
    + specialize (Hmx _ Hy2). lra.
  - exists (mn + 1), mn. split; [lra|]. rewrite map_map; f_equal. apply Hg; [right|now left].
    intros y Hy. destruct (Rle_bool 0 y) eqn:Ey; [|reflexivity].
    apply Rle_bool_spec in Ey. exfalso. apply Hpos, Exists_exists. eauto.
  - exists mx, (mx - 1). split; [lra|]. rewrite map_map; f_equal. apply Hg; [now left|right].
    intros y Hy. destruct (Rle_bool 0 y) eqn:Ey; [reflexivity|].
    exfalso. apply Hneg, Exists_exists. exists y; split; [exact Hy|].
    destruct (Rle_dec 0 y) as [H|H]; [apply Rle_bool_spec in H; congruence|lra].
  - exfalso. destruct (Rle_dec 0 x0); [apply Hpos|apply Hneg]; rewrite Ec;
      constructor; lra.
Qed.

Lemma centre_nonempty (rect : list R) : rect <> [] -> centre rect <> [].
Proof. destruct rect; [contradiction|discriminate]. Qed.

(** C17: Binarisation: for a non-empty rectangular signal the two in-place
    numpy assignments of lines 876-881 produce a signal with exactly two
    levels [lo < hi]: [hi] at the samples at or above the mean, [lo] at the
    others. *)
Theorem binarise_two_levels (rect_signal : list R) :
  rect_signal <> [] ->
  exists hi lo, lo < hi /\
    binarise rect_signal = Ret (map (fun b : bool => if b then hi else lo) (levels rect_signal)).
Proof. intros Hne. exact (binarise_body _ (centre_nonempty _ Hne)). Qed.

Lemma np_diff_two_level (hi lo : R) (bs : list bool) :
  np_diff (map (fun b : bool => if b then hi else lo) bs) =
  map (fun p : bool * bool => (if snd p then hi else lo) - (if fst p then hi else lo)) (transitions bs).
Proof.
  induction bs as [|a r IH]; [reflexivity|]. destruct r as [|b r]; [reflexivity|].
  unfold np_diff, transitions in *. simpl in *. f_equal. exact IH.
Qed.

Lemma find_edges_two_level (hi lo : R) (bs : list bool) :
  lo < hi -> find_edges (map (fun b : bool => if b then hi else lo) bs) = level_edges bs.
Proof.
  intros Hlt. unfold find_edges, level_edges, rises, falls, np_where.
  rewrite np_diff_two_level, !where_from_map.
  assert (Hr : forall p : bool * bool,
            Rlt_bool 0 ((if snd p then hi else lo) - (if fst p then hi else lo)) = is_rise p)
    by (intros [[|] [|]]; unfold Rlt_bool, is_rise; simpl;
        destruct (Rlt_dec _ _); try reflexivity; lra).
  assert (Hf : forall p : bool * bool,
            Rlt_bool ((if snd p then hi else lo) - (if fst p then hi else lo)) 0 = is_fall p)
    by (intros [[|] [|]]; unfold Rlt_bool, is_fall; simpl;
        destruct (Rlt_dec _ _); try reflexivity; lra).
  rewrite (where_from_ext _ is_rise 0 (transitions bs) (fun p _ => Hr p)),
          (where_from_ext (fun p : bool * bool => Rlt_bool ((if snd p then hi else lo) -
                                              (if fst p then hi else lo)) 0)
                          is_fall 0 (transitions bs) (fun p _ => Hf p)).
  reflexivity.
Qed.

(** Edges: on the binarised signal, [find_edges] (lines 884-890)
    returns as inhalation beginnings the rising transitions and as
    inhalation ends the falling transitions of the level pattern of the
    rectangular signal, and as exhalations the falls and the rises but the
    first. *)
Theorem binarise_find_edges (rect_signal : list R) :
  rect_signal <> [] ->
  exists v, binarise rect_signal = Ret v /\ find_edges v = level_edges (levels rect_signal).
Proof.
  intros Hne. destruct (binarise_body _ (centre_nonempty _ Hne)) as (hi & lo & Hlt & Hb).
  eexists; split; [exact Hb|]. now apply find_edges_two_level.
Qed.

Lemma interleave_cons (x : nat) xs ys : interleave (x :: xs) ys = x :: interleave ys xs.
Proof.
  revert x ys; induction xs as [|x' xs IH]; intros x [|y ys]; try reflexivity.
  transitivity (x :: y :: interleave (x' :: xs) ys); [reflexivity|]. now rewrite IH.
Qed.

Lemma where_from_sorted {A : Type} (p : A -> bool) i l : Sorted lt (where_from p i l).
Proof.
  revert i; induction l as [|x r IH]; intros i; simpl; [constructor|].
  destruct (p x); [|apply IH]. constructor; [apply IH|].
  destruct (where_from p (S i) r) as [|k ks] eqn:Ew; constructor.
  assert (Hk : In k (where_from p (S i) r)) by (rewrite Ew; now left).
  apply where_from_bounds in Hk. lia.
Qed.

Lemma last_cons2 {A : Type} (a b : A) r d : last (a :: b :: r) d = last (b :: r) d.
Proof. reflexivity. Qed.

Lemma last_cons_default {A : Type} (b : A) r (a : A) : last (b :: r) a = last (b :: r) b.
Proof.
  revert a b; induction r as [|c r IH]; intros a b; [reflexivity|].
  now rewrite !last_cons2, (IH a c), (IH b c).
Qed.

(** The transitions of a level pattern alternate: its changes are its rises
    and falls taken in turn, starting with a fall if it starts high; and
    the rises outnumber the falls by [last - first]. *)
Lemma transitions_alternate (r : list bool) : forall (a : bool) (i : nat),
  where_from is_change i (transitions (a :: r)) =
    (if a then interleave (where_from is_fall i (transitions (a :: r)))
                          (where_from is_rise i (transitions (a :: r)))
     else interleave (where_from is_rise i (transitions (a :: r)))
                     (where_from is_fall i (transitions (a :: r)))) /\
  (length (where_from is_rise i (transitions (a :: r))) + Nat.b2n a =
   length (where_from is_fall i (transitions (a :: r))) + Nat.b2n (last (a :: r) a))%nat.
Proof.
  induction r as [|b r IH]; intros a i.
  - destruct a; split; reflexivity.
  - change (transitions (a :: b :: r)) with ((a, b) :: transitions (b :: r)).
    rewrite last_cons2, last_cons_default.
    destruct (IH b (S i)) as [IHc IHl].
    destruct a, b; cbn [where_from is_change is_rise is_fall fst snd negb andb xorb];
      rewrite IHc in *; cbn [length Nat.b2n] in *; split;
      rewrite ?interleave_cons; try reflexivity; lia.
Qed.

Lemma rises_falls_count (a : bool) (r : list bool) :
  (length (rises (a :: r)) + Nat.b2n a = length (falls (a :: r)) + Nat.b2n (last (a :: r) a))%nat.
Proof. apply (transitions_alternate r a 0). Qed.

(** The edges of a level pattern alternate: its changes (strictly
    increasing positions) are the rises and the falls taken in turn, a
    rise first when the pattern starts low. *)
Theorem edges_alternate (bs : list bool) :
  changes bs = (if hd false bs then interleave (falls bs) (rises bs)
                else interleave (rises bs) (falls bs)) /\
  Sorted lt (changes bs).
Proof.
  split; [|apply where_from_sorted].
  destruct bs as [|a r]; [reflexivity|]. apply (transitions_alternate r a 0).
Qed.

(** ** The loop of [plot_resp_slow] *)

Section SlowLoop.
Variables (time rect : list R) (ic ec : string).

Lemma slow_step_ok e fig k :
  step_in_range e k -> exists fig', slow_step time rect e ic ec fig k = Ret fig'.
Proof.
  intros (H1 & H2 & H3 & H4). unfold slow_step, idx.
  destruct (py_index_ok IndexOutOfRange _ _ H1) as [b [-> _]].
  destruct (py_index_ok IndexOutOfRange _ _ H2) as [en [-> _]].
  destruct (py_index_ok IndexOutOfRange _ _ H3) as [eb [-> _]].
  rewrite !py_bind_ret. destruct (Nat.eqb k (length (inhal_begin e) - 1)) eqn:Ek; cbv [negb].
  - eauto.
  - apply Nat.eqb_neq in Ek. destruct H4 as [H4|H4]; [|contradiction].
    destruct (py_index_ok IndexOutOfRange _ _ H4) as [ee [-> _]].
    rewrite !py_bind_ret. eauto.
Qed.

Lemma slow_loop_ok e ks fig :
  (forall k, In k ks -> step_in_range e k) ->
  exists fig', py_foldl (slow_step time rect e ic ec) ks fig = Ret fig'.
Proof.
  revert fig; induction ks as [|k ks IH]; intros fig Hks; simpl; [eauto|].
  destruct (slow_step_ok e fig k (Hks k (or_introl eq_refl))) as [fig' ->].
  apply IH. intros j Hj. apply Hks. now right.
Qed.

Lemma slow_step_raise e fig k :
  (length (inhal_end e) <= k < length (inhal_begin e))%nat ->
  slow_step time rect e ic ec fig k = Raise IndexOutOfRange.
Proof.
  intros [H1 H2]. unfold slow_step, idx.
  destruct (py_index_ok IndexOutOfRange _ _ H2) as [b [-> _]].
  now rewrite py_bind_ret, py_index_out, py_bind_raise.
Qed.

Lemma length_tl {A : Type} (l : list A) : length (tl l) = (length l - 1)%nat.
Proof. destruct l; simpl; lia. Qed.

Lemma slow_loop_level bs fig :
  ((length (rises bs) <= length (falls bs))%nat ->
   exists fig', py_foldl (slow_step time rect (level_edges bs) ic ec)
                         (seq 0 (length (inhal_begin (level_edges bs)))) fig = Ret fig') /\
  (length (rises bs) = S (length (falls bs)) ->
   py_foldl (slow_step time rect (level_edges bs) ic ec)
            (seq 0 (length (inhal_begin (level_edges bs)))) fig = Raise IndexOutOfRange).
Proof.
  change (inhal_begin (level_edges bs)) with (rises bs). split; intros Hn.
  - apply slow_loop_ok. intros k Hk%in_seq. unfold step_in_range; cbn. rewrite length_tl. lia.
  - rewrite Hn, seq_S, py_foldl_app.
    destruct (slow_loop_ok (level_edges bs) (seq 0 (length (falls bs))) fig) as [fig' ->].
    + intros k Hk%in_seq. unfold step_in_range; cbn. rewrite length_tl. lia.
    + rewrite py_bind_ret. cbn. rewrite slow_step_raise by (cbn; lia). reflexivity.
Qed.

End SlowLoop.

Lemma levels_cons (rect : list R) : rect <> [] -> exists a r, levels rect = a :: r.
Proof. destruct rect; [contradiction|]. unfold levels, centre. simpl. eauto. Qed.

(** C18: [plot_resp_slow] raises IndexError exactly when the rectangular
    signal starts below its mean and ends at or above it (then it has one
    more rise than falls and [inhal_end[k]] is read past its end); for any
    other non-empty rectangular signal and non-zero rate it returns a
    figure. *)
Theorem plot_resp_slow_index_error palette pos base signal rect_signal sample_rate :
  rect_signal <> [] -> num_is_zero sample_rate = false ->
  ((hd false (levels rect_signal) = false /\ last (levels rect_signal) false = true) ->
   plot_resp_slow palette pos base signal rect_signal sample_rate = Raise IndexOutOfRange) /\
  (~ (hd false (levels rect_signal) = false /\ last (levels rect_signal) false = true) ->
   exists out, plot_resp_slow palette pos base signal rect_signal sample_rate = Ret out).
Proof.
  intros Hne Hz. destruct (binarise_body _ (centre_nonempty _ Hne)) as (hi & lo & Hlt & Hb).
  assert (Hb' : binarise rect_signal =
                Ret (map (fun b : bool => if b then hi else lo) (levels rect_signal))) by exact Hb.
  unfold plot_resp_slow, time_of, generate_time, next_color. rewrite Hz. cbv beta iota zeta.
  rewrite py_bind_ret, Hb', py_bind_ret, find_edges_two_level by exact Hlt.
  destruct (levels_cons _ Hne) as (a & r & ->). cbn [hd]. rewrite last_cons_default.
  pose proof (rises_falls_count a r) as Hc.
  match goal with
  | |- context [py_foldl (slow_step ?t ?v _ ?c1 ?c2) _ ?f] =>
      destruct (slow_loop_level t v c1 c2 (a :: r) f) as [Hok Hraise]
  end.
  destruct (last (a :: r) a) eqn:El; rewrite ?El in Hc; destruct a; cbn [Nat.b2n] in Hc; split; intros Hs;
    try (exfalso; destruct Hs; discriminate);
    try (exfalso; apply Hs; now split);
    try (rewrite Hraise by lia; reflexivity);
    destruct Hok as [fig' Hf]; try lia; eexists; rewrite Hf, py_bind_ret; reflexivity.
Qed.

(** ** Where the drawn segments start and end *)

Lemma in_transitions (p : bool * bool -> bool) bs k :
  In k (np_where p (transitions bs)) ->
  exists a b, nth_error bs k = Some a /\ nth_error bs (S k) = Some b /\ p (a, b) = true.
Proof.
  intros Hk. apply where_from_In in Hk as [[a b] [Hn Hp]]. rewrite Nat.sub_0_r in Hn.
  apply nth_error_zip_with in Hn as (x & y & Hx & Hy & [= <- <-]).
  rewrite nth_error_tl in Hy. eauto.
Qed.

Lemma binarise_edges (rect_signal v : list R) :
  binarise rect_signal = Ret v -> find_edges v = level_edges (levels rect_signal).
Proof.
  intros Hv. assert (Hne : rect_signal <> []) by (intros ->; discriminate).
  destruct (binarise_body _ (centre_nonempty _ Hne)) as (hi & lo & Hlt & Hb).
  change (binarise rect_signal = Ret (map (fun b : bool => if b then hi else lo)
                                           (levels rect_signal))) in Hb.
  rewrite Hb in Hv. injection Hv as <-. now apply find_edges_two_level.
Qed.

(** C19: The segments are shifted by one sample.  Every inhalation line
    [inhal_begin[k]:inhal_end[k]] that the plots draw starts at a sample
    below the mean (the last one before the rise) and stops before the
    sample [inhal_end[k]], which is still at or above the mean; so the
    exhalation line starting at [exhal_begin[k] = inhal_end[k]] starts
    with an inhalation sample. *)
Theorem segments_shifted (rect_signal v : list R) (b e : nat) :
  binarise rect_signal = Ret v ->
  In b (inhal_begin (find_edges v)) -> In e (inhal_end (find_edges v)) ->
  nth_error (levels rect_signal) b = Some false /\ nth_error (levels rect_signal) (S b) = Some true /\
  nth_error (levels rect_signal) e = Some true /\ nth_error (levels rect_signal) (S e) = Some false.
Proof.
  intros Hv Hb He. rewrite (binarise_edges _ _ Hv) in Hb, He.
  apply in_transitions in Hb as (x & y & -> & -> & Hr).
  apply in_transitions in He as (x' & y' & -> & -> & Hf).
  destruct x, y; try discriminate. destruct x', y'; try discriminate. auto.
Qed.

(** ** The loop of [_inhal_exhal_segments] *)

(** Close a goal [exists gs fig', Ret f = Ret fig' /\ glyphs fig' = glyphs fig ++ gs]
    where [f] is [fig] after some [line] calls. *)
Ltac grows := do 2 eexists; split; [reflexivity|]; cbn [glyphs line with_glyphs]; rewrite <- ?app_assoc; reflexivity.

Section SegmentsLoop.
Variables (time signal : list R) (ic ec : string).

Lemma segments_step_ok e fig k :
  step_in_range e k ->
  exists gs fig', segments_step time signal e ic ec fig k = Ret fig' /\ glyphs fig' = glyphs fig ++ gs.
Proof.
  intros (H1 & H2 & H3 & H4). unfold segments_step, idx.
  destruct (py_index_ok IndexOutOfRange _ _ H1) as [b [Hb _]].
  destruct (py_index_ok IndexOutOfRange _ _ H2) as [en [-> _]].
  destruct (py_index_ok IndexOutOfRange _ _ H3) as [eb [-> _]].
  rewrite Hb, !py_bind_ret. destruct (Nat.eqb k (length (inhal_begin e) - 1)) eqn:Ek; cbv [negb].
  - grows.
  - apply Nat.eqb_neq in Ek. destruct H4 as [H4|H4]; [|contradiction].
    destruct (py_index_ok IndexOutOfRange _ _ H4) as [ee [-> _]].
    rewrite py_bind_ret. destruct (Nat.eqb k 0); [rewrite py_bind_ret|]; grows.
Qed.

Lemma segments_loop_ok e ks fig :
  (forall k, In k ks -> step_in_range e k) ->
  exists gs fig', py_foldl (segments_step time signal e ic ec) ks fig = Ret fig' /\
                  glyphs fig' = glyphs fig ++ gs.
Proof.
  revert fig; induction ks as [|k ks IH]; intros fig Hks; simpl.
  - exists [], fig. now rewrite app_nil_r.
  - destruct (segments_step_ok e fig k (Hks k (or_introl eq_refl))) as (gs & fig1 & E1 & G1).
    destruct (IH fig1) as (gs' & fig' & E2 & G2); [intros j Hj; apply Hks; now right|].
    exists (gs ++ gs'), fig'. rewrite E1. split; [exact E2|]. now rewrite G2, G1, app_assoc.
Qed.

(** The first iteration draws the exhalation [time[:inhal_begin[0]]] when
    there is a second inhalation. *)
Lemma segments_step_first e fig :
  step_in_range e 0 -> (2 <= length (inhal_begin e))%nat ->
  exists fig', segments_step time signal e ic ec fig 0 = Ret fig' /\
    In (Line (slice time 0 (Some (hd 0%nat (inhal_begin e)))) (slice signal 0 (Some (hd 0%nat (inhal_begin e))))
             (Styled 2 ec (Some "Normal Breath"%string))) (glyphs fig').
Proof.
  intros (H1 & H2 & H3 & H4) Hlen. unfold segments_step, idx.
  destruct (inhal_begin e) as [|b ib] eqn:Eib; [simpl in H1; lia|].
  destruct (py_index_ok IndexOutOfRange _ _ H2) as [en [-> _]].
  destruct (py_index_ok IndexOutOfRange _ _ H3) as [eb [-> _]].
  destruct H4 as [H4|H4]; [|simpl in H4, Hlen; lia].
  destruct (py_index_ok IndexOutOfRange _ _ H4) as [ee [-> _]].
  replace (Nat.eqb 0 (length (b :: ib) - 1)) with false by (symmetry; apply Nat.eqb_neq; simpl in *; lia).
  cbn. eexists; split; [reflexivity|]. cbn [glyphs line with_glyphs]. apply in_or_app. right. now left.
Qed.

End SegmentsLoop.

Lemma level_edges_in_range bs k :
  (length (rises bs) <= length (falls bs))%nat -> (k < length (rises bs))%nat ->
  step_in_range (level_edges bs) k.
Proof. intros Hle Hk. unfold step_in_range; cbn. rewrite length_tl. lia. Qed.

(** C20: With a single inhalation, [_inhal_exhal_segments] draws only the
    inhalation and the exhalation after it: the exhalation before the
    first inhalation, which the first iteration draws when there are two
    inhalations or more, is never drawn. *)
Theorem inhal_exhal_single_breath palette pos fig time signal bs b0 e0 :
  rises bs = [b0] -> falls bs = [e0] ->
  inhal_exhal_segments palette pos fig time signal (level_edges bs) =
  Ret (line (line fig (slice time b0 (Some e0)) (slice signal b0 (Some e0))
                  (Styled 2 (palette pos) (Some "Respiration Suspension"%string)))
            (slice time e0 None) (slice signal e0 None)
            (Styled 2 (palette (S pos)) (Some "Normal Breath"%string)), S (S pos)).
Proof. intros Hr Hf. unfold inhal_exhal_segments, level_edges. rewrite Hr, Hf. reflexivity. Qed.

(** With two inhalations or more (and an end for each), the figure
    returned by [_inhal_exhal_segments] contains the exhalation line
    [time[:inhal_begin[0]]] in the exhalation colour. *)
Theorem inhal_exhal_first_exhalation palette pos fig time signal bs :
  (2 <= length (rises bs))%nat -> (length (rises bs) <= length (falls bs))%nat ->
  exists fig', inhal_exhal_segments palette pos fig time signal (level_edges bs) = Ret (fig', S (S pos)) /\
    In (Line (slice time 0 (Some (hd 0%nat (rises bs)))) (slice signal 0 (Some (hd 0%nat (rises bs))))
             (Styled 2 (palette (S pos)) (Some "Normal Breath"%string))) (glyphs fig').
Proof.
  intros H2 Hle. unfold inhal_exhal_segments, next_color. cbv beta iota zeta.
  change (inhal_begin (level_edges bs)) with (rises bs).
  destruct (length (rises bs)) as [|m] eqn:Em; [lia|]. cbn [seq py_foldl].
  destruct (segments_step_first time signal (palette pos) (palette (S pos)) (level_edges bs) fig)
    as (fig1 & -> & Hin1); [apply level_edges_in_range; lia|cbn; lia|].
  destruct (segments_loop_ok time signal (palette pos) (palette (S pos)) (level_edges bs) (seq 1 m) fig1)
    as (gs & fig' & Hl & G); [intros k Hk%in_seq; apply level_edges_in_range; lia|].
  cbn [py_bind]. rewrite Hl. exists fig'. split; [reflexivity|]. rewrite G. now apply in_or_app; left.
Qed.

(** ** Witnesses *)

(** Evaluate [levels] of a literal signal. *)
Ltac levels_eval :=
  unfold levels, centre, average; simpl; repeat f_equal;
  unfold Rle_bool; destruct (Rle_dec _ _); try reflexivity; exfalso; lra.

Lemma levels_low_high : levels [0; 2] = [false; true].
Proof. levels_eval. Qed.

Lemma levels_one_breath : levels [0; 0; 2; 2; 0] = [false; false; true; true; false].
Proof. levels_eval. Qed.

Lemma binarise_two_levels_witness :
  exists hi lo, lo < hi /\
    binarise [0; 2] = Ret (map (fun b : bool => if b then hi else lo) (levels [0; 2])).
Proof. apply binarise_two_levels. discriminate. Defined.

Lemma binarise_find_edges_witness :
  exists v, binarise [0; 0; 2; 2; 0] = Ret v /\
            find_edges v = level_edges [false; false; true; true; false].
Proof. rewrite <- levels_one_breath. apply binarise_find_edges. discriminate. Defined.

Lemma plot_resp_slow_index_error_witness :
  plot_resp_slow (fun _ => "#009EE3"%string) 0 (Figure None None None None None [] [])
                 [1; 2] [0; 2] (NInt 1000) = Raise IndexOutOfRange.
Proof.
  refine (proj1 (plot_resp_slow_index_error _ _ _ _ _ _ _ _) _);
    [discriminate|reflexivity|rewrite levels_low_high; split; reflexivity].
Defined.

Lemma segments_shifted_witness :
  exists v, binarise [0; 0; 2; 2; 0] = Ret v /\
    nth_error (levels [0; 0; 2; 2; 0]) 1 = Some false /\
    nth_error (levels [0; 0; 2; 2; 0]) 2 = Some true /\
    nth_error (levels [0; 0; 2; 2; 0]) 3 = Some true /\
    nth_error (levels [0; 0; 2; 2; 0]) 4 = Some false.
Proof.
  destruct (binarise_body _ (centre_nonempty [0; 0; 2; 2; 0] ltac:(discriminate))) as (hi & lo & _ & Hb).
  exists (map (fun b : bool => if b then hi else lo) (levels [0; 0; 2; 2; 0])).
  split; [exact Hb|]. apply (segments_shifted _ _ 1 3 Hb);
    rewrite (binarise_edges _ _ Hb), levels_one_breath; cbn; auto.
Defined.

Lemma inhal_exhal_single_breath_witness :
  inhal_exhal_segments (fun _ => "#009EE3"%string) 0 (Figure None None None None None [] [])
    [0; 1; 2] [0; 1; 0] (level_edges [false; true; false]) =
  Ret (line (line (Figure None None None None None [] []) (slice [0; 1; 2] 0 (Some 1%nat))
                  (slice [0; 1; 0] 0 (Some 1%nat))
                  (Styled 2 "#009EE3" (Some "Respiration Suspension"%string)))
            (slice [0; 1; 2] 1 None) (slice [0; 1; 0] 1 None)
            (Styled 2 "#009EE3" (Some "Normal Breath"%string)), 2%nat).
Proof. apply inhal_exhal_single_breath; reflexivity. Defined.

Lemma inhal_exhal_first_exhalation_witness :
  exists fig', inhal_exhal_segments (fun _ => "#009EE3"%string) 0 (Figure None None None None None [] [])
                 [0; 1; 2; 3; 4] [0; 1; 0; 1; 0] (level_edges [false; true; false; true; false])
               = Ret (fig', S (S 0)) /\
    In (Line (slice [0; 1; 2; 3; 4] 0 (Some (hd 0%nat (rises [false; true; false; true; false]))))
             (slice [0; 1; 0; 1; 0] 0 (Some (hd 0%nat (rises [false; true; false; true; false]))))
             (Styled 2 "#009EE3" (Some "Normal Breath"%string))) (glyphs fig').
Proof.
  apply (inhal_exhal_first_exhalation (fun _ => "#009EE3"%string) 0 (Figure None None None None None [] [])
           [0; 1; 2; 3; 4] [0; 1; 0; 1; 0] [false; true; false; true; false]); cbn; lia.
Defined.

End Respiration.
