(* ===== verification/Spectrum.v ===== *)
(** * Spectrum: the power-spectrum and filter plots of __notebook_support__.py

    [plot_informational_band] (lines 492-630) checks its axis limits
    [x_lim] and [y_lim], draws a power spectrum in a new figure and marks
    the informational band and the band rejected above the maximum
    frequency of the signal with box annotations and an arrow.
    [plot_before_after_filter] (lines 633-741) calls it once for the signal
    and once per band-pass filter order, arranging the figures in one row
    ([horizontal]) or one column.  [plot_low_pass_filter_response]
    (lines 744-832) computes the gain in dB of Butterworth low-pass filters
    of orders 1 to 6 and marks the ideal response on the first figure.

    The functions the module imports from elsewhere ([max_frequency],
    [plotfft], [bandpass], [visualise.plot], [opensignals_style]) are
    section variables; file names and [show] are I/O and not modelled.

    Proved: the limits are accepted exactly when both are lists of two
    elements, so the default [[]] always raises; [plot_before_after_filter]
    returns [order + 1] figures in one row or one column, fails for a
    negative order, and raises with the default limits; the filter gain is
    [-10 log10 2] dB at the cut-off for every order and strictly ordered by
    the order on either side of it. *)

From Stdlib Require Import String List ZArith Reals Lra Lia.
From S2P Require Import Prelude Numeric TimeAxis Bokeh.
Import ListNotations.

Module Spectrum.
Import TimeAxis Bokeh.

Inductive spectrum_error : Type :=
| LimTypeError     (** line 581: [x_lim] or [y_lim] is not a list *)
| LimShapeError    (** line 577: a limit list without two elements *)
| UnboundFigures   (** [list_figures] read before any assignment *)
| IndexError.      (** indexing an empty list *)

(** A Python value passed as [x_lim] or [y_lim]: a list of numbers or
    anything else. *)
Inductive lim_arg : Type :=
| LimList (l : list R)
| LimOther.

Local Open Scope R_scope.
Local Open Scope py_scope.

(** [[l[0], l[-1]]] *)
Definition first_last (l : list R) : py_result spectrum_error (list R) :=
  a <- py_index IndexError l 0 ;;
  b <- py_index IndexError (rev l) 0 ;;
  Ret [a; b].

(** Lines 570-582: the verification procedure.  The branches for empty
    lists sit inside the test for two elements. *)
Definition check_limits (freqs power : list R) (x_lim y_lim : lim_arg)
  : py_result spectrum_error (list R * list R) :=
  match x_lim, y_lim with
  | LimList xl, LimList yl =>
      if (Nat.eqb (length xl) 2 && Nat.eqb (length yl) 2)%bool then
        xl <- (if Nat.eqb (length xl) 0 then first_last freqs else Ret xl) ;;
        yl <- (if Nat.eqb (length yl) 0 then first_last power else Ret yl) ;;
        Ret (xl, yl)
      else Raise LimShapeError
  | _, _ => Raise LimTypeError
  end.

Section Plots.
Variables (max_frequency : list R -> num R -> R)
          (opensignals_style : figure -> figure)
          (plotfft : list R -> num R -> list R * list R)
          (bandpass : list R -> R -> R -> nat -> num R -> list R).

(** [plot_informational_band(freqs, power, signal, sr, band_begin,
    band_end, legend, x_lim, y_lim)], lines 565-630: the figure it
    returns, and the palette position after its one colour. *)
Definition plot_informational_band (palette : nat -> string) (pos : nat)
           (freqs power signal : list R) (sr : num R) (band_begin band_end : R)
           (legend : string) (x_lim y_lim : lim_arg) : py_result spectrum_error (figure * nat) :=
  '(xl, yl) <- check_limits freqs power x_lim y_lim ;;
  let fig := new_figure "Frequency (Hz)" "Relative Weight"
                        (nth 0 xl 0, last xl 0) (nth 0 yl 0, nth 1 yl 0) in
  let fig := line fig freqs power (OpensignalsLineLegend legend) in
  let (color, pos) := next_color palette pos in
  let fig := circle fig [-100] [0] color (1/10) "Informational Band" in
  let fig := add_layout fig (Box band_begin band_end None None color (1/10)) in
  let max_freq := max_frequency signal sr in
  let fig := circle fig [-100] [0] "black" (1/10) "Rejected Band" in
  let fig := add_layout fig (Box max_freq (max_freq + 5) None None "black" (1/10)) in
  let fig := add_layout fig (Arrow (max_freq + 5) (nth 1 yl 0 / 2) (max_freq + 15)
                                   (nth 1 yl 0 / 2) "black") in
  Ret (opensignals_style fig, pos).

Definition order_legend (i : nat) : string :=
  ("Filtered FFT (Order " ++ str_nat i ++ ")")%string.

(** One iteration of the loop of [plot_before_after_filter], lines 707-732;
    [None] is a [list_figures] not assigned yet. *)
Definition before_after_step (palette : nat -> string) (signal : list R) (sr : num R)
           (band_begin band_end : R) (x_lim y_lim : lim_arg) (horizontal : bool)
           (st : option (list (list figure)) * nat) (i : nat)
  : py_result spectrum_error (option (list (list figure)) * nat) :=
  let (list_figures, pos) := st in
  if Nat.eqb i 0 then
    let (freqs_after, power_after) := plotfft signal sr in
    '(figure_after, pos) <- plot_informational_band palette pos freqs_after power_after signal sr
                              band_begin band_end "Signal Power Spectrum" x_lim y_lim ;;
    Ret (Some [[figure_after]], pos)
  else
    let filter_signal := bandpass signal band_begin band_end i sr in
    let (freqs_after, power_after) := plotfft filter_signal sr in
    '(figure_after, pos) <- plot_informational_band palette pos freqs_after power_after
                              filter_signal sr band_begin band_end (order_legend i) x_lim y_lim ;;
    match list_figures with
    | None => Raise UnboundFigures
    | Some lf =>
        if horizontal then lf <- push_last IndexError lf figure_after ;; Ret (Some lf, pos)
        else Ret (Some (lf ++ [[figure_after]]), pos)
    end.

(** [plot_before_after_filter(signal, sr, band_begin, band_end, order,
    x_lim, y_lim, horizontal)], lines 702-741: the rows of figures it
    returns. *)
Definition plot_before_after_filter (palette : nat -> string) (pos : nat) (signal : list R)
           (sr : num R) (band_begin band_end : R) (order : Z) (x_lim y_lim : lim_arg)
           (horizontal : bool) : py_result spectrum_error (list (list figure) * nat) :=
  '(list_figures, pos) <- py_foldl (before_after_step palette signal sr band_begin band_end
                                                      x_lim y_lim horizontal)
                                   (seq 0 (Z.to_nat (order + 1))) (None, pos) ;;
  match list_figures with
  | None => Raise UnboundFigures
  | Some lf => Ret (lf, pos)
  end.

End Plots.

(** ** The low-pass filter response, lines 789-832 *)

Definition cutoff_freq : R := 40.

(** [numpy.log10] *)
Definition log10 (x : R) : R := ln x / ln 10.

(** Line 800: [20*numpy.log10(1 / (numpy.sqrt(1 + (f / cutoff_freq)**(2*order))))]
    at one frequency. *)
Definition gain (order : nat) (f : R) : R :=
  20 * log10 (1 / sqrt (1 + (f / cutoff_freq) ^ (2 * order))).

(** Lines 804-811 *)
Definition order_name (order : nat) : string :=
  if Nat.eqb order 1 then "1st order filter"
  else if Nat.eqb order 2 then "2nd order filter"
  else if Nat.eqb order 3 then "3rd order filter"
  else (str_nat order ++ "th order filter")%string.

(** Line 793: [numpy.linspace(1, 1200, 100000)] *)
Definition low_pass_freqs : list R := linspace 1 1200 (1000 * 100)%nat.

Section LowPass.
(** [plot(xs, ys, legend=.., ..., get_fig_list=True)] of visualise. *)
Variable plot : list (list R) -> list (list R) -> list string -> list figure.

(** [plot_low_pass_filter_response()], lines 789-832: the figure it shows. *)
Definition plot_low_pass_filter_response (palette : nat -> string) (pos : nat)
  : py_result spectrum_error (figure * nat) :=
  let freqs := low_pass_freqs in
  let gain_functions := map (fun order => map (gain order) freqs) (seq 1 6) in
  let legend_strs := map order_name (seq 1 6) in
  let fig_list := plot (repeat (map (fun f => f / cutoff_freq) freqs) (length gain_functions))
                       gain_functions legend_strs in
  let (color, pos) := next_color palette pos in
  f0 <- py_index IndexError fig_list 0 ;;
  let f0 := circle f0 [-100] [0] color (3/10) "Ideal Filter Response" in
  Ret (add_layout f0 (Box (1/10) 1 (Some 0) (Some (-120)) color (3/10)), pos).

End LowPass.

(** ** Properties *)

(** The limit arguments [check_limits] accepts. *)
Definition limits_ok (x_lim y_lim : lim_arg) : bool :=
  match x_lim, y_lim with
  | LimList xl, LimList yl => (Nat.eqb (length xl) 2 && Nat.eqb (length yl) 2)%bool
  | _, _ => false
  end.

(** The lengths of the rows of a grid of [n] figures in one row or one column. *)
Definition grid_shape (horizontal : bool) (n : nat) : list nat :=
  if horizontal then [n] else repeat 1%nat n.

(** ** The gain of the low-pass filters *)

Lemma ln10_pos : 0 < ln 10.
Proof. rewrite <- ln_1. apply ln_increasing; lra. Qed.

Lemma ln_sqrt_half (y : R) : 0 < y -> ln (sqrt y) = ln y / 2.
Proof.
  intros Hy. assert (Hs : 0 < sqrt y) by now apply sqrt_lt_R0.
  rewrite <- (sqrt_sqrt y) at 2 by lra. rewrite ln_mult by exact Hs. lra.
Qed.

Lemma pow_even_nonneg (x : R) (n : nat) : 0 <= x ^ (2 * n).
Proof. rewrite pow_mult. apply pow_le, pow2_ge_0. Qed.

(** Line 800 in closed form: [-10 * log10(1 + (f / cutoff)^(2 order))]. *)
Lemma gain_closed (n : nat) (f : R) :
  gain n f = -10 * log10 (1 + (f / cutoff_freq) ^ (2 * n)).
Proof.
  unfold gain, log10. set (y := 1 + (f / cutoff_freq) ^ (2 * n)).
  assert (Hy : 0 < y) by (pose proof (pow_even_nonneg (f / cutoff_freq) n); unfold y; lra).
  assert (Hs : 0 < sqrt y) by now apply sqrt_lt_R0.
  replace (1 / sqrt y) with (/ sqrt y) by (unfold Rdiv; ring).
  rewrite ln_Rinv, ln_sqrt_half by assumption.
  pose proof ln10_pos. field. lra.
Qed.

Lemma gain_lt (n m : nat) (f : R) :
  (f / cutoff_freq) ^ (2 * n) < (f / cutoff_freq) ^ (2 * m) -> gain m f < gain n f.
Proof.
  intros Hlt. rewrite !gain_closed. unfold log10.
  pose proof (pow_even_nonneg (f / cutoff_freq) n).
  assert (Hl : ln (1 + (f / cutoff_freq) ^ (2 * n)) < ln (1 + (f / cutoff_freq) ^ (2 * m)))
    by (apply ln_increasing; lra).
  pose proof (Rdiv_lt_mono_r _ _ _ ln10_pos Hl). lra.
Qed.

(** At the cut-off frequency every filter of
    [plot_low_pass_filter_response] has the gain [-10 log10 2] (about
    -3.01 dB), whatever its order. *)
Theorem gain_at_cutoff (order : nat) : gain order cutoff_freq = -10 * log10 2.
Proof.
  rewrite gain_closed. unfold cutoff_freq.
  replace (40 / 40) with 1 by field. rewrite pow1. now replace (1 + 1) with 2 by ring.
Qed.

(** The gains are never positive; above the cut-off a higher order
    attenuates strictly more, and below it strictly less. *)
Theorem gain_order_monotone (n m : nat) (f : R) :
  0 < f -> (n < m)%nat ->
  gain n f <= 0 /\
  (cutoff_freq < f -> gain m f < gain n f) /\
  (f < cutoff_freq -> gain n f < gain m f).
Proof.
  intros Hf Hnm. unfold cutoff_freq in *.
  assert (Hx : 0 < f / 40) by (apply Rdiv_lt_0_compat; lra).
  split; [|split; intros Hc; apply gain_lt; unfold cutoff_freq in *].
  - rewrite gain_closed. unfold log10.
    pose proof (pow_even_nonneg (f / cutoff_freq) n).
    assert (Hl : 0 <= ln (1 + (f / cutoff_freq) ^ (2 * n))) by
      (rewrite <- ln_1; destruct (Req_dec ((f / cutoff_freq) ^ (2 * n)) 0) as [->|];
       [rewrite Rplus_0_r; lra|apply Rlt_le, ln_increasing; lra]).
    assert (0 <= ln (1 + (f / cutoff_freq) ^ (2 * n)) / ln 10)
      by (apply Rmult_le_pos; [assumption|left; apply Rinv_0_lt_compat, ln10_pos]).
    lra.
  - apply Rlt_pow; [apply (Rmult_lt_reg_r 40); [lra|]; field_simplify; lra|lia].
  - replace (2 * m)%nat with (2 * n + 2 * (m - n))%nat by lia. rewrite pow_add.
    assert (Hp : 0 < (f / 40) ^ (2 * n)) by now apply pow_lt.
    assert (Hq : (f / 40) ^ (2 * (m - n)) < 1).
    { apply pow_lt_1_compat; [split; [lra|]|lia].
      apply (Rmult_lt_reg_r 40); [lra|]. field_simplify; lra. }
    apply (Rmult_lt_compat_l _ _ _ Hp) in Hq. lra.
Qed.

Lemma check_limits_ok freqs power x_lim y_lim :
  limits_ok x_lim y_lim = true ->
  exists xl yl, check_limits freqs power x_lim y_lim = Ret (xl, yl) /\ length xl = 2%nat.
Proof.
  destruct x_lim as [xl|], y_lim as [yl|]; try discriminate. cbn.
  intros Hok. rewrite Hok. apply andb_prop in Hok as [Hx Hy].
  apply Nat.eqb_eq in Hx, Hy. rewrite Hx, Hy. cbn. eauto.
Qed.

Section PlotProps.
Variables (max_frequency : list R -> num R -> R)
          (opensignals_style : figure -> figure)
          (plotfft : list R -> num R -> list R * list R)
          (bandpass : list R -> R -> R -> nat -> num R -> list R).

Lemma band_ok palette pos freqs power signal sr band_begin band_end legend x_lim y_lim :
  limits_ok x_lim y_lim = true ->
  exists fig, plot_informational_band max_frequency opensignals_style palette pos freqs power
                signal sr band_begin band_end legend x_lim y_lim = Ret (fig, S pos).
Proof.
  intros Hok. destruct (check_limits_ok freqs power _ _ Hok) as (xl & yl & Hc & _).
  unfold plot_informational_band. rewrite Hc. cbn. eauto.
Qed.

Lemma band_raise palette pos freqs power signal sr band_begin band_end legend x_lim y_lim :
  limits_ok x_lim y_lim = false ->
  exists e, plot_informational_band max_frequency opensignals_style palette pos freqs power
              signal sr band_begin band_end legend x_lim y_lim = Raise e.
Proof.
  unfold plot_informational_band, check_limits, limits_ok.
  destruct x_lim as [xl|], y_lim as [yl|]; intros Hok; try rewrite Hok; cbn; eauto.
Qed.

(** C21: [plot_informational_band] returns a figure exactly when [x_lim]
    and [y_lim] are lists of two elements; with its default arguments
    [x_lim=[]] and [y_lim=[]] it raises the RuntimeError for lists without
    two elements, so the branches meant to derive default limits from the
    data are dead. *)
Theorem informational_band_limits palette pos freqs power signal sr band_begin band_end legend
        x_lim y_lim :
  ((exists r, plot_informational_band max_frequency opensignals_style palette pos freqs power
                signal sr band_begin band_end legend x_lim y_lim = Ret r) <->
   limits_ok x_lim y_lim = true) /\
  plot_informational_band max_frequency opensignals_style palette pos freqs power
    signal sr band_begin band_end legend (LimList []) (LimList []) = Raise LimShapeError.
Proof.
  split; [|reflexivity]. split.
  - intros [r Hr]. destruct (limits_ok x_lim y_lim) eqn:Hok; [reflexivity|].
    destruct (band_raise palette pos freqs power signal sr band_begin band_end legend _ _ Hok)
      as [e He]. congruence.
  - intros Hok. destruct (band_ok palette pos freqs power signal sr band_begin band_end legend _ _ Hok)
      as [fig Hf]. eauto.
Qed.

Lemma grid_shape_step (horizontal : bool) (n : nat) (lf : list (list figure)) (fig : figure) :
  map (@length _) lf = grid_shape horizontal n ->
  exists lf', (if horizontal then push_last IndexError lf fig else Ret (lf ++ [[fig]])) = Ret lf' /\
              map (@length _) lf' = grid_shape horizontal (S n).
Proof.
  unfold grid_shape. destruct horizontal; intros Hs.
  - destruct lf as [|r [|r' rs]]; try discriminate. injection Hs as Hr.
    eexists; split; [reflexivity|]. cbn. rewrite length_app, Hr. cbn. f_equal. lia.
  - eexists; split; [reflexivity|]. rewrite map_app, Hs.
    replace (S n) with (n + 1)%nat by lia. now rewrite repeat_app.
Qed.

Lemma before_after_loop palette signal sr band_begin band_end x_lim y_lim horizontal :
  limits_ok x_lim y_lim = true ->
  forall ks lf pos n, (forall i, In i ks -> i <> 0%nat) ->
  map (@length _) lf = grid_shape horizontal n ->
  exists lf', py_foldl (before_after_step max_frequency opensignals_style plotfft bandpass palette
                          signal sr band_begin band_end x_lim y_lim horizontal)
                       ks (Some lf, pos) = Ret (Some lf', (pos + length ks)%nat) /\
              map (@length _) lf' = grid_shape horizontal (n + length ks).
Proof.
  intros Hok ks. induction ks as [|i ks IH]; intros lf pos n Hks Hs; cbn [py_foldl length].
  - exists lf. rewrite !Nat.add_0_r. auto.
  - unfold before_after_step at 1. rewrite (proj2 (Nat.eqb_neq i 0) (Hks i (or_introl eq_refl))).
    destruct (plotfft (bandpass signal band_begin band_end i sr) sr) as [fa pa].
    destruct (band_ok palette pos fa pa (bandpass signal band_begin band_end i sr) sr band_begin
                band_end (order_legend i) _ _ Hok) as [fig ->].
    destruct (grid_shape_step horizontal n lf fig Hs) as (lf1 & Hstep & Hs1).
    destruct (IH lf1 (S pos) (S n) ltac:(intros j Hj; apply Hks; now right) Hs1)
      as (lf' & Hl & Hs').
    exists lf'. split; [|rewrite Hs'; f_equal; lia].
    cbn. destruct horizontal; [rewrite Hstep|injection Hstep as Hl1; rewrite Hl1]; cbn;
      rewrite Hl; now rewrite Nat.add_succ_r.
Qed.

(** With valid limits and a filter order [k >= 0],
    [plot_before_after_filter] returns [k + 1] figures (the spectrum of the
    signal and one per band-pass order 1..k), in one row when [horizontal]
    and one per row otherwise, taking one palette colour each. *)
Theorem before_after_grid palette pos signal sr band_begin band_end (k : nat) x_lim y_lim
        horizontal :
  limits_ok x_lim y_lim = true ->
  exists rows, plot_before_after_filter max_frequency opensignals_style plotfft bandpass palette pos
                 signal sr band_begin band_end (Z.of_nat k) x_lim y_lim horizontal
               = Ret (rows, (pos + S k)%nat) /\
               map (@length _) rows = grid_shape horizontal (S k).
Proof.
  intros Hok. unfold plot_before_after_filter.
  replace (Z.to_nat (Z.of_nat k + 1)) with (S k) by lia. cbn [seq py_foldl].
  unfold before_after_step at 1. cbn [Nat.eqb]. destruct (plotfft signal sr) as [fa pa].
  destruct (band_ok palette pos fa pa signal sr band_begin band_end "Signal Power Spectrum" _ _ Hok)
    as [f0 ->].
  destruct (before_after_loop palette signal sr band_begin band_end x_lim y_lim horizontal Hok
              (seq 1 k) [[f0]] (S pos) 1 ltac:(intros i Hi%in_seq; lia)
              ltac:(now destruct horizontal)) as (lf & Hl & Hs).
  cbn. rewrite Hl. cbn. exists lf. rewrite !length_seq in *. split; [now rewrite Nat.add_succ_r|exact Hs].
Qed.

(** C22: A negative order leaves [list_figures] unassigned, so
    [plot_before_after_filter] fails (UnboundLocalError) at the gridplot;
    with any other order and the default limits [x_lim=[]], [y_lim=[]] it
    raises the RuntimeError of [plot_informational_band] in its first
    iteration. *)
Theorem before_after_errors palette pos signal sr band_begin band_end order x_lim y_lim horizontal :
  ((order < 0)%Z ->
   plot_before_after_filter max_frequency opensignals_style plotfft bandpass palette pos signal sr
     band_begin band_end order x_lim y_lim horizontal = Raise UnboundFigures) /\
  ((0 <= order)%Z ->
   plot_before_after_filter max_frequency opensignals_style plotfft bandpass palette pos signal sr
     band_begin band_end order (LimList []) (LimList []) horizontal = Raise LimShapeError).
Proof.
  split; intros Ho; unfold plot_before_after_filter.
  - replace (Z.to_nat (order + 1)) with 0%nat by lia. reflexivity.
  - replace (Z.to_nat (order + 1)) with (S (Z.to_nat order)) by lia. cbn [seq py_foldl].
    unfold before_after_step at 1. cbn [Nat.eqb]. destruct (plotfft signal sr). reflexivity.
Qed.

End PlotProps.

(** ** Witnesses *)

Definition no_freq (s : list R) (sr : num R) : R := 0.
Definition same_spectrum (s : list R) (sr : num R) : list R * list R := (s, s).
Definition no_filter (s : list R) (b e : R) (o : nat) (sr : num R) : list R := s.

Lemma before_after_grid_witness :
  limits_ok (LimList [0; 50]) (LimList [0; 1]) = true /\
  exists rows, plot_before_after_filter no_freq (fun f => f) same_spectrum no_filter
                 (fun _ => "#009EE3"%string) 0 [1; 2] (NInt 1000) 5 15 (Z.of_nat 2)
                 (LimList [0; 50]) (LimList [0; 1]) true = Ret (rows, (0 + S 2)%nat) /\
               map (@length _) rows = grid_shape true (S 2).
Proof. split; [reflexivity|]. apply before_after_grid. reflexivity. Defined.

Lemma before_after_errors_witness :
  (0 <= 3)%Z /\
  plot_before_after_filter no_freq (fun f => f) same_spectrum no_filter (fun _ => "#009EE3"%string) 0
    [1; 2] (NInt 1000) 5 15 3 (LimList []) (LimList []) true = Raise LimShapeError.
Proof.
  split; [lia|]. apply (before_after_errors no_freq (fun f => f) same_spectrum no_filter
                          (fun _ => "#009EE3"%string) 0 [1; 2] (NInt 1000) 5 15 3
                          (LimList []) (LimList []) true). lia.
Defined.

Lemma gain_order_monotone_witness :
  (0 < 80 /\ (1 < 2)%nat) /\ (gain 1 80 <= 0 /\ (cutoff_freq < 80 -> gain 2 80 < gain 1 80) /\
                              (80 < cutoff_freq -> gain 1 80 < gain 2 80)).
Proof. split; [split; [lra|lia]|]. apply gain_order_monotone; [lra|lia]. Defined.

End Spectrum.
