(* ===== verification/PyString.v ===== *)
(** * PyString: Python's [int(s)] on strings and [str(n)] on ints

    The notebook helpers key their data by sampling rates written as
    strings ([str(sample_rate)], dict keys such as ["1000"]) and read them
    back with [int(sample_rate)].  [py_int_of_string] is [int(s)] for
    ASCII strings: surrounding whitespace is stripped, one optional sign,
    then decimal digits with single underscores between digits; anything
    else is a ValueError ([None]).  [py_str_int] is [str(z)].  Unicode
    digits and whitespace, which Python also accepts, are not modelled.

    Proved: [int(str(z)) = z] for every int [z]. *)

From Stdlib Require Import String Ascii List ZArith Lia.
From S2P Require Import Prelude.
Import ListNotations.

Module PyString.

Local Open Scope char_scope.

(** [str.isspace()] on ASCII: tab, line feed, vertical tab, form feed,
    carriage return and space. *)
Definition is_space (c : ascii) : bool :=
  let n := nat_of_ascii c in (((9 <=? n) && (n <=? 13)) || (n =? 32))%nat%bool.

Definition is_digit (c : ascii) : bool :=
  let n := nat_of_ascii c in ((48 <=? n) && (n <=? 57))%nat%bool.

Definition digit_value (c : ascii) : Z := Z.of_nat (nat_of_ascii c - 48).

(** The digits of a literal: [st] is 0 before any digit, 1 after a digit,
    2 after an underscore; an underscore must follow a digit and the
    literal must end with one. *)
Fixpoint parse_digits (s : list ascii) (acc : Z) (st : nat) : option Z :=
  match s with
  | [] => if Nat.eqb st 1 then Some acc else None
  | c :: r =>
      if is_digit c then parse_digits r (10 * acc + digit_value c)%Z 1
      else if (Ascii.eqb c "_" && Nat.eqb st 1)%bool then parse_digits r acc 2
      else None
  end.

Fixpoint drop_spaces (s : list ascii) : list ascii :=
  match s with
  | c :: r => if is_space c then drop_spaces r else s
  | [] => []
  end.

(** [s.strip()] *)
Definition strip (s : list ascii) : list ascii := rev (drop_spaces (rev (drop_spaces s))).

(** [int(s)] *)
Definition py_int_of_string (s : string) : option Z :=
  match strip (list_ascii_of_string s) with
  | c :: r =>
      if Ascii.eqb c "-" then option_map Z.opp (parse_digits r 0 0)
      else if Ascii.eqb c "+" then parse_digits r 0 0
      else parse_digits (c :: r) 0 0
  | [] => None
  end.

(** [str(z)] *)
Definition py_str_int (z : Z) : string :=
  if (z <? 0)%Z then ("-" ++ str_nat (Z.to_nat (- z)))%string else str_nat (Z.to_nat z).

(** ** The digits [str] writes *)

Definition value_of (ds : list ascii) (z : Z) : Z :=
  fold_left (fun a c => (10 * a + digit_value c)%Z) ds z.

Lemma digit_of_nat (k : nat) : (k < 10)%nat ->
  is_digit (ascii_of_nat (48 + k)) = true /\ digit_value (ascii_of_nat (48 + k)) = Z.of_nat k.
Proof.
  intros Hk. unfold is_digit, digit_value.
  rewrite nat_ascii_embedding by lia. split; [apply andb_true_intro; split; apply Nat.leb_le|f_equal]; lia.
Qed.

Lemma parse_digits_app (ds rest : list ascii) (z : Z) (st : nat) :
  Forall (fun c => is_digit c = true) ds -> ds <> [] ->
  parse_digits (ds ++ rest) z st = parse_digits rest (value_of ds z) 1.
Proof.
  revert z st; induction ds as [|c ds IH]; intros z st Hd Hne; [contradiction|].
  inversion Hd as [|? ? Hc Hds]; subst. cbn. rewrite Hc.
  destruct ds as [|c' ds']; [reflexivity|]. apply IH; [exact Hds|discriminate].
Qed.

Lemma str_nat_fuel_digits (fuel : nat) : forall m acc, (m < fuel)%nat ->
  exists ds, list_ascii_of_string (str_nat_fuel fuel m acc) = ds ++ list_ascii_of_string acc /\
             ds <> [] /\ Forall (fun c => is_digit c = true) ds /\ value_of ds 0 = Z.of_nat m.
Proof.
  induction fuel as [|f IH]; intros m acc Hm; [lia|].
  destruct (digit_of_nat (m mod 10) ltac:(apply Nat.mod_upper_bound; lia)) as [Hd Hv].
  cbn [str_nat_fuel]. destruct (Nat.ltb_spec m 10) as [Hlt|Hge].
  - exists [ascii_of_nat (48 + m mod 10)]. cbn [list_ascii_of_string app].
    repeat split; auto; [discriminate|]. unfold value_of. cbn [fold_left].
    rewrite Hv, Nat.mod_small by lia. reflexivity.
  - destruct (IH (m / 10) (String (ascii_of_nat (48 + m mod 10)) acc)) as (ds & Hs & Hne & Hf & Hval).
    { assert (m / 10 < m)%nat by (apply Nat.div_lt; lia). lia. }
    exists (ds ++ [ascii_of_nat (48 + m mod 10)]). rewrite Hs, <- app_assoc.
    cbn [list_ascii_of_string app].
    repeat split; [now destruct ds|apply Forall_app; auto|].
    unfold value_of in *. rewrite fold_left_app, Hval. cbn [fold_left]. rewrite Hv.
    rewrite (Nat.div_mod_eq m 10) at 3. lia.
Qed.

Lemma digit_not_space c : is_digit c = true -> is_space c = false.
Proof.
  unfold is_digit, is_space. intros H. apply andb_prop in H as [H1 H2].
  apply Nat.leb_le in H1, H2.
  destruct (Nat.leb_spec 9 (nat_of_ascii c)), (Nat.leb_spec (nat_of_ascii c) 13),
           (Nat.eqb_spec (nat_of_ascii c) 32); cbn; auto; lia.
Qed.

Lemma drop_spaces_id l : (forall c, hd_error l = Some c -> is_space c = false) -> drop_spaces l = l.
Proof. destruct l as [|c r]; cbn; [reflexivity|]. intros H. now rewrite (H c eq_refl). Qed.

(** [s.strip()] leaves a string alone when neither end is a space. *)
Lemma strip_id l :
  (forall c, hd_error l = Some c -> is_space c = false) ->
  (forall c, hd_error (rev l) = Some c -> is_space c = false) -> strip l = l.
Proof.
  intros H1 H2. unfold strip. rewrite (drop_spaces_id l H1), (drop_spaces_id _ H2).
  apply rev_involutive.
Qed.

Lemma hd_error_rev_In {A : Type} (l : list A) c : hd_error (rev l) = Some c -> In c l.
Proof.
  intros H. apply in_rev. destruct (rev l) as [|x r]; [discriminate|]. injection H as ->. now left.
Qed.

Lemma digit_not_ascii c d : is_digit c = true -> (nat_of_ascii d < 48)%nat -> Ascii.eqb c d = false.
Proof.
  intros Hc Hd. destruct (Ascii.eqb_spec c d) as [->|]; [|reflexivity].
  unfold is_digit in Hc. apply andb_prop in Hc as [Hc _]. apply Nat.leb_le in Hc. lia.
Qed.

Lemma parse_str_nat (n : nat) :
  exists ds, list_ascii_of_string (str_nat n) = ds /\ ds <> [] /\
             Forall (fun c => is_digit c = true) ds /\ parse_digits ds 0 0 = Some (Z.of_nat n).
Proof.
  destruct (str_nat_fuel_digits (S n) n EmptyString ltac:(lia)) as (ds & Hs & Hne & Hf & Hv).
  exists ds. rewrite app_nil_r in Hs. unfold str_nat. repeat split; auto.
  rewrite <- (app_nil_r ds), parse_digits_app by assumption. cbn. now rewrite Hv.
Qed.

Lemma digits_not_space ds c : Forall (fun c => is_digit c = true) ds -> In c ds -> is_space c = false.
Proof. intros Hf Hc. apply digit_not_space. exact (proj1 (Forall_forall _ _) Hf c Hc). Qed.

(** [int(str(z)) = z]: the decimal string Python writes for an int
    reads back as that int, negative ones included. *)
Theorem int_str_roundtrip (z : Z) : py_int_of_string (py_str_int z) = Some z.
Proof.
  unfold py_int_of_string, py_str_int. destruct (Z.ltb_spec z 0) as [Hz|Hz].
  - destruct (parse_str_nat (Z.to_nat (- z))) as (ds & Hs & Hne & Hf & Hp).
    cbn [list_ascii_of_string append]. rewrite Hs, strip_id.
    + cbn. rewrite Hp. cbn. f_equal. lia.
    + intros c [= <-]. reflexivity.
    + cbn [rev]. destruct (rev ds) as [|c r] eqn:Er; [apply (f_equal (@rev _)) in Er;
        rewrite rev_involutive in Er; contradiction|].
      intros c' [= <-]. apply (digits_not_space ds); [exact Hf|]. apply hd_error_rev_In. now rewrite Er.
  - destruct (parse_str_nat (Z.to_nat z)) as (ds & Hs & Hne & Hf & Hp). rewrite Hs, strip_id.
    + destruct ds as [|c r]; [contradiction|]. inversion Hf; subst.
      rewrite !digit_not_ascii by (assumption || (cbn; lia)). rewrite Hp. f_equal. lia.
    + intros c Hc. apply (digits_not_space ds); [exact Hf|]. destruct ds; [discriminate|].
      injection Hc as ->. now left.
    + intros c Hc. apply (digits_not_space ds); [exact Hf|]. now apply hd_error_rev_In.
Qed.

End PyString.
