(* ===== verification/Acquire.v ===== *)
(** * Acquire: the sampling-rate plots of __notebook_support__.py

    [plot_sample_rate_compare(data_dict)] (lines 119-203) lays out, for
    every sampling rate of a dict keyed by rate strings ("10", "100", ...),
    a row of two figures: the first [10 * int(rate)] samples of the
    entry's ["time"]/["data"] and a zoom on the first [int(rate)].
    [acquire_subsamples_gp1(input_data)] (lines 206-266) resamples an ECG
    recorded at 4000 Hz to 3000, 1000, 500, 200, 100, 50 and 20 Hz with
    [numpy.interp], storing each in a dict keyed by [str(rate)], then
    builds a 3 x 2 grid of figures showing one second at each of six rates.

    Dicts are insertion-ordered association lists ([dict_get],
    [dict_set]); [int(s)] is [py_int_of_string]; slices [a[:s]] are
    [py_slice_to]; [visualise.plot] is a section variable.  The figures
    [plot_sample_rate_compare] takes from [plot] are changed and then
    stored, never read again, so each is a value.

    Proved: that [acquire_subsamples_gp1] builds a dict with the eight
    rate keys in order, each with time and data of [n * rate // 4000]
    samples, succeeds on every non-empty input (and raises the ValueError
    of [numpy.interp] on an empty one), builds its 3 x 2 grid of figures,
    which it then discards, and keeps every resampled value within the
    range of the recording; the layout and the slices of
    [plot_sample_rate_compare] on a dict of int keys with enough figures,
    its ValueError on a key that is not an int, and that it never raises
    on the dict [acquire_subsamples_gp1] builds. *)

From Stdlib Require Import String List ZArith Reals Lra Lia.
From S2P Require Import Prelude Numeric TimeAxis Numpy Bokeh PyString.
Import ListNotations.

Module Acquire.
Import TimeAxis Bokeh PyString.

Inductive acq_error : Type :=
| KeyError      (** a dict without the key looked up *)
| ValueError    (** [int(s)] of a non-int string; [numpy.interp] without sample points *)
| IndexError.   (** [list_figures[k]] past the end *)

(** [data_dict[rate]] is itself a dict, with keys ["time"] and ["data"]. *)
Definition entry : Type := list (string * list R).
Definition data_dict : Type := list (string * entry).

Local Open Scope R_scope.
Local Open Scope py_scope.

(** [int(s)] *)
Definition py_int_str (s : string) : py_result acq_error Z :=
  match py_int_of_string s with
  | Some z => Ret z
  | None => Raise ValueError
  end.

(** ** plot_sample_rate_compare *)

(** Lines 172-182 (and 186-196): title [t] on [list_figures[j]], then a
    line of the first [mult * int(sample_rate)] samples. *)
Definition panel (figs : list figure) (j : nat) (t : string) (dd : data_dict)
           (sample_rate : string) (mult : Z) : py_result acq_error figure :=
  f <- py_index IndexError figs j ;;
  let f := set_title f t in
  e <- py_getitem KeyError dd sample_rate ;;
  time <- py_getitem KeyError e "time" ;;
  r <- py_int_str sample_rate ;;
  e' <- py_getitem KeyError dd sample_rate ;;
  data <- py_getitem KeyError e' "data" ;;
  r' <- py_int_str sample_rate ;;
  Ret (line f (py_slice_to time (mult * r)) (py_slice_to data (mult * r')) OpensignalsLine).

(** One iteration of the loop of lines 165-196: a new row with the two
    panels of [sample_rate]. *)
Definition compare_step (figs : list figure) (dd : data_dict) (grid_list : list (list figure))
           (it : nat * string) : py_result acq_error (list (list figure)) :=
  let (iter, sample_rate) := it in
  f1 <- panel figs (2 * iter) ("Sampling Rate: " ++ sample_rate ++ " Hz")%string dd sample_rate 10 ;;
  f2 <- panel figs (2 * iter + 1) ("Zoomed section @ " ++ sample_rate ++ " Hz")%string dd
              sample_rate 1 ;;
  Ret (grid_list ++ [[f1; f2]]).

Section SampleRateCompare.
(** [plot([[]] * nbr_rows * 2, ..., grid_lines=nbr_rows, grid_columns=2,
    get_fig_list=True)] *)
Variable plot_grid : nat -> list figure.

(** [plot_sample_rate_compare(data_dict)], lines 153-203: the layout shown. *)
Definition plot_sample_rate_compare (dd : data_dict) : py_result acq_error layout :=
  let keys := map fst dd in
  let nbr_rows := length keys in
  let list_figures := plot_grid nbr_rows in
  grid_list <- py_foldl (compare_step list_figures dd) (combine (seq 0 nbr_rows) keys) [] ;;
  Ret (Grid grid_list).

End SampleRateCompare.

(** ** acquire_subsamples_gp1 *)

Definition fs_orig : Z := 4000.

(** Line 242 *)
Definition interp_rates : list Z := [3000; 1000; 500; 200; 100; 50; 20]%Z.

(** Line 255 *)
Definition plot_rates : list string := ["4000"; "3000"; "1000"; "500"; "200"; "100"]%string.

(** One iteration of the loop of lines 242-249: [data_interp[str(rate)]]
    becomes a dict with the resampled time axis, then the interpolated
    data. *)
Definition interp_step (n : nat) (time_orig data_orig : list R) (data_interp : data_dict)
           (sample_rate : Z) : py_result acq_error data_dict :=
  let fs_str := py_str_int sample_rate in
  let nbr_samples_interp := py_int (IZR (Z.of_nat n * sample_rate) / IZR fs_orig) in
  let data_interp := dict_set data_interp fs_str [] in
  let time := linspace (fof_Z 0) (INR n / IZR fs_orig) (Z.to_nat nbr_samples_interp) in
  e <- py_getitem KeyError data_interp fs_str ;;
  let data_interp := dict_set data_interp fs_str (dict_set e "time" time) in
  e <- py_getitem KeyError data_interp fs_str ;;
  t <- py_getitem KeyError e "time" ;;
  data <- np_interp ValueError t time_orig data_orig ;;
  e <- py_getitem KeyError data_interp fs_str ;;
  Ret (dict_set data_interp fs_str (dict_set e "data" data)).

(** One iteration of the loop of lines 255-266: a new row on even
    iterations, then a figure titled with the rate showing its first
    [int(rate)] samples. *)
Definition figure_step (data_interp : data_dict) (list_figures : list (list figure))
           (it : nat * string) : py_result acq_error (list (list figure)) :=
  let (iter_nbr, sample_rate) := it in
  let list_figures := if (Nat.eqb iter_nbr 0 || Nat.eqb (iter_nbr mod 2) 0)%bool
                      then list_figures ++ [[]] else list_figures in
  list_figures <- push_last IndexError list_figures
                    (titled_figure "Time (s)" "Raw Data"
                                   ("Sampling Frequency: " ++ sample_rate ++ " Hz")%string) ;;
  e <- py_getitem KeyError data_interp sample_rate ;;
  time <- py_getitem KeyError e "time" ;;
  r <- py_int_str sample_rate ;;
  e' <- py_getitem KeyError data_interp sample_rate ;;
  data <- py_getitem KeyError e' "data" ;;
  r' <- py_int_str sample_rate ;;
  Ret (update_last list_figures (fun row => update_last row (fun f =>
         line f (py_slice_to time r) (py_slice_to data r') OpensignalsLine))).

(** [acquire_subsamples_gp1(input_data)], lines 223-266: the dict and the
    rows of figures it builds.  The function returns [None]: neither is
    shown or returned. *)
Definition acquire_subsamples_gp1 (input_data : list R)
  : py_result acq_error (data_dict * list (list figure)) :=
  let nbr_samples_orig := length input_data in
  let data_interp : data_dict := [("4000"%string, [])] in
  e <- py_getitem KeyError data_interp "4000" ;;
  let data_interp := dict_set data_interp "4000" (dict_set e "data" input_data) in
  e <- py_getitem KeyError data_interp "4000" ;;
  let data_interp := dict_set data_interp "4000"
        (dict_set e "time" (linspace (fof_Z 0) (INR nbr_samples_orig / IZR fs_orig) nbr_samples_orig)) in
  e <- py_getitem KeyError data_interp "4000" ;; time_orig <- py_getitem KeyError e "time" ;;
  e <- py_getitem KeyError data_interp "4000" ;; data_orig <- py_getitem KeyError e "data" ;;
  data_interp <- py_foldl (interp_step nbr_samples_orig time_orig data_orig) interp_rates data_interp ;;
  list_figures <- py_foldl (figure_step data_interp) (combine (seq 0 6) plot_rates) [] ;;
  Ret (data_interp, list_figures).

(** ** The dict [acquire_subsamples_gp1] builds *)

(** The number of samples at [rate] of a recording of [n] samples at 4000 Hz. *)
Definition count_at (n : nat) (r : Z) : nat := Z.to_nat (Z.of_nat n * r / fs_orig).

(** The time axis at 4000 Hz. *)
Definition time_4000 (input : list R) : list R :=
  linspace (fof_Z 0) (INR (length input) / IZR fs_orig) (length input).

(** The number of points of each line of a figure. *)
Definition line_lengths (f : figure) : list (nat * nat) :=
  map (fun g => match g with Line xs ys _ => (length xs, length ys) | _ => (0, 0)%nat end) (glyphs f).

(** [data_interp[str(rate)]] after its iteration. *)
Definition resampled_entry (n : nat) (time_orig data_orig : list R) (r : Z) : entry :=
  let time := linspace (fof_Z 0) (INR n / IZR fs_orig)
                       (Z.to_nat (py_int (IZR (Z.of_nat n * r) / IZR fs_orig))) in
  [("time"%string, time); ("data"%string, map (fun v => interp_at v time_orig data_orig) time)].

(** [data_interp] after the loop of lines 242-249. *)
Definition acquire_dict (input : list R) : data_dict :=
  ("4000"%string, [("data"%string, input); ("time"%string, time_4000 input)]) ::
  map (fun r => (py_str_int r, resampled_entry (length input) (time_4000 input) input r)) interp_rates.

Lemma interp_step_spec n time_orig data_orig d r k :
  py_str_int r = k -> ~ In k (map fst d) -> time_orig <> [] -> length data_orig = length time_orig ->
  interp_step n time_orig data_orig d r =
  Ret (d ++ [(k, resampled_entry n time_orig data_orig r)]).
Proof.
  intros <- Hk Ht Hl. unfold interp_step, resampled_entry. cbv zeta.
  rewrite dict_set_new by exact Hk.
  rewrite (py_getitem_some _ _ _ _ (dict_get_app_new _ _ _ Hk)), py_bind_ret.
  rewrite dict_set_nil, dict_set_app_new by exact Hk.
  rewrite (py_getitem_some _ _ _ _ (dict_get_app_new _ _ _ Hk)), py_bind_ret.
  rewrite (py_getitem_some _ _ _ _ (dict_get_single _ _)), py_bind_ret.
  rewrite np_interp_ok by assumption. rewrite !py_bind_ret.
  rewrite (dict_set_new [("time"%string, _)] "data") by (cbn; intros [H|[]]; discriminate H).
  now rewrite dict_set_app_new by exact Hk.
Qed.

Lemma acquire_interp_loop (input : list R) :
  input <> [] ->
  py_foldl (interp_step (length input) (time_4000 input) input) interp_rates
           [("4000"%string, [("data"%string, input); ("time"%string, time_4000 input)])]
  = Ret (acquire_dict input).
Proof.
  intros Hne.
  assert (Ht : time_4000 input <> []) by
    (unfold time_4000; rewrite <- length_zero_iff_nil, length_linspace, length_zero_iff_nil; exact Hne).
  assert (Hl : length input = length (time_4000 input)) by (unfold time_4000; now rewrite length_linspace).
  cbn [py_foldl interp_rates].
  repeat (rewrite (interp_step_spec _ _ _ _ _ _ eq_refl) by
            (assumption || not_in_literal);
          rewrite py_bind_ret).
  reflexivity.
Qed.

Lemma acquire_dict_literal (input : list R) :
  acquire_dict input =
  [("4000"%string, [("data"%string, input); ("time"%string, time_4000 input)]);
   ("3000"%string, resampled_entry (length input) (time_4000 input) input 3000);
   ("1000"%string, resampled_entry (length input) (time_4000 input) input 1000);
   ("500"%string, resampled_entry (length input) (time_4000 input) input 500);
   ("200"%string, resampled_entry (length input) (time_4000 input) input 200);
   ("100"%string, resampled_entry (length input) (time_4000 input) input 100);
   ("50"%string, resampled_entry (length input) (time_4000 input) input 50);
   ("20"%string, resampled_entry (length input) (time_4000 input) input 20)].
Proof. reflexivity. Qed.

(** Replace [int(s)] of literal strings by its value. *)
Ltac int_lits :=
  repeat match goal with
  | |- context [py_int_str ?s] =>
      let v := eval vm_compute in (py_int_str s) in change (py_int_str s) with v
  end.

Lemma length_resampled_time (a : R) (n : nat) (r : Z) :
  (0 <= r)%Z ->
  length (linspace a (INR n / IZR fs_orig)
            (Z.to_nat (py_int (IZR (Z.of_nat n * r) / IZR fs_orig)))) = count_at n r.
Proof.
  intros Hr. rewrite length_linspace, py_int_div by (unfold fs_orig; lia). reflexivity.
Qed.

Lemma count_at_4000 (n : nat) : count_at n 4000 = n.
Proof. unfold count_at, fs_orig. rewrite Z.div_mul by lia. apply Nat2Z.id. Qed.

Lemma length_time_4000 (input : list R) : length (time_4000 input) = length input.
Proof. apply length_linspace. Qed.

(** A run of [acquire_subsamples_gp1] on a non-empty recording: the dict,
    and six figures in rows of two, titled with their rate, each showing
    the first [rate] samples (one second) or all of them. *)
Lemma acquire_run (input : list R) :
  input <> [] ->
  exists figs, acquire_subsamples_gp1 input = Ret (acquire_dict input, figs) /\
    map (map title) figs =
      [[Some "Sampling Frequency: 4000 Hz"; Some "Sampling Frequency: 3000 Hz"];
       [Some "Sampling Frequency: 1000 Hz"; Some "Sampling Frequency: 500 Hz"];
       [Some "Sampling Frequency: 200 Hz"; Some "Sampling Frequency: 100 Hz"]]%string /\
    map (map line_lengths) figs =
      map (map (fun r => let m := Nat.min (Z.to_nat r) (count_at (length input) r) in [(m, m)]))
          [[4000; 3000]; [1000; 500]; [200; 100]]%Z.
Proof.
  intros Hne. eexists. split.
  - unfold acquire_subsamples_gp1. cbv zeta. unfold py_getitem.
    repeat progress (dict_simpl; cbn [py_bind]).
    change (linspace (fof_Z 0) (INR (length input) / IZR fs_orig) (length input)) with (time_4000 input).
    lazymatch goal with
    | |- context [py_foldl ?f interp_rates ?d] =>
        replace (py_foldl f interp_rates d) with (Ret (E:=acq_error) (acquire_dict input))
          by (symmetry; exact (acquire_interp_loop input Hne))
    end.
    rewrite py_bind_ret, acquire_dict_literal. cbn [py_foldl combine seq plot_rates].
    unfold figure_step.
    cbn -[linspace py_int interp_at Rdiv IZR INR time_4000 py_slice_to].
    int_lits. cbn -[linspace py_int interp_at Rdiv IZR INR time_4000 py_slice_to].
    reflexivity.
  - split; [reflexivity|].
    cbn -[linspace py_int interp_at Rdiv IZR INR time_4000 count_at py_slice_to].
    rewrite !length_py_slice_to, !length_map, !length_time_4000.
    cbn -[linspace py_int Rdiv IZR INR count_at Nat.min].
    rewrite !length_resampled_time by lia. now rewrite count_at_4000.
Qed.

Lemma acquire_empty : acquire_subsamples_gp1 [] = Raise ValueError.
Proof. reflexivity. Qed.

(** An entry of the dict: its key reads as an int [r], and its time axis
    and data both hold the number of samples a recording of [n] samples
    at 4000 Hz has at [r] Hz. *)
Definition sampled_entry (n : nat) (ke : string * entry) : Prop :=
  exists r t x, py_int_of_string (fst ke) = Some r /\
    dict_get (snd ke) "time" = Some t /\ dict_get (snd ke) "data" = Some x /\
    length t = count_at n r /\ length x = count_at n r.

Lemma resampled_entry_sampled (n : nat) (t x : list R) (k : string) (r : Z) :
  py_int_of_string k = Some r -> (0 <= r)%Z ->
  sampled_entry n (k, resampled_entry n t x r).
Proof.
  intros Hk Hr. do 3 eexists. cbn [fst snd]. rewrite Hk.
  split; [reflexivity|split; [reflexivity|split; [reflexivity|]]].
  rewrite length_map. split; apply length_resampled_time; exact Hr.
Qed.

(** C23: on a non-empty recording [acquire_subsamples_gp1] returns a dict
    keyed by the eight rates 4000, 3000, 1000, 500, 200, 100, 50 and 20, in
    this order, each key the decimal string of its rate, and each entry a
    time axis and a data array with [n * rate / 4000] samples. *)
Theorem acquire_dict_shape (input : list R) :
  input <> [] ->
  exists d figs, acquire_subsamples_gp1 input = Ret (d, figs) /\
    map fst d = ["4000"; "3000"; "1000"; "500"; "200"; "100"; "50"; "20"]%string /\
    Forall (sampled_entry (length input)) d.
Proof.
  intros Hne. destruct (acquire_run input Hne) as (figs & Hrun & _).
  exists (acquire_dict input), figs. split; [exact Hrun|split; [reflexivity|]].
  rewrite acquire_dict_literal. constructor.
  - exists 4000%Z, (time_4000 input), input. cbn [fst snd].
    rewrite count_at_4000, length_time_4000. repeat split.
  - repeat constructor; apply resampled_entry_sampled; (reflexivity || lia).
Qed.

Lemma acquire_dict_shape_witness :
  [1; 2] <> [] /\ exists d figs, acquire_subsamples_gp1 [1; 2] = Ret (d, figs) /\
    map fst d = ["4000"; "3000"; "1000"; "500"; "200"; "100"; "50"; "20"]%string /\
    Forall (sampled_entry 2) d.
Proof. split; [discriminate|]. apply (acquire_dict_shape [1; 2]). discriminate. Defined.

(** C24: [acquire_subsamples_gp1] raises only on an empty recording, where
    [numpy.interp] gets no sample points; otherwise it returns the dict
    and three rows of two figures, titled with the rates 4000 to 100 Hz,
    each plotting the first [rate] samples (one second) of that rate, or
    all of them when there are fewer. *)
Theorem acquire_subsamples_gp1_total (input : list R) :
  (input = [] /\ acquire_subsamples_gp1 input = Raise ValueError) \/
  (exists figs, acquire_subsamples_gp1 input = Ret (acquire_dict input, figs) /\
    map (map title) figs =
      [[Some "Sampling Frequency: 4000 Hz"; Some "Sampling Frequency: 3000 Hz"];
       [Some "Sampling Frequency: 1000 Hz"; Some "Sampling Frequency: 500 Hz"];
       [Some "Sampling Frequency: 200 Hz"; Some "Sampling Frequency: 100 Hz"]]%string /\
    map (map line_lengths) figs =
      map (map (fun r => let m := Nat.min (Z.to_nat r) (count_at (length input) r) in [(m, m)]))
          [[4000; 3000]; [1000; 500]; [200; 100]]%Z).
Proof.
  destruct input as [|x r]; [left; split; [reflexivity|exact acquire_empty]|].
  right. apply acquire_run. discriminate.
Qed.

(** C25: every resampled value [acquire_subsamples_gp1] stores lies between
    [numpy.min] and [numpy.max] of the recording: linear interpolation
    never leaves the range of the samples. *)
Theorem acquire_data_bounds (x0 : R) (rest : list R) :
  exists d figs lo hi, acquire_subsamples_gp1 (x0 :: rest) = Ret (d, figs) /\
    np_min ValueError (x0 :: rest) = Ret lo /\ np_max ValueError (x0 :: rest) = Ret hi /\
    forall k e x v, dict_get d k = Some e -> dict_get e "data" = Some x -> In v x -> lo <= v <= hi.
Proof.
  destruct (acquire_run (x0 :: rest) ltac:(discriminate)) as (figs & Hrun & _).
  do 4 eexists. split; [exact Hrun|split; [reflexivity|split; [reflexivity|]]].
  intros k e x v Hk Hx Hv. apply dict_get_In in Hk. cbn [acquire_dict In] in Hk.
  destruct Hk as [[= <- <-]|Hk].
  - injection Hx as <-. split; [apply fold_min_le|apply fold_max_ge]; exact Hv.
  - apply in_map_iff in Hk as (r & [= <- <-] & _). injection Hx as <-.
    apply in_map_iff in Hv as (t & <- & _). apply interp_at_bounds. apply length_time_4000.
Qed.

(** ** plot_sample_rate_compare *)

(** An entry with a time axis and data. *)
Definition has_time_data (ke : string * entry) : Prop :=
  exists t x, dict_get (snd ke) "time" = Some t /\ dict_get (snd ke) "data" = Some x.

(** The row of the grid for entry [(k, e)] at position [j]: figures [2j]
    and [2j + 1] of [plot], titled with the rate, with the first ten
    seconds ([10 * int(k)] samples) and the first second of the entry. *)
Definition compare_row (figs : list figure) (jke : nat * (string * entry)) (row : list figure)
  : Prop :=
  let '(j, (k, e)) := jke in
  exists r t x f1 f2, py_int_of_string k = Some r /\ dict_get e "time" = Some t /\
    dict_get e "data" = Some x /\
    nth_error figs (2 * j) = Some f1 /\ nth_error figs (2 * j + 1) = Some f2 /\
    row = [line (set_title f1 ("Sampling Rate: " ++ k ++ " Hz")) (py_slice_to t (10 * r))
                (py_slice_to x (10 * r)) OpensignalsLine;
           line (set_title f2 ("Zoomed section @ " ++ k ++ " Hz")) (py_slice_to t r)
                (py_slice_to x r) OpensignalsLine]%string.

Lemma panel_ok figs j t dd k e r tm x mult f :
  nth_error figs j = Some f -> dict_get dd k = Some e -> dict_get e "time" = Some tm ->
  dict_get e "data" = Some x -> py_int_of_string k = Some r ->
  panel figs j t dd k mult =
  Ret (line (set_title f t) (py_slice_to tm (mult * r)) (py_slice_to x (mult * r)) OpensignalsLine).
Proof.
  intros Hf Hk Ht Hx Hr. unfold panel, py_index, py_getitem, py_int_str, entry, data_dict in *.
  rewrite Hf; cbn [py_bind]; rewrite Hk; cbn [py_bind]; rewrite Ht; cbn [py_bind].
  rewrite Hr; cbn [py_bind]; rewrite Hx. reflexivity.
Qed.

Lemma panel_bad_key figs j t dd k e tm mult f :
  nth_error figs j = Some f -> dict_get dd k = Some e -> dict_get e "time" = Some tm ->
  py_int_of_string k = None -> panel figs j t dd k mult = Raise ValueError.
Proof.
  intros Hf Hk Ht Hr. unfold panel, py_index, py_getitem, py_int_str, entry, data_dict in *.
  rewrite Hf; cbn [py_bind]; rewrite Hk; cbn [py_bind]; rewrite Ht; cbn [py_bind].
  rewrite Hr. reflexivity.
Qed.

(** The loop of lines 165-196 over the entries [l] of [dd] from position
    [i]: a row per entry when every key reads as an int, ValueError at the
    first one that does not. *)
Lemma compare_loop figs dd l i acc :
  NoDup (map fst dd) -> incl l dd -> Forall has_time_data l ->
  (2 * (i + length l) <= length figs)%nat ->
  (Forall (fun ke => py_int_of_string (fst ke) <> None) l /\
   exists rows, py_foldl (compare_step figs dd) (combine (seq i (length l)) (map fst l)) acc
                = Ret (acc ++ rows) /\
                Forall2 (compare_row figs) (combine (seq i (length l)) l) rows) \/
  (Exists (fun ke => py_int_of_string (fst ke) = None) l /\
   py_foldl (compare_step figs dd) (combine (seq i (length l)) (map fst l)) acc = Raise ValueError).
Proof.
  revert i acc. induction l as [|[k e] l IH]; intros i acc Hnd Hincl Htd Hlen.
  { left. split; [constructor|]. exists []. split; [now rewrite app_nil_r|constructor]. }
  inversion Htd as [|? ? (t & x & Ht & Hx) Htd']; subst.
  assert (Hk : dict_get dd k = Some e) by (apply dict_get_NoDup; [exact Hnd|apply Hincl; now left]).
  cbn [length] in Hlen.
  destruct (nth_error_lt figs (2 * i) ltac:(lia)) as (f1 & Hf1).
  destruct (nth_error_lt figs (2 * i + 1) ltac:(lia)) as (f2 & Hf2).
  cbn [seq map combine py_foldl compare_step length fst].
  destruct (py_int_of_string k) as [r|] eqn:Hr.
  - rewrite (panel_ok _ _ _ _ _ _ _ _ _ _ _ Hf1 Hk Ht Hx Hr),
            (panel_ok _ _ _ _ _ _ _ _ _ _ _ Hf2 Hk Ht Hx Hr), !py_bind_ret.
    destruct (IH (S i) (acc ++ [[line (set_title f1 ("Sampling Rate: " ++ k ++ " Hz"))
        (py_slice_to t (10 * r)) (py_slice_to x (10 * r)) OpensignalsLine;
        line (set_title f2 ("Zoomed section @ " ++ k ++ " Hz")) (py_slice_to t (1 * r))
        (py_slice_to x (1 * r)) OpensignalsLine]]%string) Hnd
        ltac:(intros ke Hke; apply Hincl; now right) Htd' ltac:(lia))
      as [[Hall (rows & Hrun & Hrows)]|[Hbad Hrun]].
    + left. split; [constructor; [cbn; congruence|exact Hall]|].
      eexists. rewrite Hrun, <- app_assoc. split; [reflexivity|].
      constructor; [|exact Hrows]. exists r, t, x, f1, f2. rewrite !Z.mul_1_l. auto 7.
    + right. split; [now apply Exists_cons_tl|exact Hrun].
  - right. split; [now apply Exists_cons_hd|].
    rewrite (panel_bad_key _ _ _ _ _ _ _ _ _ Hf1 Hk Ht Hr). reflexivity.
Qed.

(** C26: [plot_sample_rate_compare] on a dict whose keys are distinct ints
    and whose entries have a time axis and data, given at least two
    figures per key from [plot], returns the grid with one row per key, in
    the dict's order: figures [2j] and [2j + 1] titled with the rate, with
    the first [10 * rate] and the first [rate] samples. *)
Theorem sample_rate_compare_grid (plot_grid : nat -> list figure) (dd : data_dict) :
  NoDup (map fst dd) -> Forall has_time_data dd ->
  Forall (fun ke => py_int_of_string (fst ke) <> None) dd ->
  (2 * length dd <= length (plot_grid (length dd)))%nat ->
  exists rows, plot_sample_rate_compare plot_grid dd = Ret (Grid rows) /\
    Forall2 (compare_row (plot_grid (length dd))) (combine (seq 0 (length dd)) dd) rows.
Proof.
  intros Hnd Htd Hint Hlen. unfold plot_sample_rate_compare. rewrite length_map.
  destruct (compare_loop (plot_grid (length dd)) dd dd 0 [] Hnd (incl_refl dd) Htd Hlen)
    as [[_ (rows & Hrun & Hrows)]|[Hbad _]].
  - exists rows. rewrite Hrun. split; [reflexivity|exact Hrows].
  - exfalso. apply Exists_exists in Hbad as (ke & Hin & Hn).
    exact (proj1 (Forall_forall _ _) Hint ke Hin Hn).
Qed.

(** A figure [plot] hands out before anything is drawn on it. *)
Definition blank_figure : figure := titled_figure "Time (s)" "Raw Data" "".

Definition sample_dict : data_dict :=
  [("1000"%string, [("time"%string, [0; 1]); ("data"%string, [2; 3])])].

Lemma sample_rate_compare_grid_witness :
  exists rows, plot_sample_rate_compare (fun n => repeat blank_figure (2 * n)) sample_dict
               = Ret (Grid rows) /\
    Forall2 (compare_row (repeat blank_figure 2)) (combine (seq 0 1) sample_dict) rows.
Proof.
  apply (sample_rate_compare_grid (fun n => repeat blank_figure (2 * n)) sample_dict).
  - constructor; [intros []|constructor].
  - constructor; [do 2 eexists; split; reflexivity|constructor].
  - constructor; [vm_compute; discriminate|constructor].
  - cbn; lia.
Defined.

(** C27: a key of the dict that is not an int (e.g. ["1000 Hz"]) makes
    [int(sample_rate)] raise ValueError, after the title of its figure is
    set: [plot_sample_rate_compare] shows nothing. *)
Theorem sample_rate_compare_bad_key (plot_grid : nat -> list figure) (dd : data_dict) :
  NoDup (map fst dd) -> Forall has_time_data dd ->
  (2 * length dd <= length (plot_grid (length dd)))%nat ->
  Exists (fun ke => py_int_of_string (fst ke) = None) dd ->
  plot_sample_rate_compare plot_grid dd = Raise ValueError.
Proof.
  intros Hnd Htd Hlen Hbad. unfold plot_sample_rate_compare. rewrite length_map.
  destruct (compare_loop (plot_grid (length dd)) dd dd 0 [] Hnd (incl_refl dd) Htd Hlen)
    as [[Hint _]|[_ Hrun]].
  - exfalso. apply Exists_exists in Hbad as (ke & Hin & Hn).
    exact (proj1 (Forall_forall _ _) Hint ke Hin Hn).
  - now rewrite Hrun.
Qed.

Definition bad_key_dict : data_dict :=
  [("1000 Hz"%string, [("time"%string, [0; 1]); ("data"%string, [2; 3])])].

Lemma sample_rate_compare_bad_key_witness :
  plot_sample_rate_compare (fun n => repeat blank_figure (2 * n)) bad_key_dict = Raise ValueError.
Proof.
  apply (sample_rate_compare_bad_key (fun n => repeat blank_figure (2 * n)) bad_key_dict).
  - constructor; [intros []|constructor].
  - constructor; [do 2 eexists; split; reflexivity|constructor].
  - cbn; lia.
  - constructor. vm_compute. reflexivity.
Defined.

(** C28: the dict [acquire_subsamples_gp1] builds from a non-empty
    recording is a valid input of [plot_sample_rate_compare]: its keys are
    distinct ints with a time axis and data each, so the grid has one row
    per rate, eight in all. *)
Theorem acquire_then_compare (plot_grid : nat -> list figure) (input : list R) :
  input <> [] -> (16 <= length (plot_grid 8))%nat ->
  exists d figs rows, acquire_subsamples_gp1 input = Ret (d, figs) /\
    plot_sample_rate_compare plot_grid d = Ret (Grid rows) /\ length rows = 8%nat.
Proof.
  intros Hne Hlen. destruct (acquire_run input Hne) as (figs & Hrun & _).
  assert (Hnd : NoDup (map fst (acquire_dict input))).
  { replace (map fst (acquire_dict input))
      with ["4000"; "3000"; "1000"; "500"; "200"; "100"; "50"; "20"]%string by reflexivity.
    repeat constructor; not_in_literal. }
  assert (Htd : Forall has_time_data (acquire_dict input)).
  { rewrite acquire_dict_literal. repeat constructor; do 2 eexists; split; reflexivity. }
  assert (Hl : length (acquire_dict input) = 8%nat) by (rewrite acquire_dict_literal; reflexivity).
  destruct (compare_loop (plot_grid 8%nat) _ _ 0 [] Hnd (incl_refl _) Htd ltac:(rewrite Hl; lia))
    as [[_ (rows & Hrun' & Hrows)]|[Hbad _]].
  - exists (acquire_dict input), figs, rows. split; [exact Hrun|split].
    + unfold plot_sample_rate_compare. rewrite length_map, Hl. rewrite Hl in Hrun'.
      now rewrite Hrun'.
    + apply Forall2_length in Hrows. now rewrite length_combine, length_seq, Hl in Hrows.
  - exfalso. apply Exists_exists in Hbad as (ke & Hin & Hn).
    rewrite acquire_dict_literal in Hin. cbn [In] in Hin.
    repeat (destruct Hin as [<-|Hin]; [cbn [fst] in Hn; vm_compute in Hn; discriminate|]).
    contradiction.
Qed.

Lemma acquire_then_compare_witness :
  exists d figs rows, acquire_subsamples_gp1 [1; 2] = Ret (d, figs) /\
    plot_sample_rate_compare (fun n => repeat blank_figure (2 * n)) d = Ret (Grid rows) /\
    length rows = 8%nat.
Proof.
  apply (acquire_then_compare (fun n => repeat blank_figure (2 * n)) [1; 2]);
    [discriminate|cbn; lia].
Defined.

End Acquire.
