(* ===== verification/Emg.v ===== *)
(** * Emg: the two EMG helpers of __notebook_support__.py

    [plot_compare_act_config(signal, sample_rate)] (lines 275-402) runs the
    muscular activation detector [detect_emg_activations] of [detect.py]
    with three settings of smoothing level and threshold, rescales the
    smoothed signal and the threshold to the signal's maximum, turns each
    detected activation [begin[a], end[a]) into a rectangle of height
    [numpy.max(signal)] by slice assignment into [numpy.zeros], and draws
    the results on the six figures [plot] returns, in a 3x2 grid.

    [plot_median_freq_evol(...)] (lines 405-488) draws the EMG signal and
    its median frequency in two figures and adds to both one box per
    activation, from [begin[a] / sample_rate] to [end[a] / sample_rate],
    in the next colour of the palette.

    [detect_emg_activations] and [plot] live in other modules
    ([detect.py], [visualise.py]) and are Section variables here.  Sample
    indices are [nat]; [sample_rate] is a Python int, so that [x /
    sample_rate] raises ZeroDivisionError when it is 0.  Float division
    by a zero maximum (numpy's [inf] with a warning) is Rocq's [x / 0 = 0]:
    the theorems about values assume non-zero maxima where they need
    them. *)

From Stdlib Require Import String List Reals Lia Bool Arith ZArith.
From S2P Require Import Prelude Numeric TimeAxis Numpy Bokeh.
Import ListNotations.

#[local] Set Warnings "-abstract-large-number".

Module Emg.
Import TimeAxis Bokeh.

Inductive emg_error : Type :=
| IndexError         (** [l[k]] past the end *)
| ValueError         (** [numpy.max] of an empty array *)
| KeyError           (** a dict without the key looked up *)
| ZeroDivisionError. (** [x / sample_rate] with [sample_rate = 0] *)

Local Open Scope R_scope.
Local Open Scope py_scope.

(** [x / sample_rate] for Python ints. *)
Definition py_true_div (x : nat) (sample_rate : Z) : py_result emg_error R :=
  if Z.eqb sample_rate 0 then Raise ZeroDivisionError else Ret (INR x / IZR sample_rate).

(** ** plot_compare_act_config *)

(** One iteration of the loops of lines 330-332 (and 343-345, 356-358):
    [activation[begin[a]:end[a]] = numpy.max(signal)]. *)
Definition fill_activation (mx : R) (begins ends : list nat) (activation : list R) (a : nat)
  : py_result emg_error (list R) :=
  b <- py_index IndexError begins a ;;
  e <- py_index IndexError ends a ;;
  Ret (np_fill_slice activation b e mx).

(** The rectangular signal the loop is meant to draw: [mx] at the samples
    of some detected activation, 0 elsewhere. *)
Definition in_activation (begins ends : list nat) (i : nat) : bool :=
  existsb (fun be => ((fst be <=? i)%nat && (i <? snd be)%nat)%bool) (combine begins ends).

Definition activation_signal (mx : R) (begins ends : list nat) (n : nat) : list R :=
  map (fun i => if in_activation begins ends i then mx else 0) (seq 0 n).

Section ActConfig.
(** [detect_emg_activations(signal, sample_rate, smooth_level, threshold_level)]
    of [detect.py]: activation begins, ends, the smoothed signal and the
    threshold. *)
Variable detect_emg_activations : list R -> Z -> Z -> Z -> list nat * list nat * list R * R.
(** The six figures [plot([[]] * 6, ..., grid_lines=3, grid_columns=2,
    get_fig_list=True)] returns. *)
Variable plot_list : list figure.

(** Lines 323-332 (and 336-345, 349-358): detection with smoothing level
    [sl] and threshold level [tl], the threshold and smoothed signal
    rescaled to the maximum of the signal, and the activation array of [n]
    samples. *)
Definition detection (signal : list R) (sample_rate sl tl : Z) (n : nat)
  : py_result emg_error (list R * R * list R) :=
  let '(begins, ends, smooth_signal, threshold_level) :=
      detect_emg_activations signal sample_rate sl tl in
  mx <- np_max ValueError signal ;;
  ms <- np_max ValueError smooth_signal ;;
  let threshold_level := mx * threshold_level / ms in
  mx' <- np_max ValueError signal ;;
  ms' <- np_max ValueError smooth_signal ;;
  let smooth_signal := map (fun v => mx' * v / ms') smooth_signal in
  activation <- py_foldl (fun act a => mx'' <- np_max ValueError signal ;;
                                       fill_activation mx'' begins ends act a)
                         (seq 0 (length begins)) (repeat 0 n) ;;
  Ret (smooth_signal, threshold_level, activation).

(** Lines 365-367 *)
Definition combination : list string :=
  ["Smooth Level: 20 %  Threshold Level: 10 %";
   "Smooth Level: 20 %  Threshold Level: 50 %";
   "Smooth Level: 70 %  Threshold Level: 10 %"]%string.

Definition detect_entry : Type := list R * R * list R.

(** One iteration of the loop of lines 378-397 on figure [plot_aux]. *)
Definition act_plot_step (time signal : list R) (detect_dict : list (string * detect_entry))
           (figs : list figure) (plot_aux : nat) : py_result emg_error (list figure) :=
  combination_temp <- py_index IndexError combination (plot_aux / 2) ;;
  f <- py_index IndexError figs plot_aux ;;
  let f := line f time signal OpensignalsLine in
  '(f, t) <- (if Nat.even plot_aux then
                '(sm, _, _) <- py_getitem KeyError detect_dict combination_temp ;;
                let f := line f time sm OpensignalsLine in
                '(_, th, _) <- py_getitem KeyError detect_dict combination_temp ;;
                let f := const_line f time th OpensignalsLine in
                Ret (set_y_label f "Raw Data", combination_temp)
              else
                '(_, _, act) <- py_getitem KeyError detect_dict combination_temp ;;
                Ret (line f time act OpensignalsLine, "Result for " ++ combination_temp)%string) ;;
  let f := if (Nat.eqb plot_aux 4 || Nat.eqb plot_aux 5)%bool then set_x_label f "Time (s)" else f in
  Ret (update_nth figs plot_aux (fun _ => set_title f t)).

(** [plot_compare_act_config(signal, sample_rate)], lines 312-402: the
    grid shown. *)
Definition plot_compare_act_config (signal : list R) (sample_rate : Z) : py_result emg_error layout :=
  duration <- py_true_div (length signal) sample_rate ;;
  let time := firstn 14000 (linspace (fof_Z 0) duration (length signal)) in
  let signal := centre (firstn 14000 signal) in
  '(sm1, th1, act1) <- detection signal sample_rate 20 10 (length time) ;;
  '(sm2, th2, act2) <- detection signal sample_rate 20 50 (length time) ;;
  '(sm3, th3, act3) <- detection signal sample_rate 70 10 (length time) ;;
  let detect_dict := [("Smooth Level: 20 %  Threshold Level: 10 %"%string, (sm1, th1, act1));
                      ("Smooth Level: 20 %  Threshold Level: 50 %"%string, (sm2, th2, act2));
                      ("Smooth Level: 70 %  Threshold Level: 10 %"%string, (sm3, th3, act3))] in
  figs <- py_foldl (act_plot_step time signal detect_dict) (seq 0 (length plot_list)) plot_list ;;
  p0 <- py_index IndexError figs 0 ;; p1 <- py_index IndexError figs 1 ;;
  p2 <- py_index IndexError figs 2 ;; p3 <- py_index IndexError figs 3 ;;
  p4 <- py_index IndexError figs 4 ;; p5 <- py_index IndexError figs 5 ;;
  Ret (Grid [[p0; p1]; [p2; p3]; [p4; p5]]).

End ActConfig.

(** What row [j] of the grid shows for the figures [p] and [q] of [plot]
    and the results [(sm, th, act)] of the [j]-th detection: on the left
    the signal, the smoothed signal and the threshold, titled with the
    setting, with the label "Raw Data"; on the right the signal and the
    activations, titled "Result for" the setting; the time label on the
    bottom row only. *)
Definition act_row_shows (time signal : list R) (j : nat) (p q : figure) (de : detect_entry)
           (row : list figure) : Prop :=
  let '(sm, th, act) := de in
  exists f g, row = [f; g] /\
    title f = nth_error combination j /\
    title g = option_map (fun c => "Result for " ++ c)%string (nth_error combination j) /\
    glyphs f = glyphs p ++ [Line time signal OpensignalsLine; Line time sm OpensignalsLine;
                            ConstLine time th OpensignalsLine] /\
    glyphs g = glyphs q ++ [Line time signal OpensignalsLine; Line time act OpensignalsLine] /\
    y_label f = Some "Raw Data"%string /\ y_label g = y_label q /\
    x_label f = (if Nat.eqb j 2 then Some "Time (s)"%string else x_label p) /\
    x_label g = (if Nat.eqb j 2 then Some "Time (s)"%string else x_label q) /\
    layouts f = layouts p /\ layouts g = layouts q.

(** ** plot_median_freq_evol *)

Section MedianFreq.
(** [plot([time_signal, time_median_freq], [signal, median_freq], ...,
    grid_lines=2, grid_columns=1, get_fig_list=True)] *)
Variable plot2 : list R -> list R -> list R -> list R -> list figure.

(** One iteration of the loop of lines 473-483: the next palette colour,
    a box and its copy from [begin[a] / sample_rate] to
    [end[a] / sample_rate], added to the first and the second figure. *)
Definition median_freq_step (palette : nat -> string) (sample_rate : Z) (begins ends : list nat)
           (st : nat * list figure) (activation : nat) : py_result emg_error (nat * list figure) :=
  let (pos, figs) := st in
  let (color, pos) := next_color palette pos in
  b <- py_index IndexError begins activation ;; left <- py_true_div b sample_rate ;;
  e <- py_index IndexError ends activation ;; right <- py_true_div e sample_rate ;;
  let box_annotation := Box left right None None color (1 / 10) in
  b' <- py_index IndexError begins activation ;; left' <- py_true_div b' sample_rate ;;
  e' <- py_index IndexError ends activation ;; right' <- py_true_div e' sample_rate ;;
  let box_annotation_copy := Box left' right' None None color (1 / 10) in
  _ <- py_index IndexError figs 0 ;;
  let figs := update_nth figs 0 (fun f => add_layout f box_annotation) in
  _ <- py_index IndexError figs 1 ;;
  let figs := update_nth figs 1 (fun f => add_layout f box_annotation_copy) in
  Ret (pos, figs).

(** [plot_median_freq_evol(...)], lines 464-488: the grid shown, and the
    palette position after it. *)
Definition plot_median_freq_evol (palette : nat -> string) (pos : nat)
           (time_signal signal time_median_freq median_freq : list R)
           (activations_begin activations_end : list nat) (sample_rate : Z)
  : py_result emg_error (layout * nat) :=
  let list_figures_1 := plot2 time_signal time_median_freq signal median_freq in
  '(pos, list_figures_1) <- py_foldl (median_freq_step palette sample_rate activations_begin
                                                        activations_end)
                                     (seq 0 (length activations_begin)) (pos, list_figures_1) ;;
  f0 <- py_index IndexError list_figures_1 0 ;; f1 <- py_index IndexError list_figures_1 1 ;;
  Ret (Grid [[f0]; [f1]], pos).

End MedianFreq.

(** The boxes the docstring promises: one per activation, in order, each
    from its begin to its end in seconds, in consecutive palette colours
    from [pos]. *)
Definition activation_boxes (palette : nat -> string) (pos : nat) (sample_rate : Z)
           (begins ends : list nat) : list annotation :=
  map (fun a => Box (INR (nth a begins 0%nat) / IZR sample_rate) (INR (nth a ends 0%nat) / IZR sample_rate)
                    None None (palette (pos + a)%nat) (1 / 10))
      (seq 0 (length begins)).

Lemma firstn_S_nth_error {A : Type} (l : list A) k x :
  nth_error l k = Some x -> firstn (S k) l = firstn k l ++ [x].
Proof.
  revert k; induction l as [|y r IH]; intros [|k] Hk; cbn in *; try discriminate.
  - now injection Hk as ->.
  - now rewrite (IH k Hk).
Qed.

Lemma nth_error_combine {A B : Type} (l1 : list A) (l2 : list B) k a b :
  nth_error l1 k = Some a -> nth_error l2 k = Some b -> nth_error (combine l1 l2) k = Some (a, b).
Proof.
  revert l2 k; induction l1 as [|x r IH]; intros [|y l2] [|k] H1 H2; cbn in *; try discriminate.
  - congruence.
  - now apply IH.
Qed.

(** After the first [k] iterations the array is the indicator of the first
    [k] activations. *)
Lemma fill_activation_prefix (mx : R) (begins ends : list nat) (n k : nat) :
  (k <= length begins)%nat -> (k <= length ends)%nat ->
  py_foldl (fill_activation mx begins ends) (seq 0 k) (repeat 0 n) =
  Ret (map (fun i => if existsb (fun be => ((fst be <=? i)%nat && (i <? snd be)%nat)%bool)
                              (firstn k (combine begins ends)) then mx else 0) (seq 0 n)).
Proof.
  induction k as [|k IH]; intros Hb He.
  - cbn. f_equal. apply nth_ext with (d := 0) (d' := 0); rewrite ?length_map, ?length_seq,
      ?repeat_length; [reflexivity|]. intros i Hi. rewrite nth_map_seq by exact Hi.
    now apply nth_repeat.
  - rewrite seq_S, py_foldl_app, IH by lia. cbn [Nat.add py_foldl py_bind].
    destruct (py_index_ok IndexError begins k ltac:(lia)) as (b & Hbk & Hb').
    destruct (py_index_ok IndexError ends k ltac:(lia)) as (e & Hek & He').
    unfold fill_activation. rewrite Hbk, Hek. cbn [py_bind]. f_equal.
    rewrite (firstn_S_nth_error _ _ _ (nth_error_combine _ _ _ _ _ Hb' He')).
    apply nth_ext with (d := 0) (d' := 0);
      rewrite ?length_np_fill_slice, ?length_map, ?length_seq; [reflexivity|].
    intros i Hi. rewrite nth_np_fill_slice by (rewrite length_map, length_seq; exact Hi).
    rewrite !nth_map_seq by exact Hi. rewrite existsb_app. cbn [existsb fst snd].
    destruct ((b <=? i)%nat && (i <? e)%nat)%bool; now destruct (existsb _ _).
Qed.

(** The fill loop raises IndexError when the detector reports fewer ends
    than begins. *)
Lemma fill_activation_short (mx : R) (begins ends : list nat) (n : nat) :
  (length ends < length begins)%nat ->
  py_foldl (fill_activation mx begins ends) (seq 0 (length begins)) (repeat 0 n) = Raise IndexError.
Proof.
  intros Hlt. replace (length begins) with (length ends + S (length begins - S (length ends)))%nat
    by lia.
  rewrite seq_app, py_foldl_app, fill_activation_prefix by lia. cbn [py_bind seq Nat.add py_foldl].
  destruct (py_index_ok IndexError begins (length ends) Hlt) as (b & Hb & _).
  unfold fill_activation. rewrite Hb, py_index_out by lia. reflexivity.
Qed.

Lemma fill_activation_all (mx : R) (begins ends : list nat) (n : nat) :
  (length begins <= length ends)%nat ->
  py_foldl (fill_activation mx begins ends) (seq 0 (length begins)) (repeat 0 n) =
  Ret (activation_signal mx begins ends n).
Proof.
  intros Hle. rewrite fill_activation_prefix by lia. rewrite firstn_all2; [reflexivity|].
  rewrite length_combine. lia.
Qed.

(** Lines 323-332: the fill loop of [detection] draws the activations the
    detector reports (see [fill_activation_all]). *)
Section DetectionLemmas.
Variable detect_emg_activations : list R -> Z -> Z -> Z -> list nat * list nat * list R * R.
Variables (signal : list R) (sample_rate sl tl : Z) (n : nat).
Variables (begins ends : list nat) (smooth_signal : list R) (threshold_level mx ms : R).
Hypothesis Hdet : detect_emg_activations signal sample_rate sl tl =
                  (begins, ends, smooth_signal, threshold_level).
Hypothesis Hmx : np_max ValueError signal = Ret mx.
Hypothesis Hms : np_max ValueError smooth_signal = Ret ms.

Lemma detection_loop :
  detection detect_emg_activations signal sample_rate sl tl n =
  act <- py_foldl (fill_activation mx begins ends) (seq 0 (length begins)) (repeat 0 n) ;;
  Ret (map (fun v => mx * v / ms) smooth_signal, mx * threshold_level / ms, act).
Proof. unfold detection. rewrite Hdet, Hmx, Hms. reflexivity. Qed.

End DetectionLemmas.

(** C29: one detection of [plot_compare_act_config]: the smoothed signal
    and the threshold are rescaled by [max(signal) / max(smooth)], and
    the loop of slice assignments into [numpy.zeros(n)] yields the
    rectangular signal that is [max(signal)] exactly on the samples of
    some detected activation [begin[a] <= i < end[a]], 0 elsewhere; it
    raises IndexError when the detector reports fewer ends than begins. *)
Theorem detection_spec detect signal sample_rate sl tl n begins ends sm th mx ms :
  detect signal sample_rate sl tl = (begins, ends, sm, th) ->
  np_max ValueError signal = Ret mx -> np_max ValueError sm = Ret ms ->
  detection detect signal sample_rate sl tl n =
  if (length begins <=? length ends)%nat
  then Ret (map (fun v => mx * v / ms) sm, mx * th / ms, activation_signal mx begins ends n)
  else Raise IndexError.
Proof.
  intros Hdet Hmx Hms. rewrite (detection_loop _ _ _ _ _ _ _ _ _ _ _ _ Hdet Hmx Hms).
  destruct (Nat.leb_spec (length begins) (length ends)).
  - now rewrite fill_activation_all.
  - now rewrite fill_activation_short.
Qed.

Lemma detection_spec_witness :
  detection (fun _ _ _ _ => ([1%nat; 4%nat], [3%nat; 5%nat], [2; 4], 1)) [1; 2] 1000 20 10 6 =
  Ret (map (fun v => Rmax 1 2 * v / Rmax 2 4) [2; 4], Rmax 1 2 * 1 / Rmax 2 4,
       activation_signal (Rmax 1 2) [1%nat; 4%nat] [3%nat; 5%nat] 6) /\
  activation_signal (Rmax 1 2) [1%nat; 4%nat] [3%nat; 5%nat] 6 = [0; Rmax 1 2; Rmax 1 2; 0; Rmax 1 2; 0].
Proof.
  split; [|reflexivity].
  apply (detection_spec (fun _ _ _ _ => ([1%nat; 4%nat], [3%nat; 5%nat], [2; 4], 1)) [1; 2] 1000 20 10 6
           [1%nat; 4%nat] [3%nat; 5%nat] [2; 4] 1 (Rmax 1 2) (Rmax 2 4)); reflexivity.
Defined.

(** C30: with a non-zero sampling rate and the three detections done,
    [plot_compare_act_config] on the six figures of [plot] shows the
    3x2 grid whose row [j] draws the [j]-th setting: signal, smoothed
    signal and threshold on the left, signal and activations on the
    right, titled with the setting, the time label on the bottom row. *)
Theorem act_config_grid detect signal sample_rate p0 p1 p2 p3 p4 p5 sm1 th1 act1 sm2 th2 act2 sm3 th3 act3 :
  let time := firstn 14000 (linspace (fof_Z 0) (INR (length signal) / IZR sample_rate) (length signal)) in
  let sig := centre (firstn 14000 signal) in
  sample_rate <> 0%Z ->
  detection detect sig sample_rate 20 10 (length time) = Ret (sm1, th1, act1) ->
  detection detect sig sample_rate 20 50 (length time) = Ret (sm2, th2, act2) ->
  detection detect sig sample_rate 70 10 (length time) = Ret (sm3, th3, act3) ->
  exists r0 r1 r2,
    plot_compare_act_config detect [p0; p1; p2; p3; p4; p5] signal sample_rate = Ret (Grid [r0; r1; r2]) /\
    act_row_shows time sig 0 p0 p1 (sm1, th1, act1) r0 /\
    act_row_shows time sig 1 p2 p3 (sm2, th2, act2) r1 /\
    act_row_shows time sig 2 p4 p5 (sm3, th3, act3) r2.
Proof.
  intros time sig Hsr H1 H2 H3. unfold plot_compare_act_config, py_true_div.
  rewrite (proj2 (Z.eqb_neq _ _) Hsr). cbn [py_bind]. fold time sig. rewrite H1, H2, H3.
  cbn [py_bind]. clearbody time sig. do 3 eexists. split.
  - cbn -[line const_line set_y_label set_x_label set_title]. reflexivity.
  - repeat split; (do 2 eexists; split; [reflexivity|]);
      repeat split; cbn; rewrite <- ?app_assoc; reflexivity.
Qed.

(** The detection results under their setting, as the dict of lines
    369-377 holds them. *)
Definition detect_dict_of (d1 d2 d3 : detect_entry) : list (string * detect_entry) :=
  combine combination [d1; d2; d3].

Lemma act_plot_step_ok time sig d1 d2 d3 figs i :
  (i < 6)%nat -> (i < length figs)%nat ->
  exists f, act_plot_step time sig (detect_dict_of d1 d2 d3) figs i = Ret (update_nth figs i (fun _ => f)).
Proof.
  intros Hi Hf. destruct (py_index_ok IndexError figs i Hf) as (p & Hp & _).
  destruct d1 as [[sm1 th1] act1], d2 as [[sm2 th2] act2], d3 as [[sm3 th3] act3].
  unfold act_plot_step. rewrite Hp.
  do 6 (destruct i as [|i]; [cbn [py_index nth_error combination Nat.div Nat.divmod fst py_bind]; eexists;
                             reflexivity|]).
  lia.
Qed.

Lemma act_plot_loop time sig d1 d2 d3 figs k :
  (k <= 6)%nat -> (k <= length figs)%nat ->
  exists figs', py_foldl (act_plot_step time sig (detect_dict_of d1 d2 d3)) (seq 0 k) figs = Ret figs' /\
                length figs' = length figs.
Proof.
  induction k as [|k IH]; intros Hk Hf; [eexists; split; reflexivity|].
  destruct IH as (figs' & Hrun & Hlen); [lia|lia|].
  destruct (act_plot_step_ok time sig d1 d2 d3 figs' k ltac:(lia) ltac:(lia)) as (f & Hs).
  rewrite seq_S, py_foldl_app, Hrun. cbn [py_bind py_foldl Nat.add]. rewrite Hs.
  eexists; split; [reflexivity|]. now rewrite length_update_nth.
Qed.

Lemma six_indices_short {A : Type} (figs : list A) (k : A -> A -> A -> A -> A -> A -> layout) :
  (length figs < 6)%nat ->
  (p0 <- py_index IndexError figs 0 ;; p1 <- py_index IndexError figs 1 ;;
   p2 <- py_index IndexError figs 2 ;; p3 <- py_index IndexError figs 3 ;;
   p4 <- py_index IndexError figs 4 ;; p5 <- py_index IndexError figs 5 ;; Ret (k p0 p1 p2 p3 p4 p5))
  = Raise IndexError.
Proof.
  intros Hl. do 6 (destruct figs as [|? figs]; [reflexivity|]). cbn in Hl. lia.
Qed.



(** A detector that finds no activation and a smoothed signal [[1]]. *)
Definition no_activation (_ : list R) (_ _ _ : Z) : list nat * list nat * list R * R :=
  ([], [], [1], 1).

Lemma act_config_grid_witness :
  let b := titled_figure "" "" "" in
  let time := firstn 14000 (linspace (fof_Z 0) (INR 2 / IZR 1000) 2) in
  let sig := centre (firstn 14000 [1; 2]) in
  exists sm th act,
    detection no_activation sig 1000 20 10 (length time) = Ret (sm, th, act) /\
    exists r0 r1 r2, plot_compare_act_config no_activation [b; b; b; b; b; b] [1; 2] 1000 = Ret (Grid [r0; r1; r2]) /\
    act_row_shows time sig 0 b b (sm, th, act) r0 /\ act_row_shows time sig 1 b b (sm, th, act) r1 /\
    act_row_shows time sig 2 b b (sm, th, act) r2.
Proof.
  intros b time sig. do 3 eexists. split; [reflexivity|].
  apply (act_config_grid no_activation [1; 2] 1000 b b b b b b); [discriminate|reflexivity..].
Defined.

(** ** plot_median_freq_evol *)

Lemma median_freq_step_ok palette sample_rate begins ends p g0 g1 rest k b e :
  sample_rate <> 0%Z -> nth_error begins k = Some b -> nth_error ends k = Some e ->
  median_freq_step palette sample_rate begins ends (p, g0 :: g1 :: rest) k =
  let box := Box (INR b / IZR sample_rate) (INR e / IZR sample_rate) None None (palette p) (1 / 10) in
  Ret (S p, add_layout g0 box :: add_layout g1 box :: rest).
Proof.
  intros Hsr Hb He. unfold median_freq_step, py_index, py_true_div.
  rewrite Hb, He, (proj2 (Z.eqb_neq _ _) Hsr). reflexivity.
Qed.

Lemma nth_error_activation_boxes palette pos sample_rate begins ends k b e :
  nth_error begins k = Some b -> nth_error ends k = Some e ->
  nth_error (activation_boxes palette pos sample_rate begins ends) k =
  Some (Box (INR b / IZR sample_rate) (INR e / IZR sample_rate) None None (palette (pos + k)%nat) (1 / 10)).
Proof.
  intros Hb He. unfold activation_boxes. rewrite nth_error_map, nth_error_seq.
  assert (Hk : (k < length begins)%nat) by (apply nth_error_Some; congruence).
  apply Nat.ltb_lt in Hk. rewrite Hk. cbn.
  now erewrite (nth_error_nth begins), (nth_error_nth ends) by eassumption.
Qed.

(** After [k] iterations both figures carry the first [k] boxes. *)
Lemma median_freq_loop palette pos sample_rate begins ends f0 f1 rest k :
  sample_rate <> 0%Z -> (k <= length begins)%nat -> (k <= length ends)%nat ->
  let boxes := firstn k (activation_boxes palette pos sample_rate begins ends) in
  py_foldl (median_freq_step palette sample_rate begins ends) (seq 0 k) (pos, f0 :: f1 :: rest) =
  Ret ((pos + k)%nat, fold_left add_layout boxes f0 :: fold_left add_layout boxes f1 :: rest).
Proof.
  intros Hsr. induction k as [|k IH]; intros Hk He boxes.
  { cbn. now rewrite Nat.add_0_r. }
  destruct (nth_error_lt begins k ltac:(lia)) as (b & Hb).
  destruct (nth_error_lt ends k ltac:(lia)) as (e & Hee).
  subst boxes. rewrite seq_S, py_foldl_app, IH by lia. cbn [Nat.add py_bind py_foldl].
  rewrite (median_freq_step_ok _ _ _ _ _ _ _ _ _ _ _ Hsr Hb Hee). cbn zeta.
  rewrite (firstn_S_nth_error _ _ _ (nth_error_activation_boxes _ _ _ _ _ _ _ _ Hb Hee)).
  rewrite !fold_left_app. cbn [fold_left py_bind]. now rewrite Nat.add_succ_r.
Qed.

Lemma fold_add_layout_layouts (boxes : list annotation) (f : figure) :
  layouts (fold_left add_layout boxes f) = layouts f ++ boxes /\
  glyphs (fold_left add_layout boxes f) = glyphs f /\ title (fold_left add_layout boxes f) = title f.
Proof.
  revert f; induction boxes as [|a r IH]; intros f; [now rewrite app_nil_r|].
  cbn [fold_left]. destruct (IH (add_layout f a)) as (H1 & H2 & H3).
  rewrite H1, H2, H3, layouts_add_layout, <- app_assoc. now split.
Qed.

(** C32: [plot_median_freq_evol] with a non-zero sampling rate, at least as
    many ends as begins and the two figures of [plot], shows both figures
    with one box per activation added, in order, from [begin[a] /
    sample_rate] to [end[a] / sample_rate] seconds, in the consecutive
    palette colours from [pos]: the same boxes on both, so that the
    activations line up on the two time axes; the palette moves on by the
    number of activations. *)
Theorem median_freq_boxes plot2 palette pos time_signal signal time_median_freq median_freq
        begins ends sample_rate f0 f1 rest :
  sample_rate <> 0%Z -> (length begins <= length ends)%nat ->
  plot2 time_signal time_median_freq signal median_freq = f0 :: f1 :: rest ->
  let boxes := activation_boxes palette pos sample_rate begins ends in
  exists g0 g1,
    plot_median_freq_evol plot2 palette pos time_signal signal time_median_freq median_freq
      begins ends sample_rate = Ret (Grid [[g0]; [g1]], (pos + length begins)%nat) /\
    layouts g0 = layouts f0 ++ boxes /\ layouts g1 = layouts f1 ++ boxes /\
    glyphs g0 = glyphs f0 /\ glyphs g1 = glyphs f1 /\ title g0 = title f0 /\ title g1 = title f1.
Proof.
  intros Hsr Hle Hplot boxes. unfold plot_median_freq_evol. rewrite Hplot.
  rewrite median_freq_loop by (assumption || lia). cbn [py_bind py_index nth_error].
  rewrite firstn_all2 by (unfold activation_boxes; rewrite length_map, length_seq; lia).
  destruct (fold_add_layout_layouts boxes f0) as (H0 & G0 & T0).
  destruct (fold_add_layout_layouts boxes f1) as (H1 & G1 & T1).
  do 2 eexists. split; [reflexivity|]. repeat split; assumption.
Qed.

Lemma median_freq_boxes_witness :
  exists g0 g1,
    plot_median_freq_evol (fun _ _ _ _ => [titled_figure "" "" ""; titled_figure "" "" ""])
      (fun _ => "#009EE3"%string) 0 [] [] [] [] [1%nat] [3%nat] 1000 =
    Ret (Grid [[g0]; [g1]], 1%nat) /\
    layouts g0 = [] ++ activation_boxes (fun _ => "#009EE3"%string) 0 1000 [1%nat] [3%nat] /\
    layouts g1 = [] ++ activation_boxes (fun _ => "#009EE3"%string) 0 1000 [1%nat] [3%nat] /\
    glyphs g0 = [] /\ glyphs g1 = [] /\ title g0 = Some ""%string /\ title g1 = Some ""%string.
Proof.
  apply (median_freq_boxes (fun _ _ _ _ => [titled_figure "" "" ""; titled_figure "" "" ""])
           (fun _ => "#009EE3"%string) 0 [] [] [] [] [1%nat] [3%nat] 1000
           (titled_figure "" "" "") (titled_figure "" "" "") []);
    [discriminate|cbn; lia|reflexivity].
Defined.

(** C33: the errors of [plot_median_freq_evol]: with a sampling rate of 0
    the first activation raises ZeroDivisionError; with fewer ends than
    begins the first begin without an end raises IndexError. With no
    activation nothing is divided, so a zero rate goes unnoticed. *)
Theorem median_freq_errors plot2 palette pos time_signal signal time_median_freq median_freq
        begins ends sample_rate f0 f1 rest :
  plot2 time_signal time_median_freq signal median_freq = f0 :: f1 :: rest ->
  (sample_rate = 0%Z -> begins <> [] ->
   plot_median_freq_evol plot2 palette pos time_signal signal time_median_freq median_freq
     begins ends sample_rate = Raise ZeroDivisionError) /\
  (sample_rate <> 0%Z -> (length ends < length begins)%nat ->
   plot_median_freq_evol plot2 palette pos time_signal signal time_median_freq median_freq
     begins ends sample_rate = Raise IndexError) /\
  (begins = [] ->
   plot_median_freq_evol plot2 palette pos time_signal signal time_median_freq median_freq
     begins ends sample_rate = Ret (Grid [[f0]; [f1]], pos)).
Proof.
  intros Hplot. unfold plot_median_freq_evol. rewrite Hplot. split; [|split].
  - intros -> Hb. destruct begins as [|b bs]; [contradiction|]. reflexivity.
  - intros Hsr Hlt. replace (length begins) with (length ends + S (length begins - S (length ends)))%nat
      by lia.
    rewrite seq_app, py_foldl_app, median_freq_loop by (assumption || lia).
    cbn [py_bind seq Nat.add py_foldl].
    destruct (nth_error_lt begins (length ends) Hlt) as (b & Hb).
    unfold median_freq_step, py_index, py_true_div.
    rewrite Hb, (proj2 (nth_error_None ends (length ends)) (le_n _)), (proj2 (Z.eqb_neq _ _) Hsr).
    reflexivity.
  - intros ->. reflexivity.
Qed.

Lemma median_freq_errors_witness :
  plot_median_freq_evol (fun _ _ _ _ => [titled_figure "" "" ""; titled_figure "" "" ""])
    (fun _ => "#009EE3"%string) 0 [] [] [] [] [1%nat] [] 0 = Raise ZeroDivisionError.
Proof.
  apply (median_freq_errors (fun _ _ _ _ => [titled_figure "" "" ""; titled_figure "" "" ""])
           (fun _ => "#009EE3"%string) 0 [] [] [] [] [1%nat] [] 0
           (titled_figure "" "" "") (titled_figure "" "" "") []); [reflexivity|reflexivity|discriminate].
Defined.

Ltac fold_detect_dict d1 d2 d3 :=
  lazymatch goal with
  | |- context [py_foldl (act_plot_step ?t ?s ?dd) ?l ?f] =>
      change (py_foldl (act_plot_step t s dd) l f)
        with (py_foldl (act_plot_step t s (detect_dict_of d1 d2 d3)) l f)
  end.

(** C31: [plot_compare_act_config] raises ZeroDivisionError for a zero
    sampling rate, in [len(signal) / sample_rate]; with a non-zero rate
    and the three detections done, it raises IndexError unless [plot]
    returns exactly six figures: with fewer, [plot_list[k]] of the grid
    is past the end; with more, [combination[int(plot_aux / 2)]] is, at
    the seventh figure. *)
Theorem act_config_errors detect plot_list signal sample_rate sm1 th1 act1 sm2 th2 act2 sm3 th3 act3 :
  let time := firstn 14000 (linspace (fof_Z 0) (INR (length signal) / IZR sample_rate) (length signal)) in
  let sig := centre (firstn 14000 signal) in
  (sample_rate = 0%Z ->
   plot_compare_act_config detect plot_list signal sample_rate = Raise ZeroDivisionError) /\
  (sample_rate <> 0%Z ->
   detection detect sig sample_rate 20 10 (length time) = Ret (sm1, th1, act1) ->
   detection detect sig sample_rate 20 50 (length time) = Ret (sm2, th2, act2) ->
   detection detect sig sample_rate 70 10 (length time) = Ret (sm3, th3, act3) ->
   length plot_list <> 6%nat ->
   plot_compare_act_config detect plot_list signal sample_rate = Raise IndexError).
Proof.
  intros time sig. split; [intros ->; reflexivity|]. intros Hsr H1 H2 H3 H6.
  unfold plot_compare_act_config, py_true_div. rewrite (proj2 (Z.eqb_neq _ _) Hsr).
  cbn [py_bind]. fold time sig. rewrite H1, H2, H3. cbn [py_bind].
  fold_detect_dict (sm1, th1, act1) (sm2, th2, act2) (sm3, th3, act3).
  destruct (Nat.ltb_spec (length plot_list) 6) as [Hlt|Hge].
  - destruct (act_plot_loop time sig (sm1, th1, act1) (sm2, th2, act2) (sm3, th3, act3) plot_list
                (length plot_list) ltac:(lia) ltac:(lia)) as (figs & Hrun & Hlen).
    rewrite Hrun. cbn [py_bind]. apply six_indices_short. lia.
  - replace (length plot_list) with (6 + S (length plot_list - 7))%nat by lia.
    rewrite seq_app, py_foldl_app.
    destruct (act_plot_loop time sig (sm1, th1, act1) (sm2, th2, act2) (sm3, th3, act3) plot_list
                6 ltac:(lia) ltac:(lia)) as (figs & Hrun & _).
    rewrite Hrun. reflexivity.
Qed.

Lemma act_config_errors_witness :
  plot_compare_act_config no_activation [] [1; 2] 1000 = Raise IndexError /\
  plot_compare_act_config no_activation [] [1; 2] 0 = Raise ZeroDivisionError.
Proof.
  split.
  - eapply (proj2 (act_config_errors no_activation [] [1; 2] 1000 _ _ _ _ _ _ _ _ _));
      [discriminate|reflexivity|reflexivity|reflexivity|discriminate].
  - exact (proj1 (act_config_errors no_activation [] [1; 2] 0 [] 0 [] [] 0 [] [] 0 []) eq_refl).
Defined.

End Emg.
