(* ===== verification/Notebook.v ===== *)
(** * Notebook: the style sheet the notebooks load

    [css_style_apply()] (__notebook_support__.py, lines 73-106) reads
    [styles/theme_style.css], or [../../styles/theme_style.css] when the
    first does not exist, prints a banner and returns the HTML that
    embeds the style.  The file system is a function from paths to
    contents ([None] for a missing file); [open] of a missing file raises
    FileNotFoundError. *)

From Stdlib Require Import String List.
From S2P Require Import Prelude.
Import ListNotations.

Module Notebook.

Inductive io_error : Type :=
| FileNotFoundError.

Local Open Scope string_scope.
Local Open Scope py_scope.

Definition file_system : Type := string -> option string.

(** [os.path.exists(path)] *)
Definition pathexist (fs : file_system) (path : string) : bool :=
  match fs path with Some _ => true | None => false end.

(** [open(path, "r").read()] *)
Definition read_file (fs : file_system) (path : string) : py_result io_error string :=
  match fs path with Some s => Ret s | None => Raise FileNotFoundError end.

Definition banner : string :=
  ".................... CSS Style Applied to Jupyter Notebook .........................".

(** [css_style_apply()]: the lines printed and the HTML returned. *)
Definition css_style_apply (fs : file_system) : py_result io_error (list string * string) :=
  let path := "styles/theme_style.css" in
  style <- (if pathexist fs path then read_file fs path else read_file fs ("../../" ++ path)) ;;
  Ret ([banner], "<div id='style_import'>" ++ style ++ "</div>").

(** The style embedded is the local sheet when there is one, else the one
    two directories up; the function raises only when the second is
    missing too. *)
Lemma css_style_apply_spec (fs : file_system) :
  css_style_apply fs =
  match fs "styles/theme_style.css", fs "../../styles/theme_style.css" with
  | Some s, _ | None, Some s => Ret ([banner], "<div id='style_import'>" ++ s ++ "</div>")
  | None, None => Raise FileNotFoundError
  end.
Proof.
  unfold css_style_apply, pathexist, read_file. cbn [append].
  destruct (fs "styles/theme_style.css"), (fs "../../styles/theme_style.css"); reflexivity.
Qed.

End Notebook.
