(* ===== verification/Package.v ===== *)
(** * Package: what [import biosignalsnotebooks] does

    __init__.py (lines 67-79) is a sequence of star imports of the
    package's submodules, [__notebook_support__] among them, with
    [synchronisation] imported twice.  Importing the package therefore
    runs Python's import system over the module graph: the module bodies
    of conversion.py (line 25 and its two [def]s) and of
    __notebook_support__.py (lines 53-70 and its eleven [def]s), whose
    imports reach back into the package, and the bodies of the modules
    outside the sources, which are a parameter ([world]).

    The model follows importlib: a module name is a list of components;
    [sys.modules] maps a dotted name to the module's globals; importing
    [a.b.c] imports [a], [a.b] and [a.b.c] in turn; a module not yet in
    [sys.modules] is found ([ModuleNotFoundError] otherwise), registered
    in [sys.modules] {i before} its body runs (so that a cycle of imports
    sees the partly initialised module instead of running it again), and
    bound as an attribute of its parent once its body has run.  [from m
    import x as y] reads [x] from [m]'s globals, falling back on the
    submodule [m.x] ([ImportError] when neither exists); [from m import
    *] binds every public name (not starting with an underscore) of [m]'s
    globals; a call at the top level of a module is recorded in a trace
    with the object called.  Objects are identified by the module that
    defined them.  Recursion through imports is bounded by fuel, and
    running out of it is an outcome of its own, apart from Python's
    errors.  [__all__], which none of the three source files defines, and
    the import of [builtins] are not modelled. *)

From Stdlib Require Import String Ascii List Bool Lia Arith.
From S2P Require Import Prelude.
Import ListNotations.

Module Package.

Local Open Scope string_scope.
Local Open Scope py_scope.

(** A module name, [["bokeh"; "io"]] for [bokeh.io]. *)
Definition modname : Type := list string.

Definition dotted (m : modname) : string := String.concat "." m.

(** A module object, or the object a [def] (or an assignment) of module
    [m] bound to the name [n]. *)
Inductive pyobj : Type :=
| ModuleObj (m : string)
| Defined (m n : string).

(** The top-level statements of a module body. *)
Inductive stmt : Type :=
| SImport (m : modname) (asname : option string)          (** [import m] / [import m as a] *)
| SFromImport (m : modname) (names : list (string * string)) (** [from m import x as y, ...] *)
| SFromImportStar (m : modname)                            (** [from m import *] *)
| SDef (n : string)                                        (** [def n(...): ...] *)
| SCall (f : string) (args : string).                      (** [f(args)] *)

Inductive import_error : Type :=
| ModuleNotFoundError (m : string)
| ImportError (m n : string)
| NameError (n : string)
| OutOfFuel.

(** [sys.modules] with each module's globals, and the calls made so far. *)
Record interp : Type := Interp {
  sys_modules : list (string * list (string * pyobj));
  trace : list (pyobj * string)
}.

Definition empty_interp : interp := Interp [] [].

Definition globals (st : interp) (m : string) : list (string * pyobj) :=
  match dict_get (sys_modules st) m with Some g => g | None => [] end.

Definition loaded (st : interp) (m : string) : bool :=
  match dict_get (sys_modules st) m with Some _ => true | None => false end.

(** [name = obj] in the globals of module [cur]. *)
Definition bind (st : interp) (cur n : string) (o : pyobj) : interp :=
  Interp (dict_set (sys_modules st) cur (dict_set (globals st cur) n o)) (trace st).

(** A name [from m import *] exports: one not starting with an underscore. *)
Definition is_public (n : string) : bool :=
  match n with
  | String c _ => negb (Ascii.eqb c "_"%char)
  | EmptyString => true
  end.

(** [from m import *] once [m] is imported: every public name of [m]'s
    globals, in their order. *)
Definition star_bind (st : interp) (cur m : string) : interp :=
  fold_left (fun st no => if is_public (fst no) then bind st cur (fst no) (snd no) else st)
            (globals st m) st.

(** [sys.modules[m] = module] before the body runs. *)
Definition add_module (st : interp) (m : string) : interp :=
  Interp (dict_set (sys_modules st) m []) (trace st).

(** [setattr(sys.modules[parent], child, module)] after the body of
    [parent.child] ran (the parent, imported first, is in [sys.modules]). *)
Definition bind_parent (st : interp) (m : modname) : interp :=
  match rev m with
  | child :: (_ :: _) as rparent =>
      let parent := dotted (rev rparent) in
      if loaded st parent then bind st parent child (ModuleObj (dotted m)) else st
  | _ => st
  end.

(** [a], [a.b], [a.b.c] for [a.b.c]. *)
Definition prefixes (m : modname) : list modname := map (fun k => firstn k m) (seq 1 (length m)).

(** Importing [m] with the loader of a single module. *)
Definition import_with (load : modname -> interp -> py_result import_error interp)
           (m : modname) (st : interp) : py_result import_error interp :=
  py_foldl (fun st p => load p st) (prefixes m) st.

(** [from m import x as y]: the attribute, else the submodule [m.x]. *)
Definition from_import_one (imp : modname -> interp -> py_result import_error interp)
           (m : modname) (cur : string) (st : interp) (xy : string * string)
  : py_result import_error interp :=
  let (x, y) := xy in
  match dict_get (globals st (dotted m)) x with
  | Some o => Ret (bind st cur y o)
  | None =>
      match imp (m ++ [x])%list st with
      | Ret st' =>
          match dict_get (globals st' (dotted m)) x with
          | Some o => Ret (bind st' cur y o)
          | None => Raise (ImportError (dotted m) x)
          end
      | Raise (ModuleNotFoundError n) =>
          if String.eqb n (dotted (m ++ [x])%list) then Raise (ImportError (dotted m) x)
          else Raise (ModuleNotFoundError n)
      | Raise e => Raise e
      end
  end.

(** One top-level statement of module [cur]. *)
Definition exec_stmt (imp : modname -> interp -> py_result import_error interp)
           (cur : string) (st : interp) (s : stmt) : py_result import_error interp :=
  match s with
  | SImport m None =>
      st <- imp m st ;; let top := firstn 1 m in Ret (bind st cur (dotted top) (ModuleObj (dotted top)))
  | SImport m (Some a) => st <- imp m st ;; Ret (bind st cur a (ModuleObj (dotted m)))
  | SFromImport m names => st <- imp m st ;; py_foldl (from_import_one imp m cur) names st
  | SFromImportStar m => st <- imp m st ;; Ret (star_bind st cur (dotted m))
  | SDef n => Ret (bind st cur n (Defined cur n))
  | SCall f args =>
      match dict_get (globals st cur) f with
      | Some o => Ret (Interp (sys_modules st) (trace st ++ [(o, args)]))
      | None => Raise (NameError f)
      end
  end.

(** ** The three source modules *)

Definition bsn : string := "biosignalsnotebooks".

(** __init__.py, line 78: [synchronisation] a second time *)
Definition sync_reimport : stmt := SFromImportStar [bsn; "synchronisation"].

(** __init__.py, lines 67-79 *)
Definition init_body : list stmt :=
  [SFromImportStar [bsn; "conversion"]; SFromImportStar [bsn; "detect"];
   SFromImportStar [bsn; "extract"]; SFromImportStar [bsn; "load"];
   SFromImportStar [bsn; "process"]; SFromImportStar [bsn; "visualise"];
   SFromImportStar [bsn; "signal_samples"]; SFromImportStar [bsn; "factory"];
   SFromImportStar [bsn; "synchronisation"]; SFromImportStar [bsn; "train_and_classify"];
   SFromImportStar [bsn; "__notebook_support__"]; sync_reimport;
   SFromImportStar [bsn; "android"]].

(** conversion.py: line 25 and the two [def]s (lines 28 and 205) *)
Definition conversion_body : list stmt :=
  [SImport ["numpy"] None; SDef "raw_to_phy"; SDef "generate_time"].

(** __notebook_support__.py, lines 53-69: its imports *)
Definition notebook_imports : list stmt :=
  [SFromImport ["os"; "path"] [("exists", "pathexist")];
   SImport ["numpy"] None;
   SFromImport [bsn; "process"] [("smooth", "smooth")];
   SFromImport [bsn; "visualise"] [("plot", "plot"); ("opensignals_kwargs", "opensignals_kwargs");
                                   ("opensignals_color_pallet", "opensignals_color_pallet");
                                   ("opensignals_style", "opensignals_style")];
   SFromImport [bsn; "detect"] [("detect_emg_activations", "detect_emg_activations")];
   SFromImport [bsn; "aux_functions"] [("_generate_bokeh_file", "_generate_bokeh_file")];
   SFromImport ["IPython"; "core"; "display"] [("HTML", "HTML")];
   SFromImport ["bokeh"; "plotting"] [("figure", "figure"); ("show", "show"); ("save", "save")];
   SFromImport ["bokeh"; "models"; "annotations"] [("Title", "Title")];
   SFromImport ["bokeh"; "io"] [("output_notebook", "output_notebook")];
   SFromImport ["bokeh"; "layouts"] [("gridplot", "gridplot")];
   SFromImport ["bokeh"; "models"] [("BoxAnnotation", "BoxAnnotation"); ("Arrow", "Arrow");
                                    ("VeeHead", "VeeHead")];
   SFromImport [bsn; "external_packages"; "novainstrumentation"; "freq_analysis"]
               [("max_frequency", "max_frequency"); ("plotfft", "plotfft")];
   SFromImport [bsn; "external_packages"; "novainstrumentation"; "filter"] [("bandpass", "bandpass")]].

(** Line 70 *)
Definition output_notebook_call : stmt := SCall "output_notebook" "hide_banner=True".

(** Its eleven [def]s (lines 73-1085) *)
Definition notebook_defs : list stmt :=
  map SDef ["css_style_apply"; "plot_sample_rate_compare"; "acquire_subsamples_gp1";
            "plot_compare_act_config"; "plot_median_freq_evol"; "plot_informational_band";
            "plot_before_after_filter"; "plot_low_pass_filter_response"; "plot_resp_slow";
            "plot_resp_diff"; "_inhal_exhal_segments"].

Definition notebook_body : list stmt := notebook_imports ++ [output_notebook_call] ++ notebook_defs.

Definition nb_module : modname := [bsn; "__notebook_support__"].

Section Import.
(** The bodies of the modules outside the sources ([None]: no such module). *)
Variable world : modname -> option (list stmt).

Definition source (m : modname) : option (list stmt) :=
  if list_eq_dec string_dec m [bsn] then Some init_body
  else if list_eq_dec string_dec m [bsn; "conversion"] then Some conversion_body
  else if list_eq_dec string_dec m nb_module then Some notebook_body
  else world m.

(** Loading one module (importlib's [_find_and_load] once its parent is
    imported): nothing if it is in [sys.modules], else find it, register
    it, run its body, bind it in its parent. *)
Fixpoint load_one (fuel : nat) (m : modname) (st : interp) : py_result import_error interp :=
  if loaded st (dotted m) then Ret st else
  match source m with
  | None => Raise (ModuleNotFoundError (dotted m))
  | Some body =>
      match fuel with
      | O => Raise OutOfFuel
      | S f =>
          st <- py_foldl (exec_stmt (import_with (load_one f)) (dotted m)) body
                         (add_module st (dotted m)) ;;
          Ret (bind_parent st m)
      end
  end.

(** [import m] *)
Definition import_module (fuel : nat) (m : modname) (st : interp) : py_result import_error interp :=
  import_with (load_one fuel) m st.

(** [import biosignalsnotebooks] in a fresh interpreter. *)
Definition import_package (fuel : nat) : py_result import_error interp :=
  import_module fuel [bsn] empty_interp.

End Import.

(** ** What every step of the interpreter preserves *)

Lemma load_one_eq world fuel m st :
  load_one world fuel m st =
  if loaded st (dotted m) then Ret st else
  match source world m with
  | None => Raise (ModuleNotFoundError (dotted m))
  | Some body =>
      match fuel with
      | O => Raise OutOfFuel
      | S f =>
          st <- py_foldl (exec_stmt (import_with (load_one world f)) (dotted m)) body
                         (add_module st (dotted m)) ;;
          Ret (bind_parent st m)
      end
  end.
Proof. destruct fuel; reflexivity. Qed.

Section Preserve.
Variable world : modname -> option (list stmt).
(** A relation between interpreter states that every primitive update
    respects: binding a name, registering a module, recording a call. *)
Variable Rel : interp -> interp -> Prop.
Hypothesis Rel_refl : forall st, Rel st st.
Hypothesis Rel_trans : forall a b c, Rel a b -> Rel b c -> Rel a c.
Hypothesis Rel_bind : forall st cur n o, Rel st (bind st cur n o).
(** [load_one] registers only a module not yet in [sys.modules]. *)
Hypothesis Rel_add : forall st m, loaded st m = false -> Rel st (add_module st m).
Hypothesis Rel_call : forall st x, Rel st (Interp (sys_modules st) (trace st ++ [x])).

Definition rel_loader (imp : modname -> interp -> py_result import_error interp) : Prop :=
  forall m st st', imp m st = Ret st' -> Rel st st'.

Lemma foldl_rel {A : Type} (step : interp -> A -> py_result import_error interp) l st st' :
  (forall st0 x st1, step st0 x = Ret st1 -> Rel st0 st1) ->
  py_foldl step l st = Ret st' -> Rel st st'.
Proof.
  intros Hstep. apply (py_foldl_invariant (Rel st)); [apply Rel_refl|].
  intros b0 x b1 H0 H1. exact (Rel_trans _ _ _ H0 (Hstep _ _ _ H1)).
Qed.

Lemma star_bind_rel st cur m : Rel st (star_bind st cur m).
Proof.
  unfold star_bind. generalize (globals st m) as l. intros l. revert st.
  induction l as [|[n o] r IH]; intros st; cbn; [apply Rel_refl|].
  destruct (is_public n); [|apply IH]. exact (Rel_trans _ _ _ (Rel_bind st cur n o) (IH _)).
Qed.

Lemma bind_parent_rel st m : Rel st (bind_parent st m).
Proof. unfold bind_parent. destruct (rev m) as [|c [|p r]]; auto. destruct (loaded _ _); auto. Qed.

Lemma from_import_one_rel imp m cur st xy st' :
  rel_loader imp -> from_import_one imp m cur st xy = Ret st' -> Rel st st'.
Proof.
  intros Himp. destruct xy as [x y]. unfold from_import_one.
  destruct (dict_get (globals st (dotted m)) x); [intros [= <-]; apply Rel_bind|].
  destruct (imp (m ++ [x])%list st) as [e|st1] eqn:Hi.
  - destruct e; try destruct (String.eqb _ _); discriminate.
  - destruct (dict_get (globals st1 (dotted m)) x); [|discriminate]. intros [= <-].
    exact (Rel_trans _ _ _ (Himp _ _ _ Hi) (Rel_bind _ _ _ _)).
Qed.

Lemma exec_stmt_rel imp cur st s st' :
  rel_loader imp -> exec_stmt imp cur st s = Ret st' -> Rel st st'.
Proof.
  intros Himp. destruct s as [m [a|]|m names|m|n|f args]; cbn.
  1-4: intros H; apply py_bind_Ret_inv in H as (st1 & H1 & H2);
       apply (Rel_trans _ st1); [exact (Himp _ _ _ H1)|].
  - injection H2 as <-. apply Rel_bind.
  - injection H2 as <-. apply Rel_bind.
  - revert H2. apply foldl_rel. intros st0 x st2. now apply from_import_one_rel.
  - injection H2 as <-. apply star_bind_rel.
  - intros [= <-]. apply Rel_bind.
  - destruct (dict_get (globals st cur) f); [intros [= <-]; apply Rel_call|discriminate].
Qed.

Lemma import_with_rel load : rel_loader load -> rel_loader (import_with load).
Proof. intros Hl m st st'. apply foldl_rel. intros st0 p st1. apply Hl. Qed.

(** Every import that returns relates its start and end states. *)
Lemma load_one_rel fuel : rel_loader (load_one world fuel).
Proof.
  induction fuel as [|f IH]; intros m st st'; rewrite load_one_eq;
    destruct (loaded st (dotted m)) eqn:Hl; try (intros [= <-]; apply Rel_refl);
    destruct (source world m) as [body|]; try discriminate.
  intros H. apply py_bind_Ret_inv in H as (st1 & H1 & [= <-]).
  apply (Rel_trans _ (add_module st (dotted m))); [apply Rel_add, Hl|].
  apply (Rel_trans _ st1); [|apply bind_parent_rel].
  revert H1. apply foldl_rel. intros st0 s st2. apply exec_stmt_rel, import_with_rel, IH.
Qed.

Lemma import_module_rel fuel : rel_loader (import_module world fuel).
Proof. apply import_with_rel, load_one_rel. Qed.

End Preserve.

(** ** Loaded modules stay loaded *)

(** Every module in [sys.modules] in [st] is still there in [st']. *)
Definition mono (st st' : interp) : Prop :=
  forall k, loaded st k = true -> loaded st' k = true.

Lemma loaded_dict_set st k v k' :
  loaded st k' = true -> match dict_get (dict_set (sys_modules st) k v) k' with
                         | Some _ => true | None => false end = true.
Proof.
  unfold loaded. destruct (String.eqb_spec k k') as [<-|Hne].
  - now rewrite dict_get_set_same.
  - now rewrite dict_get_set_diff.
Qed.

Lemma mono_refl st : mono st st.
Proof. intros k H. exact H. Qed.

Lemma mono_trans a b c : mono a b -> mono b c -> mono a c.
Proof. intros H1 H2 k H. exact (H2 k (H1 k H)). Qed.

Lemma mono_bind st cur n o : mono st (bind st cur n o).
Proof. intros k H. exact (loaded_dict_set st cur _ k H). Qed.

Lemma mono_add st m : mono st (add_module st m).
Proof. intros k H. exact (loaded_dict_set st m _ k H). Qed.

Lemma mono_call st x : mono st (Interp (sys_modules st) (trace st ++ [x])).
Proof. intros k H. exact H. Qed.

#[local] Hint Resolve mono_refl mono_trans mono_bind mono_add mono_call : core.

Lemma load_one_mono world fuel m st st' : load_one world fuel m st = Ret st' -> mono st st'.
Proof. apply (load_one_rel world mono); eauto. Qed.

Lemma body_mono world f cur body st st' :
  py_foldl (exec_stmt (import_with (load_one world f)) cur) body st = Ret st' -> mono st st'.
Proof.
  apply (foldl_rel mono); eauto. intros st0 s st1.
  apply (exec_stmt_rel mono); eauto. apply (import_with_rel mono); eauto.
  intros m st2 st3. apply load_one_mono.
Qed.

Lemma mono_bind_parent st m : mono st (bind_parent st m).
Proof. apply (bind_parent_rel mono); eauto. Qed.

(** A module that [load_one] returns from is in [sys.modules]. *)
Lemma load_one_loaded world fuel m st st' :
  load_one world fuel m st = Ret st' -> loaded st' (dotted m) = true.
Proof.
  rewrite load_one_eq. destruct (loaded st (dotted m)) eqn:E; [now intros [= <-]|].
  destruct (source world m); [|discriminate]. destruct fuel as [|f]; [discriminate|].
  intros H. apply py_bind_Ret_inv in H as (st1 & H1 & [= <-]).
  apply mono_bind_parent, (body_mono _ _ _ _ _ _ H1).
  unfold loaded, add_module. cbn. now rewrite dict_get_set_same.
Qed.

(** ** Termination *)

Lemma filter_length_le {A : Type} (f g : A -> bool) l :
  (forall x, f x = true -> g x = true) -> length (filter f l) <= length (filter g l).
Proof.
  intros Hfg. induction l as [|x r IH]; cbn; [lia|].
  destruct (f x) eqn:Hf; [rewrite (Hfg x Hf); cbn; lia|]. destruct (g x); cbn; lia.
Qed.

Lemma filter_length_lt {A : Type} (f g : A -> bool) l a :
  (forall x, f x = true -> g x = true) -> In a l -> g a = true -> f a = false ->
  length (filter f l) < length (filter g l).
Proof.
  intros Hfg Ha Hg Hf. induction l as [|x r IH]; [contradiction|]. cbn.
  destruct Ha as [->|Ha].
  - rewrite Hf, Hg. cbn. pose proof (filter_length_le f g r Hfg). lia.
  - destruct (f x) eqn:Hfx; [rewrite (Hfg x Hfx); cbn; specialize (IH Ha); lia|].
    destruct (g x); cbn; specialize (IH Ha); lia.
Qed.

Section Termination.
Variable world : modname -> option (list stmt).
(** The modules that can be found. *)
Variable U : list modname.
Hypothesis HU : forall m body, source world m = Some body -> In m U.

(** The modules that can still be loaded: the measure of an import. *)
Definition unloaded_count (st : interp) : nat :=
  length (filter (fun m => negb (loaded st (dotted m))) U).

Lemma unloaded_count_mono st st' : mono st st' -> unloaded_count st' <= unloaded_count st.
Proof.
  intros H. apply filter_length_le. intros x. destruct (loaded st (dotted x)) eqn:E; [|auto].
  now rewrite (H _ E).
Qed.

Lemma unloaded_count_add st m body :
  source world m = Some body -> loaded st (dotted m) = false ->
  unloaded_count (add_module st (dotted m)) < unloaded_count st.
Proof.
  intros Hs Hl. apply filter_length_lt with (a := m); [|exact (HU m body Hs)|now rewrite Hl|].
  - intros x. destruct (loaded st (dotted x)) eqn:E; [|auto]. now rewrite (mono_add st _ _ E).
  - unfold loaded, add_module. cbn. now rewrite dict_get_set_same.
Qed.

(** A run that returns extends [sys.modules]; one that raises does not
    run out of fuel. *)
Definition fuel_ok (st : interp) (r : py_result import_error interp) : Prop :=
  match r with Ret st' => mono st st' | Raise e => e <> OutOfFuel end.

Definition loader_ok (imp : modname -> interp -> py_result import_error interp) (B : nat) : Prop :=
  forall m st, unloaded_count st <= B -> fuel_ok st (imp m st).

Lemma foldl_ok {A : Type} (step : interp -> A -> py_result import_error interp) l st B :
  unloaded_count st <= B ->
  (forall st0 x, unloaded_count st0 <= B -> fuel_ok st0 (step st0 x)) ->
  fuel_ok st (py_foldl step l st).
Proof.
  intros Hst Hstep. revert st Hst. induction l as [|x r IH]; intros st Hst; cbn; [apply mono_refl|].
  specialize (Hstep st x Hst). destruct (step st x) as [e|st1]; cbn; [exact Hstep|].
  pose proof (unloaded_count_mono _ _ Hstep) as Hc.
  specialize (IH st1 ltac:(lia)). destruct (py_foldl step r st1); cbn in *; eauto.
Qed.

Lemma fuel_ok_bind st c k :
  fuel_ok st c -> (forall st1, mono st st1 -> fuel_ok st (k st1)) -> fuel_ok st (py_bind c k).
Proof. destruct c as [e|st1]; cbn; auto. Qed.

Lemma from_import_one_ok imp B m cur st xy :
  loader_ok imp B -> unloaded_count st <= B -> fuel_ok st (from_import_one imp m cur st xy).
Proof.
  intros Himp Hst. destruct xy as [x y]. unfold from_import_one.
  destruct (dict_get (globals st (dotted m)) x); [apply mono_bind|].
  specialize (Himp (m ++ [x])%list st Hst). destruct (imp (m ++ [x])%list st) as [e|st1].
  - destruct e; cbn in *; try destruct (String.eqb _ _); cbn; congruence.
  - destruct (dict_get (globals st1 (dotted m)) x); cbn; [eauto|discriminate].
Qed.

Lemma exec_stmt_ok imp B cur st s :
  loader_ok imp B -> unloaded_count st <= B -> fuel_ok st (exec_stmt imp cur st s).
Proof.
  intros Himp Hst. destruct s as [m [a|]|m names|m|n|f args]; cbn.
  1-4: apply fuel_ok_bind; [exact (Himp m st Hst)|]; intros st1 H1.
  - cbn. eauto.
  - cbn. eauto.
  - pose proof (unloaded_count_mono _ _ H1).
    assert (Hf : fuel_ok st1 (py_foldl (from_import_one imp m cur) names st1))
      by (apply (foldl_ok _ _ _ B); [lia|]; intros; now apply (from_import_one_ok _ B)).
    destruct (py_foldl _ names st1); cbn in *; eauto.
  - cbn. apply (mono_trans _ st1); [exact H1|]. apply (star_bind_rel mono); eauto.
  - apply mono_bind.
  - destruct (dict_get (globals st cur) f); cbn; [apply mono_call|discriminate].
Qed.

Lemma import_with_ok load B : loader_ok load B -> loader_ok (import_with load) B.
Proof. intros Hl m st Hst. apply (foldl_ok _ _ _ B); [exact Hst|]. intros st0 p H0. now apply Hl. Qed.

Lemma load_one_ok fuel : loader_ok (load_one world fuel) fuel.
Proof.
  induction fuel as [|f IH]; intros m st Hst; rewrite load_one_eq;
    destruct (loaded st (dotted m)) eqn:Hl; try apply mono_refl;
    destruct (source world m) as [body|] eqn:Hs; try discriminate.
  - pose proof (unloaded_count_add st m body Hs Hl). lia.
  - pose proof (unloaded_count_add st m body Hs Hl) as Hc.
    assert (Hb : fuel_ok (add_module st (dotted m))
                   (py_foldl (exec_stmt (import_with (load_one world f)) (dotted m)) body
                             (add_module st (dotted m))))
      by (apply (foldl_ok _ _ _ f); [lia|]; intros; apply (exec_stmt_ok _ f); [apply import_with_ok, IH|lia]).
    destruct (py_foldl _ body _) as [e|st2]; cbn in *; [exact Hb|].
    apply (mono_trans _ (add_module st (dotted m))); [apply mono_add|].
    apply (mono_trans _ st2); [exact Hb|]. apply (bind_parent_rel mono); eauto.
Qed.

End Termination.

(** importing a module never runs out of fuel when the fuel is at
    least the number of findable modules not yet in [sys.modules]: each
    nested import either finds its module already registered (a cycle of
    imports included) or registers one more, so Python's import of the
    package terminates whatever the module graph. *)
Theorem import_terminates world U fuel m st :
  (forall m' body, source world m' = Some body -> In m' U) ->
  unloaded_count U st <= fuel ->
  import_module world fuel m st <> Raise OutOfFuel.
Proof.
  intros HU Hc H. pose proof (import_with_ok U _ fuel (load_one_ok world U HU fuel) m st Hc)
    as Hok.
  unfold import_module in H. rewrite H in Hok. now apply Hok.
Qed.

(** ** Module globals stay dicts *)

(** Every module's globals have distinct names. *)
Definition wf (st : interp) : Prop :=
  forall k g, dict_get (sys_modules st) k = Some g -> NoDup (map fst g).

Lemma wf_globals st m : wf st -> NoDup (map fst (globals st m)).
Proof.
  intros H. unfold globals. destruct (dict_get (sys_modules st) m) eqn:E; [exact (H _ _ E)|constructor].
Qed.

Lemma wf_dict_set st k g : wf st -> NoDup (map fst g) -> wf (Interp (dict_set (sys_modules st) k g) (trace st)).
Proof.
  intros Hwf Hg k' g'. cbn. destruct (String.eqb_spec k k') as [<-|Hne].
  - rewrite dict_get_set_same. now intros [= <-].
  - rewrite dict_get_set_diff by exact Hne. apply Hwf.
Qed.

Lemma wf_step :
  (forall st cur n o, wf st -> wf (bind st cur n o)) /\
  (forall st m, wf st -> wf (add_module st m)) /\
  (forall st x, wf st -> wf (Interp (sys_modules st) (trace st ++ [x]))).
Proof.
  split; [|split].
  - intros st cur n o Hwf. apply wf_dict_set; [exact Hwf|]. now apply dict_set_NoDup, wf_globals.
  - intros st m Hwf. apply wf_dict_set; [exact Hwf|constructor].
  - intros st x Hwf. exact Hwf.
Qed.

Lemma import_module_wf world fuel m st st' :
  wf st -> import_module world fuel m st = Ret st' -> wf st'.
Proof.
  intros Hwf H. destruct wf_step as (Hb & Ha & Hc).
  exact (import_module_rel world (fun a b => wf a -> wf b) (fun _ h => h) (fun _ _ _ f g h => g (f h))
           (fun st cur n o h => Hb st cur n o h) (fun st m _ h => Ha st m h) (fun st x h => Hc st x h)
           fuel m st st' H Hwf).
Qed.

(** ** from m import * *)

Lemma globals_bind_same st cur n o : globals (bind st cur n o) cur = dict_set (globals st cur) n o.
Proof. unfold globals at 1, bind. cbn. now rewrite dict_get_set_same. Qed.

Lemma dict_get_notin {V : Type} (d : list (string * V)) k : ~ In k (map fst d) -> dict_get d k = None.
Proof.
  induction d as [|[k0 v0] r IH]; cbn; [reflexivity|]. intros Hk.
  destruct (String.eqb_spec k k0) as [->|]; [exfalso; auto|auto].
Qed.

(** The value of [n] in [cur] after binding the public names of [l]. *)
Lemma star_fold_get cur l st n :
  NoDup (map fst l) ->
  dict_get (globals (fold_left (fun st no => if is_public (fst no) then bind st cur (fst no) (snd no)
                                             else st) l st) cur) n =
  if is_public n then match dict_get l n with Some o => Some o | None => dict_get (globals st cur) n end
  else dict_get (globals st cur) n.
Proof.
  revert st. induction l as [|[n0 o0] r IH]; intros st Hnd; cbn [fold_left fst snd].
  { destruct (is_public n); reflexivity. }
  inversion Hnd as [|? ? Hn0 Hr]; subst. rewrite (IH _ Hr).
  destruct (String.eqb_spec n n0) as [->|Hne].
  - rewrite dict_get_cons_eq, (dict_get_notin r n0 Hn0).
    destruct (is_public n0) eqn:Hp; [|reflexivity].
    now rewrite globals_bind_same, dict_get_set_same.
  - rewrite (dict_get_cons_neq r n n0 o0 Hne).
    destruct (is_public n0); [|reflexivity].
    rewrite globals_bind_same, (dict_get_set_diff _ n0 n o0 (not_eq_sym Hne)). reflexivity.
Qed.

Lemma star_bind_get st cur m n :
  NoDup (map fst (globals st m)) ->
  dict_get (globals (star_bind st cur m) cur) n =
  if is_public n then match dict_get (globals st m) n with Some o => Some o | None => dict_get (globals st cur) n end
  else dict_get (globals st cur) n.
Proof. apply star_fold_get. Qed.

(** After [from m import *] in module [cur], a public name of [m] (one
    not starting with an underscore) has its value in [m], once [m] is
    imported, overriding what [cur] had; a private name, and a name [m]
    does not have, keeps its value in [cur]. *)
Lemma star_import_binds_any world fuel cur m st st' :
  wf st ->
  exec_stmt (import_with (load_one world fuel)) cur st (SFromImportStar m) = Ret st' ->
  exists st1, import_module world fuel m st = Ret st1 /\
    forall n, dict_get (globals st' cur) n =
      if is_public n
      then match dict_get (globals st1 (dotted m)) n with
           | Some o => Some o
           | None => dict_get (globals st1 cur) n
           end
      else dict_get (globals st1 cur) n.
Proof.
  intros Hwf H. cbn in H. apply py_bind_Ret_inv in H as (st1 & H1 & [= <-]).
  exists st1. split; [exact H1|]. intros n. apply star_bind_get.
  apply wf_globals. exact (import_module_wf world fuel m st st1 Hwf H1).
Qed.

(** ** Importing a module again *)

Lemma import_with_loaded world fuel l st :
  (forall p, In p l -> loaded st (dotted p) = true) ->
  py_foldl (fun st p => load_one world fuel p st) l st = Ret st.
Proof.
  induction l as [|p r IH]; intros Hl; cbn; [reflexivity|].
  rewrite load_one_eq, (Hl p (or_introl eq_refl)), py_bind_ret.
  apply IH. intros q Hq. apply Hl. now right.
Qed.

(** [from m import *] of a module already imported (with its parent
    packages) runs no module body, needs no fuel and changes nothing but
    the bindings of [cur]: the second [from .synchronisation import *] of
    __init__.py (line 78) only binds the public names of [synchronisation]
    again, over those [__notebook_support__] bound in between. *)
Lemma reimport_loaded world fuel cur m st :
  (forall p, In p (prefixes m) -> loaded st (dotted p) = true) ->
  exec_stmt (import_with (load_one world fuel)) cur st (SFromImportStar m) =
  Ret (star_bind st cur (dotted m)).
Proof.
  intros Hl. cbn. unfold import_with. now rewrite import_with_loaded.
Qed.

(** ** output_notebook(hide_banner=True) runs once *)

Definition is_call (s : stmt) : bool := match s with SCall _ _ => true | _ => false end.

Definition no_calls (body : list stmt) : bool := forallb (fun s => negb (is_call s)) body.

Definition nb_key : string := dotted nb_module.

(** From [st] to [st']: [sys.modules] grows, and the trace grows by one
    call with [hide_banner=True] exactly when [__notebook_support__] is
    loaded in between. *)
Definition once (st st' : interp) : Prop :=
  mono st st' /\
  (if loaded st nb_key then trace st' = trace st
   else if loaded st' nb_key then exists o, trace st' = (trace st ++ [(o, "hide_banner=True")])%list
   else trace st' = trace st).

Lemma once_refl st : once st st.
Proof. split; [apply mono_refl|]. destruct (loaded st nb_key); reflexivity. Qed.

Lemma once_trans a b c : once a b -> once b c -> once a c.
Proof.
  intros [Hab Tab] [Hbc Tbc]. split; [eauto|].
  destruct (loaded a nb_key) eqn:Ea.
  - rewrite (Hab _ Ea) in Tbc. congruence.
  - destruct (loaded b nb_key) eqn:Eb.
    + rewrite (Hbc _ Eb). destruct Tab as (o & To). exists o. congruence.
    + destruct (loaded c nb_key); [destruct Tbc as (o & To); exists o|]; congruence.
Qed.

(** Binding in a loaded module changes neither [sys.modules]' keys nor the trace. *)
Lemma loaded_bind_same st cur n o k :
  loaded st cur = true -> loaded (bind st cur n o) k = loaded st k.
Proof.
  unfold loaded, bind. cbn. intros H. destruct (String.eqb_spec cur k) as [<-|Hne].
  - rewrite dict_get_set_same. destruct (dict_get (sys_modules st) cur); congruence.
  - now rewrite dict_get_set_diff.
Qed.

Lemma once_same st st' :
  (forall k, loaded st' k = loaded st k) -> trace st' = trace st -> once st st'.
Proof.
  intros Hl Ht. split; [intros k H; now rewrite Hl|]. rewrite Hl. now destruct (loaded st nb_key).
Qed.

Lemma once_bind st cur n o : loaded st cur = true -> once st (bind st cur n o).
Proof. intros H. apply once_same; [|reflexivity]. intros k. now apply loaded_bind_same. Qed.

Lemma once_star st cur m : loaded st cur = true -> once st (star_bind st cur m).
Proof.
  unfold star_bind. generalize (globals st m) as l. intros l. revert st.
  induction l as [|[n o] r IH]; intros st H; cbn; [apply once_refl|].
  destruct (is_public n); [|now apply IH].
  apply (once_trans _ (bind st cur n o)); [now apply once_bind|]. apply IH.
  now rewrite loaded_bind_same.
Qed.

Lemma once_bind_parent st m : once st (bind_parent st m).
Proof.
  unfold bind_parent. destruct (rev m) as [|c [|p r]]; try apply once_refl.
  destruct (loaded st _) eqn:E; [now apply once_bind|apply once_refl].
Qed.

Definition once_loader (imp : modname -> interp -> py_result import_error interp) : Prop :=
  forall m st st', imp m st = Ret st' -> once st st'.

Lemma loaded_once st st' k : once st st' -> loaded st k = true -> loaded st' k = true.
Proof. intros [H _]. apply H. Qed.

Lemma once_from_import imp m cur st xy st' :
  once_loader imp -> loaded st cur = true -> from_import_one imp m cur st xy = Ret st' -> once st st'.
Proof.
  intros Himp Hc. destruct xy as [x y]. unfold from_import_one.
  destruct (dict_get (globals st (dotted m)) x); [intros [= <-]; now apply once_bind|].
  destruct (imp (m ++ [x])%list st) as [e|st1] eqn:Hi.
  - destruct e; try destruct (String.eqb _ _); discriminate.
  - destruct (dict_get (globals st1 (dotted m)) x); [|discriminate]. intros [= <-].
    apply (once_trans _ st1); [exact (Himp _ _ _ Hi)|]. apply once_bind.
    exact (loaded_once _ _ _ (Himp _ _ _ Hi) Hc).
Qed.

Lemma once_exec imp cur st s st' :
  once_loader imp -> loaded st cur = true -> is_call s = false ->
  exec_stmt imp cur st s = Ret st' -> once st st'.
Proof.
  intros Himp Hc Hs. destruct s as [m [a|]|m names|m|n|f args]; cbn; try discriminate.
  1-4: intros H; apply py_bind_Ret_inv in H as (st1 & H1 & H2);
       pose proof (Himp _ _ _ H1) as O1; pose proof (loaded_once _ _ _ O1 Hc) as Hc1;
       apply (once_trans _ st1); [exact O1|].
  - injection H2 as <-. now apply once_bind.
  - injection H2 as <-. now apply once_bind.
  - enough (once st1 st' /\ loaded st' cur = true) by tauto.
    revert H2. apply (py_foldl_invariant (fun b => once st1 b /\ loaded b cur = true)).
    + exact (conj (once_refl st1) Hc1).
    + intros b0 x b1 [O H] Hb. pose proof (once_from_import imp m cur b0 x b1 Himp H Hb) as O'.
      exact (conj (once_trans _ _ _ O O') (loaded_once _ _ _ O' H)).
  - injection H2 as <-. now apply once_star.
  - intros [= <-]. now apply once_bind.
Qed.

Lemma once_body imp cur body st st' :
  once_loader imp -> loaded st cur = true -> no_calls body = true ->
  py_foldl (exec_stmt imp cur) body st = Ret st' -> once st st'.
Proof.
  intros Himp. revert st. induction body as [|s r IH]; intros st Hc Hn H; cbn in H.
  { injection H as <-. apply once_refl. }
  apply andb_prop in Hn as [Hs Hr]. apply negb_true_iff in Hs.
  apply py_bind_Ret_inv in H as (st1 & H1 & H2).
  pose proof (once_exec _ _ _ _ _ Himp Hc Hs H1) as O1.
  exact (once_trans _ _ _ O1 (IH st1 (loaded_once _ _ _ O1 Hc) Hr H2)).
Qed.

Lemma once_import_with load : once_loader load -> once_loader (import_with load).
Proof.
  intros Hl m st st'. apply (py_foldl_invariant (once st)); [apply once_refl|].
  intros b0 p b1 O H. exact (once_trans _ _ _ O (Hl _ _ _ H)).
Qed.

Section OutputNotebook.
Variable world : modname -> option (list stmt).
(** The modules outside the sources call nothing at their top level, and
    none of them is [biosignalsnotebooks.__notebook_support__]. *)
Hypothesis Hworld : forall m body, world m = Some body -> no_calls body = true /\ dotted m <> nb_key.

Lemma source_cases m body :
  source world m = Some body ->
  (m = nb_module /\ body = notebook_body) \/ (dotted m <> nb_key /\ no_calls body = true).
Proof.
  unfold source. destruct (list_eq_dec string_dec m [bsn]) as [->|].
  { intros [= <-]. right. split; [discriminate|reflexivity]. }
  destruct (list_eq_dec string_dec m [bsn; "conversion"]) as [->|].
  { intros [= <-]. right. split; [discriminate|reflexivity]. }
  destruct (list_eq_dec string_dec m nb_module) as [->|]; [intros [= <-]; now left|].
  intros H. right. destruct (Hworld m body H); now split.
Qed.

Lemma loaded_add st m k : loaded (add_module st m) k = if String.eqb m k then true else loaded st k.
Proof.
  unfold loaded, add_module. cbn. destruct (String.eqb_spec m k) as [<-|Hne].
  - now rewrite dict_get_set_same.
  - now rewrite dict_get_set_diff.
Qed.

(** Registering any other module leaves the trace alone. *)
Lemma once_add st k : k <> nb_key -> once st (add_module st k).
Proof.
  intros Hk. split.
  - intros k' H. rewrite loaded_add. now destruct (String.eqb _ _).
  - rewrite loaded_add. apply String.eqb_neq in Hk. rewrite Hk. now destruct (loaded st nb_key).
Qed.

(** Loading [__notebook_support__] itself: its imports, line 70, its defs. *)
Lemma once_notebook f st st' :
  once_loader (import_with (load_one world f)) -> loaded st nb_key = false ->
  py_foldl (exec_stmt (import_with (load_one world f)) nb_key) notebook_body
           (add_module st nb_key) = Ret st' ->
  mono st st' /\ loaded st' nb_key = true /\
  exists o, trace st' = (trace st ++ [(o, "hide_banner=True")])%list.
Proof.
  intros Himp Hl H. unfold notebook_body in H. rewrite py_foldl_app in H.
  assert (L1 : loaded (add_module st nb_key) nb_key = true) by (rewrite loaded_add; now rewrite String.eqb_refl).
  apply py_bind_Ret_inv in H as (sa & Ha & H).
  pose proof (once_body _ _ notebook_imports _ _ Himp L1 eq_refl Ha) as [Ma Ta].
  rewrite L1 in Ta. cbn [py_foldl app] in H. apply py_bind_Ret_inv in H as (sb & Hb & H).
  unfold exec_stmt, output_notebook_call in Hb.
  destruct (dict_get (globals sa nb_key) "output_notebook") as [o|]; [injection Hb as <-|discriminate].
  eapply once_body in H as [Mc Tc]; [|exact Himp|exact (Ma _ L1)|reflexivity].
  change (loaded {| sys_modules := sys_modules sa; trace := _ |} nb_key) with (loaded sa nb_key) in Tc.
  rewrite (Ma _ L1) in Tc. cbn [trace] in Tc.
  split; [|split].
  - intros k Hk. apply Mc, Ma. rewrite loaded_add. now destruct (String.eqb _ _).
  - exact (Mc _ (Ma _ L1)).
  - exists o. rewrite Tc, Ta. reflexivity.
Qed.

Lemma load_one_once fuel : once_loader (load_one world fuel).
Proof.
  induction fuel as [|f IH]; intros m st st' H; rewrite load_one_eq in H;
    destruct (loaded st (dotted m)) eqn:Hl; try (injection H as <-; apply once_refl);
    destruct (source world m) as [body|] eqn:Hs; try discriminate.
  apply py_bind_Ret_inv in H as (st2 & H2 & [= <-]).
  apply (fun O => once_trans _ _ _ O (once_bind_parent st2 m)).
  pose proof (once_import_with _ IH) as Himp.
  destruct (source_cases m body Hs) as [[-> ->]|[Hnb Hnc]].
  - destruct (once_notebook f st st2 Himp Hl H2) as (M & L & T).
    split; [exact M|]. fold nb_key in Hl. rewrite Hl, L. exact T.
  - assert (L1 : loaded (add_module st (dotted m)) (dotted m) = true)
      by (rewrite loaded_add; now rewrite String.eqb_refl).
    apply (once_trans _ (add_module st (dotted m))).
    + now apply once_add.
    + exact (once_body _ _ _ _ _ Himp L1 Hnc H2).
Qed.

End OutputNotebook.

(** [import biosignalsnotebooks] loads [__notebook_support__]: line 77 of
    __init__.py imports it whatever the other modules do. *)
Lemma package_loads_notebook world fuel st' :
  import_package world fuel = Ret st' -> loaded st' nb_key = true.
Proof.
  unfold import_package, import_module, import_with. cbn [prefixes seq map firstn length py_foldl].
  intros H. apply py_bind_Ret_inv in H as (s1 & H & [= <-]).
  rewrite load_one_eq in H. change (loaded empty_interp (dotted [bsn])) with false in H.
  change (source world [bsn]) with (Some init_body) in H. cbv iota beta in H.
  destruct fuel as [|f]; [discriminate|].
  apply py_bind_Ret_inv in H as (s2 & H2 & [= <-]). apply mono_bind_parent.
  change init_body with (firstn 10 init_body ++ SFromImportStar nb_module :: skipn 11 init_body)%list in H2.
  rewrite py_foldl_app in H2. apply py_bind_Ret_inv in H2 as (sa & _ & H2).
  cbn [py_foldl] in H2. apply py_bind_Ret_inv in H2 as (sb & Hb & Hc).
  apply (body_mono _ _ _ _ _ _ Hc).
  cbn [exec_stmt] in Hb. apply py_bind_Ret_inv in Hb as (sc & Hsc & [= <-]).
  apply (star_bind_rel mono); eauto.
  unfold import_with in Hsc. change (prefixes nb_module) with [[bsn]; nb_module] in Hsc.
  cbn [py_foldl] in Hsc. apply py_bind_Ret_inv in Hsc as (sd & _ & Hsc).
  apply py_bind_Ret_inv in Hsc as (se & Hse & [= <-]).
  exact (load_one_loaded _ _ _ _ _ Hse).
Qed.

(** C34: [import biosignalsnotebooks] calls [output_notebook(hide_banner=True)]
    (__notebook_support__.py, line 70) exactly once: when the import
    returns, the trace of top-level calls is that one call, however the
    other modules import one another, provided none of the modules outside
    the sources calls anything at its top level. *)
Theorem output_notebook_once world fuel st' :
  (forall m body, world m = Some body -> no_calls body = true /\ dotted m <> nb_key) ->
  import_package world fuel = Ret st' -> exists o, trace st' = [(o, "hide_banner=True")].
Proof.
  intros Hw H. pose proof (package_loads_notebook _ _ _ H) as L.
  apply (once_import_with _ (load_one_once world Hw fuel)) in H as [_ T].
  change (loaded empty_interp nb_key) with false in T. rewrite L in T. exact T.
Qed.

(** ** A world to run the import in

    The modules the sources import but that are not under src/ (numpy,
    IPython, bokeh and the package's other submodules), each with the
    names the sources import from it.  [process] defines a [bandpass] of
    its own, as the package's [process.py] does. *)

Definition assoc_world (l : list (modname * list stmt)) (m : modname) : option (list stmt) :=
  match find (fun p => if list_eq_dec string_dec (fst p) m then true else false) l with
  | Some (_, body) => Some body
  | None => None
  end.

Lemma assoc_world_in l m body : assoc_world l m = Some body -> In (m, body) l.
Proof.
  unfold assoc_world. match goal with |- context [find ?f l] => destruct (find f l) as [[m' b]|] eqn:E end; [|discriminate]. intros [= <-].
  apply find_some in E as [Hin Hm]. cbn [fst] in Hm.
  destruct (list_eq_dec string_dec m' m) as [<-|]; [exact Hin|discriminate Hm].
Qed.

Definition assoc_quiet (l : list (modname * list stmt)) : bool :=
  forallb (fun p => no_calls (snd p) && negb (String.eqb (dotted (fst p)) nb_key)) l.

Lemma assoc_quiet_spec l :
  assoc_quiet l = true ->
  forall m body, assoc_world l m = Some body -> no_calls body = true /\ dotted m <> nb_key.
Proof.
  intros Hq m body Hm. apply assoc_world_in in Hm.
  unfold assoc_quiet in Hq. rewrite forallb_forall in Hq.
  apply Hq, andb_prop in Hm as [Hc Hk]. cbn in Hc, Hk. split; [exact Hc|].
  apply negb_true_iff, String.eqb_neq in Hk. exact Hk.
Qed.

Definition demo_modules : list (modname * list stmt) :=
  [(["os"], []); (["os"; "path"], [SDef "exists"]); (["numpy"], []);
   (["IPython"], []); (["IPython"; "core"], []); (["IPython"; "core"; "display"], [SDef "HTML"]);
   (["bokeh"], []); (["bokeh"; "plotting"], [SDef "figure"; SDef "show"; SDef "save"]);
   (["bokeh"; "models"], [SDef "BoxAnnotation"; SDef "Arrow"; SDef "VeeHead"]);
   (["bokeh"; "models"; "annotations"], [SDef "Title"]);
   (["bokeh"; "io"], [SDef "output_notebook"]); (["bokeh"; "layouts"], [SDef "gridplot"]);
   ([bsn; "detect"], [SDef "detect_emg_activations"]);
   ([bsn; "process"], [SDef "smooth"; SDef "bandpass"]);
   ([bsn; "visualise"], [SDef "plot"; SDef "opensignals_kwargs"; SDef "opensignals_color_pallet";
                         SDef "opensignals_style"]);
   ([bsn; "aux_functions"], [SDef "_generate_bokeh_file"]);
   ([bsn; "external_packages"], []); ([bsn; "external_packages"; "novainstrumentation"], []);
   ([bsn; "external_packages"; "novainstrumentation"; "freq_analysis"],
    [SDef "max_frequency"; SDef "plotfft"]);
   ([bsn; "external_packages"; "novainstrumentation"; "filter"], [SDef "bandpass"]);
   ([bsn; "extract"], []); ([bsn; "load"], []); ([bsn; "signal_samples"], []);
   ([bsn; "factory"], []); ([bsn; "synchronisation"], [SDef "synchronise_signals"]);
   ([bsn; "train_and_classify"], []); ([bsn; "android"], [])].

Definition demo_world : modname -> option (list stmt) := assoc_world demo_modules.

Definition demo_package : interp :=
  match import_package demo_world 40 with Ret st => st | Raise _ => empty_interp end.

Lemma demo_import : import_package demo_world 40 = Ret demo_package.
Proof. vm_compute. reflexivity. Qed.

(** The package's [bandpass] is the one [__notebook_support__] imports
    from novainstrumentation: its star import (line 77) comes after
    [from .process import *] (line 71) and rebinds the name; numpy and
    bokeh's [figure] become attributes of the package too. *)
Example demo_bandpass_shadowed :
  dict_get (globals demo_package bsn) "bandpass" =
    Some (Defined "biosignalsnotebooks.external_packages.novainstrumentation.filter" "bandpass") /\
  dict_get (globals demo_package bsn) "numpy" = Some (ModuleObj "numpy") /\
  dict_get (globals demo_package bsn) "figure" = Some (Defined "bokeh.plotting" "figure").
Proof. vm_compute. repeat split. Qed.

Lemma demo_quiet : assoc_quiet demo_modules = true.
Proof. vm_compute. reflexivity. Qed.

Lemma output_notebook_once_witness :
  exists o, trace demo_package = [(o, "hide_banner=True")].
Proof. exact (output_notebook_once demo_world 40 demo_package (assoc_quiet_spec _ demo_quiet) demo_import). Defined.

End Package.
