(* ===== verification/PackageLive.v ===== *)
(** * PackageLive: [import biosignalsnotebooks] succeeds

    The import of the package runs the statements of __init__.py,
    conversion.py and __notebook_support__.py ([Package]).  It raises
    unless every module they import is found and every name they take
    from a module is defined there, and unless [output_notebook] is
    imported before line 70 calls it.  This file shows that these are the
    only conditions.  The requirements are computed from the statements
    themselves ([world_needs]): the modules each import names (with their
    parent packages) and, for [from m import x], the names [x].  If the
    modules outside the sources define these names and import nothing,
    the package import returns, with fuel 3 (the package, a submodule,
    the outside modules it imports) or more.

    The proof keeps one invariant, [all_defined]: every loaded module
    whose body only defines names has all of them bound.  It holds
    because a module is registered and run in one [load_one], and module
    names are not ambiguous ([Hinj]). *)

From Stdlib Require Import String List Bool Lia.
From S2P Require Import Prelude Package.
Import ListNotations.

Module PackageLive.
Import Package.

Local Open Scope string_scope.

(** ** What the sources import *)

Definition is_def (s : stmt) : bool := match s with SDef _ => true | _ => false end.

(** A module body that only defines names. *)
Definition defs_only (body : list stmt) : bool := forallb is_def body.

(** The modules a statement imports, each with the names it takes. *)
Definition needs (s : stmt) : list (modname * list string) :=
  match s with
  | SImport m _ | SFromImportStar m => map (fun p => (p, [])) (prefixes m)
  | SFromImport m names => (map (fun p => (p, [])) (prefixes m) ++ [(m, map fst names)])%list
  | _ => []
  end.

Definition is_source (m : modname) : bool :=
  if list_eq_dec string_dec m [bsn] then true
  else if list_eq_dec string_dec m [bsn; "conversion"] then true
  else if list_eq_dec string_dec m nb_module then true
  else false.

(** The top-level imports of the three source files. *)
Definition source_stmts : list stmt := (init_body ++ conversion_body ++ notebook_imports)%list.

(** The modules outside the sources that the three source files import,
    with the names taken from them. *)
Definition world_needs : list (modname * list string) :=
  filter (fun p => negb (is_source (fst p))) (flat_map needs source_stmts).

(** A statement that needs, of the source modules, only the package
    itself, and takes no name from it. *)
Definition only_pkg (s : stmt) : bool :=
  forallb (fun q => negb (is_source (fst q)) ||
                    ((if list_eq_dec string_dec (fst q) [bsn] then true else false) &&
                     Nat.eqb (length (snd q)) 0))
          (needs s).

Lemma source_not_source world m : is_source m = false -> source world m = world m.
Proof.
  unfold is_source, source.
  destruct (list_eq_dec string_dec m [bsn]); [discriminate|].
  destruct (list_eq_dec string_dec m [bsn; "conversion"]); [discriminate|].
  destruct (list_eq_dec string_dec m nb_module); [discriminate|]. reflexivity.
Qed.

(** ** Bound names *)

Definition bound (st : interp) (k x : string) : Prop := dict_get (globals st k) x <> None.

(** Names bound stay bound. *)
Definition keeps (st st' : interp) : Prop := forall k x, bound st k x -> bound st' k x.

Lemma bound_bind st cur n o k x : bound st k x -> bound (bind st cur n o) k x.
Proof.
  unfold bound, bind, globals. cbn. destruct (String.eqb_spec cur k) as [<-|Hne].
  - rewrite dict_get_set_same. destruct (String.eqb_spec n x) as [<-|Hnx].
    + rewrite dict_get_set_same. discriminate.
    + rewrite dict_get_set_diff by exact Hnx. exact id.
  - rewrite dict_get_set_diff by exact Hne. exact id.
Qed.

Lemma bound_bind_same st cur x o : bound (bind st cur x o) cur x.
Proof.
  unfold bound, bind, globals. cbn. rewrite !dict_get_set_same. discriminate.
Qed.

Lemma keeps_add st m : loaded st m = false -> keeps st (add_module st m).
Proof.
  intros Hl k x. unfold bound, globals, add_module, loaded in *. cbn.
  destruct (String.eqb_spec m k) as [<-|Hne].
  - destruct (dict_get (sys_modules st) m); [discriminate|]. now intros [].
  - now rewrite dict_get_set_diff.
Qed.

Lemma keeps_refl st : keeps st st.
Proof. intros k x H. exact H. Qed.

Lemma keeps_trans a b c : keeps a b -> keeps b c -> keeps a c.
Proof. intros H1 H2 k x H. exact (H2 k x (H1 k x H)). Qed.

Lemma keeps_bind st cur n o : keeps st (bind st cur n o).
Proof. intros k x. apply bound_bind. Qed.

Lemma keeps_call st y : keeps st (Interp (sys_modules st) (trace st ++ [y])).
Proof. intros k x H. exact H. Qed.

#[local] Hint Resolve keeps_refl keeps_trans keeps_bind keeps_add keeps_call : core.

Lemma keeps_loader world fuel m st st' : load_one world fuel m st = Ret st' -> keeps st st'.
Proof. apply (load_one_rel world keeps); eauto. Qed.

Lemma keeps_import world f m st st' : import_with (load_one world f) m st = Ret st' -> keeps st st'.
Proof. apply (import_with_rel keeps); eauto. intros m' st0 st1. apply keeps_loader. Qed.

Lemma keeps_exec world f cur st s st' :
  exec_stmt (import_with (load_one world f)) cur st s = Ret st' -> keeps st st'.
Proof. apply (exec_stmt_rel keeps); eauto. intros m st0 st1. apply keeps_import. Qed.

Lemma mono_import world f m st st' : import_with (load_one world f) m st = Ret st' -> mono st st'.
Proof.
  apply (import_with_rel mono); [apply mono_refl|apply mono_trans|]. intros m' st0 st1. apply load_one_mono.
Qed.

Lemma mono_exec world f cur st s st' :
  exec_stmt (import_with (load_one world f)) cur st s = Ret st' -> mono st st'.
Proof.
  intros H. apply (body_mono world f cur [s]). cbn. rewrite H. reflexivity.
Qed.

(** Steps that bind in a loaded module leave [sys.modules]' keys alone. *)
Definition same_keys (st st' : interp) : Prop := forall k, loaded st' k = loaded st k.

Lemma same_keys_bind st cur n o : loaded st cur = true -> same_keys st (bind st cur n o).
Proof. intros H k. now apply loaded_bind_same. Qed.

Lemma star_bind_keys st cur m :
  loaded st cur = true -> keeps st (star_bind st cur m) /\ same_keys st (star_bind st cur m).
Proof.
  unfold star_bind. generalize (globals st m) as l. intros l. revert st.
  induction l as [|[n o] r IH]; intros st H; cbn; [split; [apply keeps_refl|now intros k]|].
  destruct (is_public n); [|now apply IH].
  assert (Hb : loaded (bind st cur n o) cur = true) by (now rewrite loaded_bind_same).
  destruct (IH _ Hb) as [K S]. split; [eauto|]. intros k. rewrite S. now apply loaded_bind_same.
Qed.

Lemma bind_parent_keys st m : keeps st (bind_parent st m) /\ same_keys st (bind_parent st m).
Proof.
  unfold bind_parent. destruct (rev m) as [|c [|p r]]; try (split; [apply keeps_refl|now intros k]).
  destruct (loaded st _) eqn:E; [split; [apply keeps_bind|now apply same_keys_bind]|].
  split; [apply keeps_refl|now intros k].
Qed.

(** A body that only defines names binds each of them in its module. *)
Lemma defs_fold imp cur body st st' :
  defs_only body = true -> loaded st cur = true ->
  py_foldl (exec_stmt imp cur) body st = Ret st' ->
  keeps st st' /\ same_keys st st' /\ forall x, In (SDef x) body -> bound st' cur x.
Proof.
  revert st. induction body as [|s r IH]; intros st Hd Hc H; cbn in H.
  { injection H as <-. split; [apply keeps_refl|split; [now intros k|intros x []]]. }
  cbn in Hd. apply andb_prop in Hd as [Hs Hr]. destruct s; try discriminate. cbn in H.
  set (st1 := bind st cur n (Defined cur n)) in H.
  assert (Hc1 : loaded st1 cur = true) by (unfold st1; now rewrite loaded_bind_same).
  destruct (IH st1 Hr Hc1 H) as (K & S & B). split; [|split].
  - apply (keeps_trans _ st1); [apply keeps_bind|exact K].
  - intros k. rewrite S. now apply loaded_bind_same.
  - intros x [Hx|Hx]; [|now apply B]. injection Hx as <-. apply K, bound_bind_same.
Qed.

(** A body that only defines names runs through. *)
Lemma defs_run imp cur body st :
  defs_only body = true -> exists st', py_foldl (exec_stmt imp cur) body st = Ret st'.
Proof.
  revert st. induction body as [|s r IH]; intros st Hd; cbn; [eauto|].
  cbn in Hd. apply andb_prop in Hd as [Hs Hr]. destruct s; try discriminate Hs.
  exact (IH _ Hr).
Qed.

(** [from m import x as y, ...] runs through when [m] defines every [x];
    then every [y] is bound in [cur]. *)
Lemma from_run imp m cur names st :
  (forall x, In x (map fst names) -> bound st (dotted m) x) ->
  exists st', py_foldl (from_import_one imp m cur) names st = Ret st' /\ keeps st st' /\
              forall x y, In (x, y) names -> bound st' cur y.
Proof.
  revert st. induction names as [|[x y] r IH]; intros st H; cbn.
  { exists st. split; [reflexivity|split; [apply keeps_refl|intros ? ? []]]. }
  destruct (dict_get (globals st (dotted m)) x) as [o|] eqn:E; [|destruct (H x (or_introl eq_refl) E)].
  rewrite py_bind_ret.
  destruct (IH (bind st cur y o)) as (st' & R & K & B).
  { intros x' Hx'. apply bound_bind, H. now right. }
  exists st'. split; [exact R|split; [eauto|]].
  intros x' y' [Hxy|Hxy]; [|exact (B _ _ Hxy)].
  injection Hxy as <- <-. apply K, bound_bind_same.
Qed.

Lemma only_pkg_spec s p xs :
  only_pkg s = true -> In (p, xs) (needs s) -> is_source p = true -> p = [bsn] /\ xs = [].
Proof.
  unfold only_pkg. rewrite forallb_forall. intros H Hin Hs. specialize (H _ Hin). cbn [fst snd] in H.
  rewrite Hs in H. cbn [negb orb] in H. apply andb_prop in H as [H1 H2].
  destruct (list_eq_dec string_dec p [bsn]) as [->|]; [|discriminate H1].
  destruct xs; [auto|discriminate H2].
Qed.

Lemma source_stmts_nonempty m names : In (SFromImport m names) source_stmts -> m <> [].
Proof.
  intros Hin ->. unfold source_stmts, init_body, conversion_body, notebook_imports, sync_reimport in Hin.
  cbn [app In] in Hin. repeat (destruct Hin as [Hin|Hin]; [discriminate Hin|]). exact Hin.
Qed.

(** [import m] leaves [m] itself in [sys.modules]. *)
Lemma import_loaded world f m st st' :
  import_with (load_one world f) m st = Ret st' -> m <> [] -> loaded st' (dotted m) = true.
Proof.
  intros H Hm. assert (Hin : In m (prefixes m)).
  { unfold prefixes. apply in_map_iff. exists (length m). split; [apply firstn_all|].
    apply in_seq. destruct m; [congruence|cbn; lia]. }
  unfold import_with in H. revert st H Hin. generalize (prefixes m) as l.
  induction l as [|p r IH]; intros st H Hin; [destruct Hin|]. cbn [py_foldl] in H.
  apply py_bind_Ret_inv in H as (st1 & H1 & H2). destruct Hin as [E|Hin]; [subst p|exact (IH _ H2 Hin)].
  revert H2. apply (py_foldl_invariant (fun s => loaded s (dotted m) = true));
    [exact (load_one_loaded _ _ _ _ _ H1)|].
  intros b0 q b1 Hb Hq. exact (load_one_mono _ _ _ _ _ Hq _ Hb).
Qed.

Lemma keeps_body world f cur body st st' :
  py_foldl (exec_stmt (import_with (load_one world f)) cur) body st = Ret st' -> keeps st st'.
Proof. apply (foldl_rel keeps); eauto. intros st0 s st1. apply keeps_exec. Qed.

Lemma keeps_from_fold world f m cur names st st' :
  py_foldl (from_import_one (import_with (load_one world f)) m cur) names st = Ret st' -> keeps st st'.
Proof.
  apply (foldl_rel keeps); eauto. intros st0 xy st1.
  apply (from_import_one_rel keeps); eauto. intros m' s0 s1. apply keeps_import.
Qed.

Lemma from_one_binds imp m cur st x y st' :
  from_import_one imp m cur st (x, y) = Ret st' -> bound st' cur y.
Proof.
  cbn. destruct (dict_get (globals st (dotted m)) x); [intros [= <-]; apply bound_bind_same|].
  destruct (imp (m ++ [x])%list st) as [e|s1]; [destruct e; try destruct (String.eqb _ _); discriminate|].
  destruct (dict_get (globals s1 (dotted m)) x); [intros [= <-]; apply bound_bind_same|discriminate].
Qed.

(** After [from m import x as y, ...] returns, every [y] is bound in the
    importing module. *)
Lemma from_binds world f m names cur st st' x y :
  exec_stmt (import_with (load_one world f)) cur st (SFromImport m names) = Ret st' ->
  In (x, y) names -> bound st' cur y.
Proof.
  cbn [exec_stmt]. intros H. apply py_bind_Ret_inv in H as (st1 & _ & H). revert st1 H.
  induction names as [|[x' y'] r IH]; intros st1 H Hxy; [destruct Hxy|].
  cbn [py_foldl] in H. apply py_bind_Ret_inv in H as (st2 & H2 & H3).
  destruct Hxy as [E|Hxy]; [|exact (IH _ H3 Hxy)]. injection E as -> ->.
  exact (keeps_from_fold _ _ _ _ _ _ _ H3 _ _ (from_one_binds _ _ _ _ _ _ _ H2)).
Qed.

(** __notebook_support__.py's imports bind [output_notebook] (line 65). *)
Lemma nb_imports_bind world f cur st st' :
  py_foldl (exec_stmt (import_with (load_one world f)) cur) notebook_imports st = Ret st' ->
  bound st' cur "output_notebook".
Proof.
  change notebook_imports with
    (firstn 9 notebook_imports ++
     SFromImport ["bokeh"; "io"] [("output_notebook", "output_notebook")] :: skipn 10 notebook_imports)%list.
  rewrite py_foldl_app. intros H. apply py_bind_Ret_inv in H as (s1 & _ & H). cbn [py_foldl] in H.
  apply py_bind_Ret_inv in H as (s2 & H2 & H3). apply (keeps_body _ _ _ _ _ _ H3).
  exact (from_binds _ _ _ _ _ _ _ _ _ H2 (or_introl eq_refl)).
Qed.

(** Each line of __init__.py star-imports a submodule of the package:
    conversion.py, __notebook_support__.py, or one outside the sources. *)
Lemma init_cases s :
  In s init_body ->
  s = SFromImportStar [bsn; "conversion"] \/ s = SFromImportStar nb_module \/
  exists X, s = SFromImportStar [bsn; X] /\ only_pkg s = true.
Proof.
  unfold init_body. cbn [In]. intros Hin.
  repeat (destruct Hin as [<-|Hin];
          [first [left; reflexivity|right; left; reflexivity|right; right; eexists; split; reflexivity]|]).
  destruct Hin.
Qed.

Section Live.

(** The modules outside the sources. *)
Variable world : modname -> option (list stmt).

(** They define names and import nothing. *)
Hypothesis Hdefs : forall m body, world m = Some body -> defs_only body = true.

(** No two modules found have the same dotted name. *)
Hypothesis Hinj : forall m1 m2 b1 b2,
  source world m1 = Some b1 -> source world m2 = Some b2 -> dotted m1 = dotted m2 -> m1 = m2.

(** Every loaded module whose body only defines names has them bound. *)
Definition all_defined (st : interp) : Prop :=
  forall m body x, source world m = Some body -> defs_only body = true -> In (SDef x) body ->
  loaded st (dotted m) = true -> bound st (dotted m) x.

Lemma all_defined_keys st st' : all_defined st -> keeps st st' -> same_keys st st' -> all_defined st'.
Proof. intros H K S m b x Hs Hd Hx Hl. rewrite S in Hl. exact (K _ _ (H m b x Hs Hd Hx Hl)). Qed.

Lemma all_defined_bind st cur n o :
  all_defined st -> loaded st cur = true -> all_defined (bind st cur n o).
Proof. intros H Hc. apply (all_defined_keys st); [exact H|apply keeps_bind|now apply same_keys_bind]. Qed.

Definition ad_loader (imp : modname -> interp -> py_result import_error interp) : Prop :=
  forall m st st', all_defined st -> imp m st = Ret st' -> all_defined st'.

Lemma ad_import_with f :
  ad_loader (load_one world f) -> ad_loader (import_with (load_one world f)).
Proof.
  intros Hl m st st' H. apply (py_foldl_invariant all_defined); [exact H|].
  intros b0 p b1 Hb Hstep. exact (Hl _ _ _ Hb Hstep).
Qed.

Lemma ad_exec f cur st s st' :
  ad_loader (load_one world f) -> all_defined st -> loaded st cur = true ->
  exec_stmt (import_with (load_one world f)) cur st s = Ret st' -> all_defined st'.
Proof.
  intros Hl H Hc Hs.
  pose proof (mono_exec _ _ _ _ _ _ Hs) as M.
  pose proof (ad_import_with f Hl) as Hi.
  destruct s as [m [a|]|m names|m|n|g args]; cbn in Hs.
  1-3: apply py_bind_Ret_inv in Hs as (st1 & H1 & H2);
       pose proof (Hi _ _ _ H H1) as A1;
       pose proof (mono_import _ _ _ _ _ H1 _ Hc) as Hc1.
  - injection H2 as <-. now apply all_defined_bind.
  - injection H2 as <-. now apply all_defined_bind.
  - enough (all_defined st' /\ loaded st' cur = true) by tauto.
    revert H2. apply (py_foldl_invariant (fun b => all_defined b /\ loaded b cur = true)); [now split|].
    intros b0 [x y] b1 [A C] Hb. cbn in Hb.
    destruct (dict_get (globals b0 (dotted m)) x).
    + injection Hb as <-. split; [now apply all_defined_bind|now rewrite loaded_bind_same].
    + destruct (import_with (load_one world f) (m ++ [x])%list b0) as [e|b2] eqn:Hb2.
      * destruct e; try destruct (String.eqb _ _); discriminate.
      * destruct (dict_get (globals b2 (dotted m)) x); [|discriminate]. injection Hb as <-.
        pose proof (mono_import _ _ _ _ _ Hb2 _ C) as C2.
        split; [apply all_defined_bind; [exact (Hi _ _ _ A Hb2)|exact C2]|now rewrite loaded_bind_same].
  - apply py_bind_Ret_inv in Hs as (st1 & H1 & [= <-]).
    pose proof (mono_import _ _ _ _ _ H1 _ Hc) as Hc1.
    destruct (star_bind_keys st1 cur (dotted m) Hc1) as [K S].
    exact (all_defined_keys _ _ (Hi _ _ _ H H1) K S).
  - injection Hs as <-. now apply all_defined_bind.
  - destruct (dict_get (globals st cur) g); [|discriminate]. injection Hs as <-.
    intros m b x Hm Hd Hx Hm2. exact (H m b x Hm Hd Hx Hm2).
Qed.

(** Registering a module that does more than define names keeps the
    invariant: by [Hinj] its key belongs to no other module. *)
Lemma ad_add st m body :
  all_defined st -> loaded st (dotted m) = false -> source world m = Some body ->
  defs_only body = false -> all_defined (add_module st (dotted m)).
Proof.
  intros H Hl Hs Hd m' b' x Hs' Hd' Hx. rewrite loaded_add.
  destruct (String.eqb_spec (dotted m) (dotted m')) as [E|E].
  - rewrite (Hinj m' m b' body Hs' Hs (eq_sym E)) in Hs'. congruence.
  - intros Hl'. apply keeps_add; [exact Hl|]. exact (H m' b' x Hs' Hd' Hx Hl').
Qed.

(** Every import, however deep, keeps all names of the loaded modules
    bound. *)
Lemma ad_load f : ad_loader (load_one world f).
Proof.
  induction f as [|f IH]; intros m st st' H Hload; rewrite load_one_eq in Hload;
    destruct (loaded st (dotted m)) eqn:Hl; try (injection Hload as <-; exact H);
    destruct (source world m) as [body|] eqn:Hs; try discriminate.
  apply py_bind_Ret_inv in Hload as (st2 & H2 & [= <-]).
  destruct (bind_parent_keys st2 m) as [Kp Sp]. apply (all_defined_keys st2); [|exact Kp|exact Sp].
  set (st1 := add_module st (dotted m)) in H2.
  assert (L1 : loaded st1 (dotted m) = true)
    by (unfold st1; rewrite loaded_add, String.eqb_refl; reflexivity).
  assert (K1 : keeps st st1) by (apply keeps_add, Hl).
  (* the module registered is the only one found under its name *)
  assert (Same : forall m' b', source world m' = Some b' -> dotted m = dotted m' -> m' = m /\ b' = body).
  { intros m' b' Hs' E. assert (m' = m) by exact (Hinj m' m b' body Hs' Hs (eq_sym E)).
    subst m'. split; congruence. }
  assert (Old : forall m' b' x, source world m' = Some b' -> defs_only b' = true -> In (SDef x) b' ->
                loaded st1 (dotted m') = true -> dotted m <> dotted m' -> bound st1 (dotted m') x).
  { intros m' b' x Hs' Hd' Hx Hl' E. unfold st1 in Hl'. rewrite loaded_add in Hl'.
    apply String.eqb_neq in E. rewrite E in Hl'. exact (K1 _ _ (H m' b' x Hs' Hd' Hx Hl')). }
  destruct (defs_only body) eqn:Hd.
  - destruct (defs_fold _ _ _ _ _ Hd L1 H2) as (K2 & S2 & B2).
    intros m' b' x Hs' Hd' Hx Hl'. rewrite S2 in Hl'.
    destruct (string_dec (dotted m) (dotted m')) as [E|E].
    + destruct (Same m' b' Hs' E) as [-> ->]. exact (B2 x Hx).
    + exact (K2 _ _ (Old m' b' x Hs' Hd' Hx Hl' E)).
  - pose proof (ad_add st m body H Hl Hs Hd) as A1.
    enough (all_defined st2 /\ loaded st2 (dotted m) = true) by tauto.
    revert H2. apply (py_foldl_invariant (fun b => all_defined b /\ loaded b (dotted m) = true));
      [now split|].
    intros b0 s b1 [A C] Hb. split; [exact (ad_exec f _ _ _ _ IH A C Hb)|exact (mono_exec _ _ _ _ _ _ Hb _ C)].
Qed.

(** The modules outside the sources provide what the sources take from
    them. *)
Hypothesis Hprov : forall m xs, In (m, xs) world_needs ->
  exists b, world m = Some b /\ forall x, In x xs -> In (SDef x) b.

Lemma need_ok s p xs :
  In s source_stmts -> only_pkg s = true -> In (p, xs) (needs s) ->
  (p = [bsn] /\ xs = []) \/
  exists b, source world p = Some b /\ defs_only b = true /\ forall x, In x xs -> In (SDef x) b.
Proof.
  intros Hs Ho Hn. destruct (is_source p) eqn:E; [left; exact (only_pkg_spec s p xs Ho Hn E)|right].
  destruct (Hprov p xs) as (b & Hw & Hx).
  { unfold world_needs. apply filter_In. split; [apply in_flat_map; eauto|cbn [fst]; now rewrite E]. }
  exists b. rewrite source_not_source by exact E. split; [exact Hw|split; [exact (Hdefs _ _ Hw)|exact Hx]].
Qed.

(** A module already imported, or found and only defining names, loads
    with any fuel. *)
Lemma load_ok f p st :
  (loaded st (dotted p) = true \/ exists b, source world p = Some b /\ defs_only b = true) ->
  exists st', load_one world (S f) p st = Ret st'.
Proof.
  intros Hp. rewrite load_one_eq. destruct (loaded st (dotted p)) eqn:Hl; [eauto|].
  destruct Hp as [Hp|(b & Hs & Hd)]; [discriminate Hp|]. rewrite Hs.
  destruct (defs_run (import_with (load_one world f)) (dotted p) b (add_module st (dotted p)) Hd)
    as [st1 ->].
  eexists; reflexivity.
Qed.

Lemma import_ok f m st :
  (forall p, In p (prefixes m) ->
     loaded st (dotted p) = true \/ exists b, source world p = Some b /\ defs_only b = true) ->
  exists st', import_with (load_one world (S f)) m st = Ret st'.
Proof.
  unfold import_with. generalize (prefixes m) as l. intros l. revert st.
  induction l as [|p r IH]; intros st H; cbn [py_foldl]; [eauto|].
  destruct (load_ok f p st (H p (or_introl eq_refl))) as [st1 E]. rewrite E, py_bind_ret.
  apply IH. intros q Hq. destruct (H q (or_intror Hq)) as [Hl|Hw]; [left|right; exact Hw].
  exact (load_one_mono _ _ _ _ _ E _ Hl).
Qed.

(** A statement of the sources that needs only the package, once the
    package is registered. *)
Lemma stmt_ok f cur st s :
  all_defined st -> loaded st bsn = true -> In s source_stmts -> only_pkg s = true ->
  is_call s = false -> exists st', exec_stmt (import_with (load_one world (S f))) cur st s = Ret st'.
Proof.
  intros A Hb Hin Ho Hc.
  assert (Hp : forall m, (forall p, In p (prefixes m) -> In (p, []) (needs s)) ->
               exists st1, import_with (load_one world (S f)) m st = Ret st1).
  { intros m Hm. apply import_ok. intros p Hq.
    destruct (need_ok s p [] Hin Ho (Hm p Hq)) as [[-> _]|(b & Hs & Hd & _)]; [left; exact Hb|right; eauto]. }
  assert (Hpre : forall m p, In p (prefixes m) -> In (p, @nil string) (map (fun p => (p, @nil string)) (prefixes m)))
    by (intros m p Hq; exact (in_map _ _ _ Hq)).
  destruct s as [m a|m names|m|n|g args]; cbn [is_call] in Hc; try discriminate Hc; cbn [exec_stmt].
  - destruct a; destruct (Hp m (Hpre m)) as [st1 ->]; eexists; reflexivity.
  - destruct (Hp m (fun p H => in_or_app _ _ _ (or_introl (Hpre m p H)))) as [st1 E]. rewrite E, py_bind_ret.
    assert (B : forall x, In x (map fst names) -> bound st1 (dotted m) x).
    { intros x Hx.
      assert (Hm : In (m, map fst names) (needs (SFromImport m names)))
        by (apply in_or_app; right; left; reflexivity).
      destruct (need_ok _ m (map fst names) Hin Ho Hm)
        as [[_ Hn]|(b & Hs & Hd & Hxs)]; [rewrite Hn in Hx; destruct Hx|].
      apply (ad_import_with (S f) (ad_load (S f)) m st st1 A E m b x Hs Hd (Hxs x Hx)).
      exact (import_loaded _ _ _ _ _ E (source_stmts_nonempty m names Hin)). }
    destruct (from_run (import_with (load_one world (S f))) m cur names st1 B) as (st' & R & _).
    exists st'. exact R.
  - destruct (Hp m (Hpre m)) as [st1 ->]. eexists; reflexivity.
  - eexists; reflexivity.
Qed.

Lemma body_ok f cur body st :
  all_defined st -> loaded st bsn = true -> loaded st cur = true ->
  incl body source_stmts -> forallb only_pkg body = true -> no_calls body = true ->
  exists st', py_foldl (exec_stmt (import_with (load_one world (S f))) cur) body st = Ret st' /\
              all_defined st' /\ mono st st'.
Proof.
  revert st. induction body as [|s r IH]; intros st A Hb Hc Hi Ho Hn; cbn [py_foldl].
  { exists st. split; [reflexivity|split; [exact A|apply mono_refl]]. }
  cbn [forallb] in Ho. apply andb_prop in Ho as [Ho1 Ho2].
  unfold no_calls in Hn. cbn [forallb] in Hn. apply andb_prop in Hn as [Hn1 Hn2]. apply negb_true_iff in Hn1.
  destruct (stmt_ok f cur st s A Hb (Hi s (or_introl eq_refl)) Ho1 Hn1) as [st1 E]. rewrite E, py_bind_ret.
  pose proof (mono_exec _ _ _ _ _ _ E) as M.
  destruct (IH st1 (ad_exec (S f) cur st s st1 (ad_load (S f)) A Hc E) (M _ Hb) (M _ Hc)
               (fun q Hq => Hi q (or_intror Hq)) Ho2 Hn2) as (st' & R & A' & M').
  exists st'. split; [exact R|split; [exact A'|exact (mono_trans _ _ _ M M')]].
Qed.

(** [from .X import *] in __init__.py, once [X] loads. *)
Lemma star_pkg_ok f st X :
  loaded st bsn = true -> (exists st1, load_one world (S f) [bsn; X] st = Ret st1) ->
  exists st', exec_stmt (import_with (load_one world (S f))) bsn st (SFromImportStar [bsn; X]) = Ret st'.
Proof.
  intros Hb [st1 E]. cbn [exec_stmt]. unfold import_with.
  change (prefixes [bsn; X]) with [[bsn]; [bsn; X]]. cbn [py_foldl].
  rewrite (load_one_eq world _ [bsn]). change (loaded st (dotted [bsn])) with (loaded st bsn).
  rewrite Hb. cbn [py_bind]. rewrite E. eexists; reflexivity.
Qed.

(** conversion.py loads: [import numpy] and two [def]s. *)
Lemma conv_ok f st :
  all_defined st -> loaded st bsn = true ->
  exists st', load_one world (S (S f)) [bsn; "conversion"] st = Ret st'.
Proof.
  intros A Hb. rewrite load_one_eq. destruct (loaded st (dotted [bsn; "conversion"])) eqn:Hl; [eauto|].
  change (source world [bsn; "conversion"]) with (Some conversion_body). cbv beta iota.
  set (st1 := add_module st (dotted [bsn; "conversion"])).
  assert (A1 : all_defined st1) by (apply (ad_add st _ conversion_body A Hl); reflexivity).
  assert (L1 : loaded st1 (dotted [bsn; "conversion"]) = true)
    by (unfold st1; rewrite loaded_add, String.eqb_refl; reflexivity).
  assert (Hi : incl conversion_body source_stmts)
    by (intros s Hs; apply in_or_app; right; apply in_or_app; left; exact Hs).
  destruct (body_ok f _ conversion_body st1 A1 (mono_add _ _ _ Hb) L1 Hi eq_refl eq_refl)
    as (st' & -> & _).
  eexists; reflexivity.
Qed.

(** __notebook_support__.py loads: its imports bind [output_notebook]
    before line 70 calls it. *)
Lemma nb_ok f st :
  all_defined st -> loaded st bsn = true -> exists st', load_one world (S (S f)) nb_module st = Ret st'.
Proof.
  intros A Hb. rewrite load_one_eq. destruct (loaded st (dotted nb_module)) eqn:Hl; [eauto|].
  change (source world nb_module) with (Some notebook_body). cbv beta iota.
  set (st1 := add_module st (dotted nb_module)).
  assert (A1 : all_defined st1) by (apply (ad_add st _ notebook_body A Hl); reflexivity).
  assert (L1 : loaded st1 (dotted nb_module) = true)
    by (unfold st1; rewrite loaded_add, String.eqb_refl; reflexivity).
  assert (Hi : incl notebook_imports source_stmts)
    by (intros s Hs; apply in_or_app; right; apply in_or_app; right; exact Hs).
  destruct (body_ok f _ notebook_imports st1 A1 (mono_add _ _ _ Hb) L1 Hi eq_refl eq_refl)
    as (s1 & E1 & _).
  pose proof (nb_imports_bind _ _ _ _ _ E1) as B.
  unfold notebook_body. rewrite py_foldl_app, E1, py_bind_ret. cbn [app py_foldl].
  unfold output_notebook_call. cbn [exec_stmt].
  destruct (dict_get (globals s1 (dotted nb_module)) "output_notebook") eqn:E; [|destruct (B E)].
  rewrite py_bind_ret.
  destruct (defs_run (import_with (load_one world (S f))) (dotted nb_module) notebook_defs
              {| sys_modules := sys_modules s1; trace := (trace s1 ++ [(p, "hide_banner=True")])%list |}
              eq_refl) as [s2 ->].
  eexists; reflexivity.
Qed.

Lemma init_stmt_ok f st s :
  all_defined st -> loaded st bsn = true -> In s init_body ->
  exists st', exec_stmt (import_with (load_one world (S (S f)))) bsn st s = Ret st'.
Proof.
  intros A Hb Hin. assert (Hsrc : In s source_stmts) by (apply in_or_app; left; exact Hin).
  destruct (init_cases s Hin) as [->|[->|(X & -> & Ho)]]; apply star_pkg_ok; try exact Hb.
  - exact (conv_ok f st A Hb).
  - exact (nb_ok f st A Hb).
  - apply (load_ok (S f)).
    assert (Hn : In ([bsn; X], []) (needs (SFromImportStar [bsn; X]))) by (right; left; reflexivity).
    destruct (need_ok _ [bsn; X] [] Hsrc Ho Hn) as [[E _]|(b & Hs & Hd & _)]; [discriminate E|right; eauto].
Qed.

Lemma init_ok f l st :
  incl l init_body -> all_defined st -> loaded st bsn = true ->
  exists st', py_foldl (exec_stmt (import_with (load_one world (S (S f)))) bsn) l st = Ret st'.
Proof.
  revert st. induction l as [|s r IH]; intros st Hi A Hb; cbn [py_foldl]; [eauto|].
  destruct (init_stmt_ok f st s A Hb (Hi s (or_introl eq_refl))) as [st1 E]. rewrite E, py_bind_ret.
  exact (IH st1 (fun q Hq => Hi q (or_intror Hq)) (ad_exec _ _ _ _ _ (ad_load _) A Hb E)
            (mono_exec _ _ _ _ _ _ E _ Hb)).
Qed.

End Live.

(** C35: [import biosignalsnotebooks] returns, with fuel 3 or more, in
    every world whose modules outside the sources define the names the
    sources import from them and import nothing, with no two modules
    under one dotted name: every line of __init__.py, conversion.py and
    __notebook_support__.py up to its [def]s runs without
    ModuleNotFoundError, ImportError or NameError. *)
Theorem package_import_succeeds world fuel :
  (forall m body, world m = Some body -> defs_only body = true) ->
  (forall m1 m2 b1 b2, source world m1 = Some b1 -> source world m2 = Some b2 ->
                       dotted m1 = dotted m2 -> m1 = m2) ->
  (forall m xs, In (m, xs) world_needs -> exists b, world m = Some b /\ forall x, In x xs -> In (SDef x) b) ->
  3 <= fuel -> exists st, import_package world fuel = Ret st.
Proof.
  intros Hd Hi Hp H. destruct fuel as [|[|[|f]]]; [lia|lia|lia|].
  unfold import_package, import_module, import_with. change (prefixes [bsn]) with [[bsn]].
  cbn [py_foldl]. rewrite load_one_eq. change (loaded empty_interp (dotted [bsn])) with false.
  change (source world [bsn]) with (Some init_body). cbv beta iota. change (dotted [bsn]) with bsn.
  assert (A0 : all_defined world (add_module empty_interp bsn)).
  { apply (ad_add world Hi empty_interp [bsn] init_body); [intros m b x _ _ _ E; discriminate E|reflexivity..]. }
  destruct (init_ok world Hd Hi Hp f init_body _ (fun s Hs => Hs) A0 eq_refl) as [st1 ->].
  eexists; reflexivity.
Qed.

(** ** The demo world meets the hypotheses *)

Definition demo_names : list modname := [bsn] :: [bsn; "conversion"] :: nb_module :: map fst demo_modules.

Lemma source_demo m b : source demo_world m = Some b -> In m demo_names.
Proof.
  unfold source. destruct (list_eq_dec string_dec m [bsn]) as [->|]; [intros _; now left|].
  destruct (list_eq_dec string_dec m [bsn; "conversion"]) as [->|]; [intros _; right; now left|].
  destruct (list_eq_dec string_dec m nb_module) as [->|]; [intros _; right; right; now left|].
  intros H. apply assoc_world_in in H. right; right; right. exact (in_map fst _ _ H).
Qed.

Lemma demo_defs m body : demo_world m = Some body -> defs_only body = true.
Proof.
  intros H. apply assoc_world_in in H.
  assert (C : forallb (fun p => defs_only (snd p)) demo_modules = true) by reflexivity.
  rewrite forallb_forall in C. exact (C _ H).
Qed.

Lemma demo_inj m1 m2 b1 b2 :
  source demo_world m1 = Some b1 -> source demo_world m2 = Some b2 -> dotted m1 = dotted m2 -> m1 = m2.
Proof.
  intros H1 H2 E. apply source_demo in H1, H2.
  assert (C : forallb (fun a => forallb (fun c => negb (String.eqb (dotted a) (dotted c)) ||
                                                 (if list_eq_dec string_dec a c then true else false))
                                         demo_names) demo_names = true) by (vm_compute; reflexivity).
  rewrite forallb_forall in C. specialize (C _ H1). rewrite forallb_forall in C. specialize (C _ H2).
  rewrite E, String.eqb_refl in C. cbn [negb orb] in C.
  destruct (list_eq_dec string_dec m1 m2); [assumption|discriminate C].
Qed.

Definition defines (b : list stmt) (x : string) : bool :=
  existsb (fun s => match s with SDef y => String.eqb x y | _ => false end) b.

Lemma defines_In b x : defines b x = true -> In (SDef x) b.
Proof.
  unfold defines. rewrite existsb_exists. intros (s & Hs & E).
  destruct s; try discriminate E. apply String.eqb_eq in E. now subst.
Qed.

Lemma demo_prov m xs :
  In (m, xs) world_needs -> exists b, demo_world m = Some b /\ forall x, In x xs -> In (SDef x) b.
Proof.
  intros H.
  assert (C : forallb (fun q => match demo_world (fst q) with
                                | Some b => forallb (defines b) (snd q)
                                | None => false end) world_needs = true) by (vm_compute; reflexivity).
  rewrite forallb_forall in C. specialize (C _ H). cbn [fst snd] in C.
  destruct (demo_world m) as [b|]; [|discriminate C]. exists b. split; [reflexivity|].
  rewrite forallb_forall in C. intros x Hx. exact (defines_In _ _ (C x Hx)).
Qed.

Lemma package_import_succeeds_witness : exists st, import_package demo_world 3 = Ret st.
Proof. exact (package_import_succeeds demo_world 3 demo_defs demo_inj demo_prov ltac:(lia)). Defined.

End PackageLive.
